(** * Industry Buy Pressure dashboard (app.py): a shallow embedding of the
    data-loading and classification helpers, with their properties. *)

From Stdlib Require Import QArith Qround Lqa ZArith String Ascii Lia Sorted Permutation.
From stdpp Require Import base list gmap strings.

Open Scope Z_scope.

(* ================================================================== *)
(** ** Python floats *)

(** A Python [float] as its exact value: every finite double is a
    rational, and comparisons between doubles are exact, so a finite
    float is a [Q].  The infinities and NaN are kept apart; every
    comparison with NaN is false, as in IEEE 754. *)
Inductive pyfloat : Type :=
| Fin (q : Q)
| PInf
| NInf
| NaN.

(** [x < y] on [Q], as the boolean the interpreter computes. *)
Definition Qltb (x y : Q) : bool :=
  Z.ltb (Qnum x * Zpos (Qden y)) (Qnum y * Zpos (Qden x)).

(** Python's [a < b] on floats. *)
Definition flt_lt (a b : pyfloat) : bool :=
  match a, b with
  | Fin x, Fin y => Qltb x y
  | NInf, Fin _ | NInf, PInf | Fin _, PInf => true
  | _, _ => false
  end.

(** Python's [a <= b] on floats ([a < b or a == b]). *)
Definition flt_le (a b : pyfloat) : bool :=
  match a, b with
  | Fin x, Fin y => Qle_bool x y
  | NaN, _ | _, NaN => false
  | NInf, _ | _, PInf => true
  | _, _ => false
  end.

(** [pd.isna] on a float. *)
Definition py_isna (a : pyfloat) : bool :=
  match a with NaN => true | _ => false end.

(** The doubles denoted by the literals of app.py (exact values). *)
Definition lit_0_667 : Q := 3003900951456121 # 4503599627370496.
Definition lit_0_60  : Q := 5404319552844595 # 9007199254740992.
Definition lit_0_55  : Q := 2476979795053773 # 4503599627370496.
Definition lit_0_333 : Q := 5998794703657501 # 18014398509481984.
Definition lit_0_45  : Q := 8106479329266893 # 18014398509481984.
Definition lit_0_70  : Q := 3152519739159347 # 4503599627370496.

(* ================================================================== *)
(** ** get_buy_pressure_status / get_buy_pressure_status_display *)

(** The six buckets; each stands for the label string of app.py
    ("3 🔥 EXTREME", "2 🚀 STRONG", ..., and the same labels without the
    leading sort key in the display variant). *)
Inductive bp_status : Type := WEAK | CAUTION | NEUTRAL | BUY | STRONG | EXTREME.

(** get_buy_pressure_status: the sort-key prefix of the returned label
    ("3", "2", "1", "0a", "0b", "0c") paired with its bucket. *)
Definition get_buy_pressure_status (buy_pressure : pyfloat) : string * bp_status :=
  if flt_lt (Fin lit_0_667) buy_pressure then ("3"%string, EXTREME)
  else if flt_lt (Fin lit_0_60) buy_pressure then ("2"%string, STRONG)
  else if flt_lt (Fin lit_0_55) buy_pressure then ("1"%string, BUY)
  else if flt_lt buy_pressure (Fin lit_0_333) then ("0a"%string, WEAK)
  else if flt_lt buy_pressure (Fin lit_0_45) then ("0b"%string, CAUTION)
  else ("0c"%string, NEUTRAL).

(** get_buy_pressure_status_display: same branches, label without key. *)
Definition get_buy_pressure_status_display (buy_pressure : pyfloat) : bp_status :=
  if flt_lt (Fin lit_0_667) buy_pressure then EXTREME
  else if flt_lt (Fin lit_0_60) buy_pressure then STRONG
  else if flt_lt (Fin lit_0_55) buy_pressure then BUY
  else if flt_lt buy_pressure (Fin lit_0_333) then WEAK
  else if flt_lt buy_pressure (Fin lit_0_45) then CAUTION
  else NEUTRAL.

(** The bucket order (the order of the sort keys). *)
Definition status_rank (s : bp_status) : nat :=
  match s with
  | WEAK => 0 | CAUTION => 1 | NEUTRAL => 2 | BUY => 3 | STRONG => 4 | EXTREME => 5
  end%nat.

(* ================================================================== *)
(** ** get_color_from_buy_pressure *)

(** Python's [min(a, b)]: [b] replaces [a] only when [b < a]. *)
Definition py_min (a b : pyfloat) : pyfloat := if flt_lt b a then b else a.
(** Python's [max(a, b)]: [b] replaces [a] only when [b > a]. *)
Definition py_max (a b : pyfloat) : pyfloat := if flt_lt a b then b else a.

(** Python's [int(x)]: truncation toward zero. *)
Definition py_int (q : Q) : Z :=
  if Qle_bool 0 q then Qfloor q else - Qfloor (- q).

Definition hex_digit (n : N) : ascii :=
  match n with
  | 0 => "0" | 1 => "1" | 2 => "2" | 3 => "3" | 4 => "4" | 5 => "5"
  | 6 => "6" | 7 => "7" | 8 => "8" | 9 => "9" | 10 => "a" | 11 => "b"
  | 12 => "c" | 13 => "d" | 14 => "e" | _ => "f"
  end%N%char.

(** The lowercase hexadecimal digits of [n] ([fuel] bounds the digit count). *)
Fixpoint hex_string (fuel : nat) (n : N) (acc : string) : string :=
  match fuel with
  | O => acc
  | S fuel' =>
      let acc' := String (hex_digit (N.modulo n 16)) acc in
      if N.ltb n 16 then acc' else hex_string fuel' (N.div n 16) acc'
  end.

(** [f"{n:02x}"] for [n >= 0]: hexadecimal, zero-padded to two digits. *)
Definition fmt02x (n : Z) : string :=
  let s := hex_string 64 (Z.to_N n) EmptyString in
  if Nat.ltb (String.length s) 2 then String "0" s else s.

(** A power of two as a [Q]. *)
Definition pow2 (e : Z) : Q :=
  if 0 <=? e then inject_Z (2 ^ e) else 1 # Z.to_pos (2 ^ (- e)).

(** The integer nearest to [x], ties to the even one. *)
Definition round_half_even (x : Q) : Z :=
  let f := Qfloor x in
  match Qcompare (x - inject_Z f) (1 # 2) with
  | Lt => f
  | Gt => f + 1
  | Eq => if Z.even f then f else f + 1
  end.

(** IEEE 754 rounding of an exact result to the nearest double, ties to
    even: a 53-bit significand, with the exponent kept at or above that
    of the subnormals, 2^-1074.  Overflow to infinity is not written:
    the results rounded here stay below 256. *)
Definition dbl_round (q : Q) : Q :=
  if Qeq_bool q 0 then 0
  else
    let a := if Qle_bool 0 q then q else (- q)%Q in
    let k0 := Z.log2 (Qnum a) - Z.log2 (Zpos (Qden a)) in
    let k := if Qle_bool (pow2 k0) a then k0 else k0 - 1 in (* 2^k <= a < 2^(k+1) *)
    let e := Z.max (k - 52) (-1074) in
    let r := (inject_Z (round_half_even (a / pow2 e)) * pow2 e)%Q in
    if Qle_bool 0 q then r else (- r)%Q.

(** get_color_from_buy_pressure.  Each float operation is the exact
    operation on [Q] followed by [dbl_round]. *)
Definition get_color_from_buy_pressure (buy_pressure : pyfloat) : string :=
  if py_isna buy_pressure then "#808080"%string
  else
    match py_max (Fin 0) (py_min (Fin 1) buy_pressure) with
    | Fin normalized =>
        let '(r, g, b) :=
          if Qle_bool (1 # 2) normalized then
            let ratio := dbl_round (dbl_round (normalized - (1 # 2)) * 2)%Q in
            (py_int (dbl_round (255 * dbl_round (1 - ratio)))%Q, 255, 0)
          else
            let ratio := dbl_round (normalized * 2)%Q in
            (255, py_int (dbl_round (255 * ratio))%Q, 0) in
        ("#" ++ fmt02x r ++ fmt02x g ++ fmt02x b)%string
    | _ => "#808080"%string (* unreachable: the clamp of a non-NaN float is finite *)
    end.

Example color_probe_07 : get_color_from_buy_pressure (Fin lit_0_70) = "#99ff00"%string.
Proof. vm_compute. reflexivity. Qed.

(** 0.3: [255 * 0.6] rounds to 153.0 exactly, so [g] is 0x99. *)
Example color_probe_03 :
  get_color_from_buy_pressure (Fin (5404319552844595 # 18014398509481984)) = "#ff9900"%string.
Proof. vm_compute. reflexivity. Qed.

Example status_probe : get_buy_pressure_status (Fin lit_0_667) = ("2"%string, STRONG).
Proof. vm_compute. reflexivity. Qed.

(* ================================================================== *)
(** ** find_latest_file *)

(** A Python call that returns a value or raises. *)
Inductive py_result (A E : Type) : Type :=
| POk (a : A)
| PErr (e : E).
Arguments POk {A E} a.
Arguments PErr {A E} e.

Definition chars (s : string) : list ascii := list_ascii_of_string s.

(** [[0-9]] on a byte of a label (the status labels, whose only digits
    are ASCII). *)
Definition is_digit (c : ascii) : bool :=
  Nat.leb 48 (nat_of_ascii c) && Nat.leb (nat_of_ascii c) 57.

(** A Python [str]: its sequence of code points. *)
Definition pystr : Type := list Z.

(** The six payload bits of a UTF-8 continuation byte. *)
Definition utf8_payload (b : ascii) : Z := Z.of_nat (nat_of_ascii b) mod 64.

(** UTF-8 decoding (of well-formed input): the file names below are
    written as Rocq string literals and read through it. *)
Fixpoint utf8_decode (l : list ascii) : pystr :=
  match l with
  | [] => []
  | b0 :: r0 =>
      let c0 := Z.of_nat (nat_of_ascii b0) in
      if c0 <? 128 then c0 :: utf8_decode r0
      else
        match r0 with
        | [] => [c0]
        | b1 :: r1 =>
            if c0 <? 224 then (c0 mod 32) * 64 + utf8_payload b1 :: utf8_decode r1
            else
              match r1 with
              | [] => [c0]
              | b2 :: r2 =>
                  if c0 <? 240 then
                    ((c0 mod 16) * 64 + utf8_payload b1) * 64 + utf8_payload b2
                      :: utf8_decode r2
                  else
                    match r2 with
                    | [] => [c0]
                    | b3 :: r3 =>
                        (((c0 mod 8) * 64 + utf8_payload b1) * 64 + utf8_payload b2) * 64
                          + utf8_payload b3 :: utf8_decode r3
                    end
              end
        end
  end.

Definition ustr (s : string) : pystr := utf8_decode (chars s).

(** The digit zero of every run of ten Unicode decimal digits (general
    category Nd), from the Unicode 14.0 database of Python 3.11's
    [unicodedata]: the run starting at [z] holds the digits 0..9 at the
    code points [z] .. [z + 9] (ASCII: 48; fullwidth: 65296). *)
Definition nd_zeros : list Z :=
  [48; 1632; 1776; 1984; 2406; 2534; 2662; 2790; 2918; 3046; 3174; 3302; 3430;
   3558; 3664; 3792; 3872; 4160; 4240; 6112; 6160; 6470; 6608; 6784; 6800;
   6992; 7088; 7232; 7248; 42528; 43216; 43264; 43472; 43504; 43600; 44016;
   65296; 66720; 68912; 69734; 69872; 69942; 70096; 70384; 70736; 70864;
   71248; 71360; 71472; 71904; 72016; 72784; 73040; 73120; 92768; 92864;
   93008; 120782; 120792; 120802; 120812; 120822; 123200; 123632; 125264;
   130032].

(** [unicodedata.decimal(c)]: the value [int()] gives the digit [c]. *)
Definition decimal_value (c : Z) : option Z :=
  match List.find (fun z => (z <=? c) && (c <? z + 10)) nd_zeros with
  | Some z => Some (c - z)
  | None => None
  end.

(** [\d] of a [str] pattern ([Py_UNICODE_ISDECIMAL]). *)
Definition is_decimal (c : Z) : bool :=
  match decimal_value c with Some _ => true | None => false end.

Definition ends_with (suf l : pystr) : bool :=
  Nat.leb (length suf) (length l) && bool_decide (drop (length l - length suf) l = suf).

Definition xlsx : pystr := ustr ".xlsx".

(** A 15-code-point [\d{8}_\d{6}] token (95 is '_'). *)
Definition is_token (t : pystr) : bool :=
  Nat.eqb (length t) 15 && forallb is_decimal (take 8 t)
  && bool_decide (t !! 8%nat = Some 95) && forallb is_decimal (drop 9 t).

(** The token matched by [(\d{8}_\d{6})\.xlsx] when it ends [l]. *)
Definition token_before_xlsx (l : pystr) : option pystr :=
  if ends_with xlsx l && Nat.leb 20 (length l) then
    let tok := take 15 (drop (length l - 20) l) in
    if is_token tok then Some tok else None
  else None.

(** [re.compile(r'(\d{8}_\d{6})\.xlsx$').search(filename).group(1)]:
    [$] matches at the end of the name or before a final newline (10). *)
Definition date_token (filename : pystr) : option pystr :=
  match token_before_xlsx filename with
  | Some t => Some t
  | None =>
      if ends_with [10] filename then token_before_xlsx (take (length filename - 1) filename)
      else None
  end.

(** [glob] of [{prefix}*.xlsx] on one directory entry (the prefix holds
    no glob metacharacters): the name starts with the prefix and ends in
    ".xlsx" after it; a name starting with '.' (46) is skipped unless
    the pattern starts with '.'. *)
Definition glob_match (prefix name : pystr) : bool :=
  let hidden :=
    match name, prefix with
    | 46 :: _, 46 :: _ => false
    | 46 :: _, _ => true
    | _, _ => false
    end in
  negb hidden && bool_decide (take (length prefix) name = prefix) && ends_with xlsx name
  && Nat.leb (length prefix + 5) (length name).

(** [os.path.join(directory, name)] (47 is '/'). *)
Definition os_path_join (directory name : pystr) : pystr :=
  match directory with
  | [] => name
  | _ => if ends_with [47] directory then directory ++ name else directory ++ 47 :: name
  end.

(** Python's order on [str]: code point by code point, a proper prefix
    first. *)
Fixpoint pystr_compare (a b : pystr) : comparison :=
  match a, b with
  | [], [] => Eq
  | [], _ :: _ => Lt
  | _ :: _, [] => Gt
  | x :: a', y :: b' =>
      match Z.compare x y with
      | Eq => pystr_compare a' b'
      | r => r
      end
  end.

Definition pystr_ltb (a b : pystr) : bool :=
  match pystr_compare a b with Lt => true | _ => false end.


(** [list.sort(key=..., reverse=True)]: CPython's sort is stable and its
    reverse mode keeps equal keys in their original order, so the result
    is the unique stable descending order, built here by insertion. *)
Section StableSortDesc.
Context {A : Type} (key : A -> pystr).

Fixpoint insert_desc (x : A) (l : list A) : list A :=
  match l with
  | [] => [x]
  | y :: l' => if pystr_ltb (key y) (key x) then x :: l else y :: insert_desc x l'
  end.

Fixpoint sort_desc_acc (acc l : list A) : list A :=
  match l with
  | [] => acc
  | x :: l' => sort_desc_acc (insert_desc x acc) l'
  end.

Definition sort_desc (l : list A) : list A := sort_desc_acc [] l.

End StableSortDesc.

(** The two [FileNotFoundError]s of find_latest_file, told apart by
    their messages. *)
Inductive find_error : Type :=
(** "'{directory}/' 内に '{prefix}*.xlsx' に一致するファイルが見つかりません。" *)
| NoMatchingFile (directory prefix : pystr)
(** "'{directory}/' 内に日付パターン(YYYYMMDD_HHMMSS)を含むファイルが見つかりません。" *)
| NoDatedFile (directory : pystr).

(** The loop of find_latest_file: each matched path paired with the
    token of its basename, in order, when it has one. *)
Definition dates_of (directory : pystr) (matched : list pystr) : list (pystr * pystr) :=
  omap (fun name =>
          match date_token name with
          | Some d => Some (os_path_join directory name, d)
          | None => None
          end) matched.

(** find_latest_file: [entries] is the directory listing in the order
    [glob] yields it; the result is the path of the chosen file. *)
Definition find_latest_file (directory prefix : pystr) (entries : list pystr)
    : py_result pystr find_error :=
  let matched_files := List.filter (glob_match prefix) entries in
  match matched_files with
  | [] => PErr (NoMatchingFile directory prefix)
  | _ =>
      let files_with_dates := dates_of directory matched_files in
      match sort_desc snd files_with_dates with
      | [] => PErr (NoDatedFile directory)
      | (path, _) :: _ => POk path
      end
  end.

(** The dated candidates of find_latest_file, in listing order. *)
Definition dated_candidates (directory prefix : pystr) (entries : list pystr)
    : list (pystr * pystr) :=
  dates_of directory (List.filter (glob_match prefix) entries).

(** The value of one decimal digit (0 for any other code point). *)
Definition digit_val (c : Z) : Z :=
  match decimal_value c with Some v => v | None => 0 end.

(** The number written by a sequence of decimal digits. *)
Fixpoint digits_val (l : pystr) : Z :=
  match l with
  | [] => 0
  | c :: l' => digit_val c * 10 ^ Z.of_nat (length l') + digits_val l'
  end.



(* ================================================================== *)
(** ** get_data_date_from_filename *)

(** The exceptions raised on the way. *)
Inductive py_exc : Type := ValueError | OverflowError.

(** [re.search(r'(\d{8})_\d{6}', filename)]: the leftmost match, as its
    first group (the eight digits). *)
Definition ts_at (l : pystr) : bool :=
  Nat.leb 15 (length l) && forallb is_decimal (take 8 l)
  && bool_decide (l !! 8%nat = Some 95) && forallb is_decimal (take 6 (drop 9 l)).

Fixpoint search_ts (l : pystr) : option pystr :=
  match l with
  | [] => None
  | _ :: l' => if ts_at l then Some (take 8 l) else search_ts l'
  end.

Definition is_leap (y : Z) : bool :=
  (y mod 4 =? 0) && (negb (y mod 100 =? 0) || (y mod 400 =? 0)).

Definition days_in_month (y m : Z) : Z :=
  match m with
  | 1 | 3 | 5 | 7 | 8 | 10 | 12 => 31
  | 4 | 6 | 9 | 11 => 30
  | 2 => if is_leap y then 29 else 28
  | _ => 0
  end.

Definition in_range (lo hi c : Z) : bool := (lo <=? c) && (c <=? hi).

(** One alternative of a directive's regex, as the list of the lengths
    it matches at the front of [s] (none or one). *)
Definition alt1 (p : Z -> bool) (s : pystr) : list nat :=
  match s with c :: _ => if p c then [1%nat] else [] | [] => [] end.

Definition alt2 (p q : Z -> bool) (s : pystr) : list nat :=
  match s with c :: c' :: _ => if p c && q c' then [2%nat] else [] | _ => [] end.

(** [(?P<m>1[0-2]|0[1-9]|[1-9])], the alternatives in order. *)
Definition month_alts (s : pystr) : list nat :=
  alt2 (Z.eqb 49) (in_range 48 50) s ++ alt2 (Z.eqb 48) (in_range 49 57) s
  ++ alt1 (in_range 49 57) s.

(** [(?P<d>3[01]|[12]\d|0[1-9]|[1-9]| [1-9])], the alternatives in order. *)
Definition day_alts (s : pystr) : list nat :=
  alt2 (Z.eqb 51) (in_range 48 49) s ++ alt2 (in_range 49 50) is_decimal s
  ++ alt2 (Z.eqb 48) (in_range 49 57) s ++ alt1 (in_range 49 57) s
  ++ alt2 (Z.eqb 32) (in_range 49 57) s.

(** [re.match] of the regex [_strptime] builds for ['%Y%m%d']:
    [(?P<Y>\d\d\d\d)], then the month and the day groups above.
    Backtracking tries the month alternatives in order and, for each,
    the day alternatives in order; the first success is the match, given
    by the lengths of its month and day groups.  (The regex is compiled
    with IGNORECASE, which changes nothing on these classes.) *)
Definition strptime_match (s : pystr) : option (nat * nat) :=
  if Nat.leb 4 (length s) && forallb is_decimal (take 4 s) then
    head (flat_map (fun lm => map (pair lm) (day_alts (drop lm (drop 4 s))))
                   (month_alts (drop 4 s)))
  else None.

(** [int()] of a matched group (it skips the leading space of the last
    day alternative). *)
Definition group_int (g : pystr) : Z := digits_val (List.filter is_decimal g).

(** [datetime.strptime(s, '%Y%m%d')] (CPython's [_strptime]): no match
    raises ValueError ("does not match format"), so does a match that
    leaves code points unconverted ("unconverted data remains"); then
    the date is built, which raises ValueError for year 0 or a day past
    the end of the month (the regex keeps the month in 1..12 and the day
    in 1..31). *)
Definition strptime_Ymd (s : pystr) : py_result (Z * Z * Z) py_exc :=
  match strptime_match s with
  | None => PErr ValueError
  | Some (lm, ld) =>
      if negb (Nat.eqb (4 + lm + ld) (length s)) then PErr ValueError
      else
        let y := group_int (take 4 s) in
        let m := group_int (take lm (drop 4 s)) in
        let d := group_int (take ld (drop (4 + lm) s)) in
        if (1 <=? y) && (d <=? days_in_month y m) then POk (y, m, d) else PErr ValueError
  end.

(** CPython's [normalize_y_m_d] (C datetime module), used by
    [datetime - timedelta(days=1)] with the day already decremented.
    Only the branches for a day one out of range are written: the day
    passed here is the valid day minus one. *)
Definition normalize_y_m_d (y m d : Z) : py_result (Z * Z * Z) py_exc :=
  let dim := days_in_month y m in
  let '(y', m', d') :=
    if (d <? 1) || (dim <? d) then
      if d =? 0 then
        if 0 <? m - 1 then (y, m - 1, days_in_month y (m - 1)) else (y - 1, 12, 31)
      else (* d = dim + 1 *)
        if 12 <? m + 1 then (y + 1, 1, 1) else (y, m + 1, 1)
    else (y, m, d) in
  if (1 <=? y') && (y' <=? 9999) then POk (y', m', d') else PErr OverflowError.

Fixpoint dec_string (fuel : nat) (n : N) (acc : string) : string :=
  match fuel with
  | O => acc
  | S fuel' =>
      let acc' := String (hex_digit (N.modulo n 10)) acc in
      if N.ltb n 10 then acc' else dec_string fuel' (N.div n 10) acc'
  end.

(** A decimal number zero-padded to [w] digits. *)
Definition pad_dec (w : nat) (n : Z) : string :=
  let s := dec_string 64 (Z.to_N n) EmptyString in
  (String.concat "" (repeat "0"%string (w - String.length s)) ++ s)%string.

(** [strftime('%Y-%m-%d')]: the year as four digits, month and day as
    two.  Years below 1000 are written here zero-padded; whether Python
    pads them depends on the platform's C library (on glibc, Python 3.11
    writes them unpadded). *)
Definition strftime_Ymd (y m d : Z) : string :=
  (pad_dec 4 y ++ "-" ++ pad_dec 2 m ++ "-" ++ pad_dec 2 d)%string.

(** get_data_date_from_filename ("不明" is "unknown"). *)
Definition get_data_date_from_filename (filename : pystr) : py_result pystr py_exc :=
  match search_ts filename with
  | None => POk (ustr "不明")
  | Some digits =>
      match strptime_Ymd digits with
      | PErr e => PErr e
      | POk (y, m, d) =>
          match normalize_y_m_d y m (d - 1) with
          | PErr e => PErr e
          | POk (y', m', d') => POk (ustr (strftime_Ymd y' m' d'))
          end
      end
  end.








(* ================================================================== *)
(** ** load_data: normalising the industry sheets *)

(** A spreadsheet cell as pandas reads it: a number, a text, or empty
    (NaN). *)
Inductive cell : Type :=
| CNum (q : Q)
| CStr (s : string)
| CMissing.

(** [pd.isna] on a cell of an object column. *)
Definition cell_isna (c : cell) : bool :=
  match c with CMissing => true | _ => false end.

(** One row of the Multi_Condition_Passed sheet, after the column
    selection [df_industry[['Industry', 'RS_Rating', 'Buy_Pressure']]]. *)
Record industry_row : Type := {
  ir_industry : cell;
  ir_rs_rating : cell;
  ir_buy_pressure : cell
}.

(** The same row after [pd.to_numeric(..., errors='coerce')] on the two
    score columns. *)
Record industry_num_row : Type := {
  in_industry : cell;
  in_rs_rating : pyfloat;
  in_buy_pressure : pyfloat
}.

(** One row of the Full_Results sheet; [fr_rs_rating] is read only when
    the sheet has an RS_Rating column. *)
Record full_row : Type := {
  fr_industry : cell;
  fr_buy_pressure : cell;
  fr_rs_rating : cell
}.

(** The Full_Results sheet: which of the three columns it has, and its rows. *)
Record full_sheet : Type := {
  fs_has_industry : bool;
  fs_has_buy_pressure : bool;
  fs_has_rs_rating : bool;
  fs_rows : list full_row
}.

(** A row of df_all_industry: RS_Rating is absent ([None]) when the
    Full_Results sheet has no such column. *)
Record all_industry_row : Type := {
  ai_industry : cell;
  ai_buy_pressure : pyfloat;
  ai_rs_rating : option pyfloat
}.

Section Normalise.
(** How [pd.to_numeric] reads a text cell: [None] when the text is not
    a number (coerced to NaN). *)
Context (parse_number : string -> option pyfloat).

(** [pd.to_numeric(cell, errors='coerce')]. *)
Definition to_numeric (c : cell) : pyfloat :=
  match c with
  | CNum q => Fin q
  | CStr s => match parse_number s with Some v => v | None => NaN end
  | CMissing => NaN
  end.

Definition coerce_industry_row (r : industry_row) : industry_num_row :=
  {| in_industry := ir_industry r;
     in_rs_rating := to_numeric (ir_rs_rating r);
     in_buy_pressure := to_numeric (ir_buy_pressure r) |}.

(** [df.dropna()]: a row with any missing value goes. *)
Definition industry_row_notna (r : industry_num_row) : bool :=
  negb (cell_isna (in_industry r)) && negb (py_isna (in_rs_rating r))
  && negb (py_isna (in_buy_pressure r)).

(** The qualifying-industry table df_industry (app.py lines 173-176). *)
Definition normalize_industry (rows : list industry_row) : list industry_num_row :=
  List.filter industry_row_notna (map coerce_industry_row rows).

Definition coerce_full_row (has_rs : bool) (r : full_row) : all_industry_row :=
  {| ai_industry := fr_industry r;
     ai_buy_pressure := to_numeric (fr_buy_pressure r);
     ai_rs_rating := if has_rs then Some (to_numeric (fr_rs_rating r)) else None |}.

(** df_all_industry (app.py lines 178-192): from Full_Results when the
    sheet exists with Industry and Buy_Pressure columns, keeping the rows
    whose Buy_Pressure is not NaN ([dropna(subset=['Buy_Pressure'])]);
    otherwise a copy of df_industry. *)
Definition all_industry_table (full : option full_sheet) (df_industry : list industry_num_row)
    : list all_industry_row :=
  let fallback :=
    map (fun r => {| ai_industry := in_industry r; ai_buy_pressure := in_buy_pressure r;
                     ai_rs_rating := Some (in_rs_rating r) |}) df_industry in
  match full with
  | Some sh =>
      if fs_has_industry sh && fs_has_buy_pressure sh then
        List.filter (fun r => negb (py_isna (ai_buy_pressure r)))
          (map (coerce_full_row (fs_has_rs_rating sh)) (fs_rows sh))
      else fallback
  | None => fallback
  end.
End Normalise.

(* ================================================================== *)
(** ** load_data: the industry-to-sector map *)

(** A row of Screening_Results reduced to its two text columns Industry
    and Sector; an empty cell is [None]. *)
Record industry_sector_row : Type := {
  isr_industry : option string;
  isr_sector : option string
}.

Definition pair_of_row (r : industry_sector_row) : option string * option string :=
  (isr_industry r, isr_sector r).

(** [.dropna()]: both cells present. *)
Definition dropna_pairs (l : list (option string * option string)) : list (string * string) :=
  omap (fun p => match p with (Some i, Some s) => Some (i, s) | _ => None end) l.

(** [.drop_duplicates()]: keep the first occurrence of each row. *)
Fixpoint drop_duplicates_acc {A} `{EqDecision A} (seen : list A) (l : list A) : list A :=
  match l with
  | [] => []
  | x :: l' =>
      if bool_decide (x ∈ seen) then drop_duplicates_acc seen l'
      else x :: drop_duplicates_acc (x :: seen) l'
  end.

Definition drop_duplicates {A} `{EqDecision A} (l : list A) : list A := drop_duplicates_acc [] l.

(** [Series.unique()]: distinct values in order of first appearance. *)
Definition unique {A} `{EqDecision A} (l : list A) : list A := drop_duplicates l.

Definition count_occ_str (l : list string) (x : string) : nat :=
  length (List.filter (fun y => String.eqb y x) l).

(** Ascending insertion sort on strings (pandas sorts the modes). *)
Fixpoint insert_asc (x : string) (l : list string) : list string :=
  match l with
  | [] => [x]
  | y :: l' => if String.leb x y then x :: l else y :: insert_asc x l'
  end.

Definition sort_asc (l : list string) : list string := fold_right insert_asc [] l.

(** [Series.mode()]: the distinct values of maximal count, sorted. *)
Definition series_mode (l : list string) : list string :=
  let maxc := fold_right (fun x m => Nat.max (count_occ_str l x) m) 0%nat l in
  sort_asc (unique (List.filter (fun x => Nat.eqb (count_occ_str l x) maxc) l)).

(** The loop building [industry_sector_map] (app.py lines 201-206), when
    Screening_Results has Sector and Industry columns. *)
Definition build_industry_sector_map (rows : list industry_sector_row) : gmap string string :=
  let sector_df := drop_duplicates (dropna_pairs (map pair_of_row rows)) in
  fold_left
    (fun (m : gmap string string) industry =>
       let sectors := map snd (List.filter (fun p => String.eqb (fst p) industry) sector_df) in
       <[industry := if Nat.ltb 0 (length sectors) then
                       match series_mode sectors with
                       | s :: _ => s (* .iloc[0] *)
                       | [] => "Unknown"%string (* unreachable: a non-empty series has a mode *)
                       end
                     else "Unknown"%string]> m)
    (unique (map fst sector_df)) ∅.

(** [df['Industry'].map(industry_sector_map).fillna('Unknown')] on one row. *)
Definition sector_lookup (m : gmap string string) (industry : option string) : string :=
  match industry with
  | Some i => match m !! i with Some s => s | None => "Unknown"%string end
  | None => "Unknown"%string
  end.

(** A Full_Results sheet with one usable and one unusable pressure. *)
Definition full_sheet_sample : full_sheet :=
  {| fs_has_industry := true; fs_has_buy_pressure := true; fs_has_rs_rating := true;
     fs_rows :=
       [ {| fr_industry := CStr "Semiconductors"; fr_buy_pressure := CNum (7 # 10);
            fr_rs_rating := CMissing |};
         {| fr_industry := CStr "Banks"; fr_buy_pressure := CStr "n/a";
            fr_rs_rating := CNum 80 |} ] |}.

(* ================================================================== *)
(** ** numpy's [argsort(kind='quicksort')] *)

#[global] Instance pyfloat_inhabited : Inhabited pyfloat := populate NaN.

(** numpy's portable introsort on an index array ([aquicksort_] and
    [aheapsort_] in npysort), the path taken when no SIMD argsort is
    dispatched.  [v] holds the keys, [ts] the index array ([tosort]);
    pointers into [ts] are integers; [Tag::less] on NaN-free keys is
    [<].  Every loop runs on fuel larger than the array. *)
Module NpySort.
Definition SMALL_QUICKSORT : Z := 16.

Definition at_ (ts : list nat) (p : Z) : nat := ts !!! Z.to_nat p.
Definition val (v : list pyfloat) (ts : list nat) (p : Z) : pyfloat := v !!! at_ ts p.
Definition set_ (ts : list nat) (p : Z) (x : nat) : list nat := <[Z.to_nat p := x]> ts.
(** [INTP_SWAP] of the entries at [p] and [q]. *)
Definition swap (ts : list nat) (p q : Z) : list nat :=
  set_ (set_ ts p (at_ ts q)) q (at_ ts p).

(** [npy_get_msb]: the position of the highest set bit. *)
Fixpoint get_msb_fuel (fuel : nat) (n : Z) : Z :=
  match fuel with
  | O => 0
  | S f => if 1 <? n then 1 + get_msb_fuel f (Z.shiftr n 1) else 0
  end.
Definition get_msb (n : Z) : Z := get_msb_fuel 64 n.

(** [do { ++pi; } while (less(v[*pi], vp));] *)
Fixpoint scan_up (fuel : nat) (v : list pyfloat) (ts : list nat) (vp : pyfloat) (pi : Z) : Z :=
  match fuel with
  | O => pi
  | S f => if flt_lt (val v ts (pi + 1)) vp then scan_up f v ts vp (pi + 1) else pi + 1
  end.

(** [do { --pj; } while (less(vp, v[*pj]));] *)
Fixpoint scan_down (fuel : nat) (v : list pyfloat) (ts : list nat) (vp : pyfloat) (pj : Z) : Z :=
  match fuel with
  | O => pj
  | S f => if flt_lt vp (val v ts (pj - 1)) then scan_down f v ts vp (pj - 1) else pj - 1
  end.

(** The [for (;;)] loop of the partition; returns the array and [pi]. *)
Fixpoint partition_loop (fuel : nat) (v : list pyfloat) (ts : list nat) (vp : pyfloat)
    (pi pj : Z) : list nat * Z :=
  match fuel with
  | O => (ts, pi)
  | S f =>
      let pi' := scan_up (length v) v ts vp pi in
      let pj' := scan_down (length v) v ts vp pj in
      if pj' <=? pi' then (ts, pi')
      else partition_loop f v (swap ts pi' pj') vp pi' pj'
  end.

(** One median-of-three partition of [pl..pr]. *)
Definition partition (v : list pyfloat) (ts : list nat) (pl pr : Z) : list nat * Z :=
  let pm := pl + Z.shiftr (pr - pl) 1 in
  let ts := if flt_lt (val v ts pm) (val v ts pl) then swap ts pm pl else ts in
  let ts := if flt_lt (val v ts pr) (val v ts pm) then swap ts pr pm else ts in
  let ts := if flt_lt (val v ts pm) (val v ts pl) then swap ts pm pl else ts in
  let vp := val v ts pm in
  let ts := swap ts pm (pr - 1) in
  let '(ts, pi) := partition_loop (length v) v ts vp pl (pr - 1) in
  (swap ts pi (pr - 1), pi).

(** [while ((pr - pl) > SMALL_QUICKSORT) { ... }]: partition, push the
    larger side with the decremented depth, go on with the smaller. *)
Fixpoint partition_phase (fuel : nat) (v : list pyfloat) (ts : list nat) (pl pr cdepth : Z)
    (stack : list (Z * Z * Z)) : list nat * Z * Z * list (Z * Z * Z) :=
  match fuel with
  | O => (ts, pl, pr, stack)
  | S f =>
      if SMALL_QUICKSORT <? pr - pl then
        let '(ts', pi) := partition v ts pl pr in
        let cdepth' := cdepth - 1 in
        if pi - pl <? pr - pi then
          partition_phase f v ts' pl (pi - 1) cdepth' ((pi + 1, pr, cdepth') :: stack)
        else
          partition_phase f v ts' (pi + 1) pr cdepth' ((pl, pi - 1, cdepth') :: stack)
      else (ts, pl, pr, stack)
  end.

(** [while (pj > pl && less(vp, v[*pk])) { *pj-- = *pk--; }] *)
Fixpoint insertion_shift (fuel : nat) (v : list pyfloat) (ts : list nat) (vp : pyfloat)
    (pl pj : Z) : list nat * Z :=
  match fuel with
  | O => (ts, pj)
  | S f =>
      if (pl <? pj) && flt_lt vp (val v ts (pj - 1))
      then insertion_shift f v (set_ ts pj (at_ ts (pj - 1))) vp pl (pj - 1)
      else (ts, pj)
  end.

(** [for (pi = pl + 1; pi <= pr; ++pi) { ... }] *)
Fixpoint insertion_sort (fuel : nat) (v : list pyfloat) (ts : list nat) (pl pi pr : Z)
    : list nat :=
  match fuel with
  | O => ts
  | S f =>
      if pr <? pi then ts
      else
        let vi := at_ ts pi in
        let '(ts', pj) := insertion_shift (length v) v ts (v !!! vi) pl pi in
        insertion_sort f v (set_ ts' pj vi) pl (pi + 1) pr
  end.

(** The sift-down loop of [aheapsort_] on [a = tosort + base - 1]
    (one-based), holding [tmp] out of the array. *)
Fixpoint sift (fuel : nat) (v : list pyfloat) (ts : list nat) (base n : Z) (tmp : nat)
    (i j : Z) : list nat :=
  let a k := at_ ts (base + k - 1) in
  match fuel with
  | O => set_ ts (base + i - 1) tmp
  | S f =>
      if n <? j then set_ ts (base + i - 1) tmp
      else
        let j := if (j <? n) && flt_lt (v !!! a j) (v !!! a (j + 1)) then j + 1 else j in
        if flt_lt (v !!! tmp) (v !!! a j)
        then sift f v (set_ ts (base + i - 1) (a j)) base n tmp j (j + j)
        else set_ ts (base + i - 1) tmp
  end.

Fixpoint heapify (fuel : nat) (v : list pyfloat) (ts : list nat) (base n l : Z) : list nat :=
  match fuel with
  | O => ts
  | S f =>
      if l <=? 0 then ts
      else heapify f v (sift (length v) v ts base n (at_ ts (base + l - 1)) l (Z.shiftl l 1))
                   base n (l - 1)
  end.

Fixpoint pop_max (fuel : nat) (v : list pyfloat) (ts : list nat) (base n : Z) : list nat :=
  match fuel with
  | O => ts
  | S f =>
      if n <=? 1 then ts
      else
        let tmp := at_ ts (base + n - 1) in
        let ts := set_ ts (base + n - 1) (at_ ts base) in
        pop_max f v (sift (length v) v ts base (n - 1) tmp 1 2) base (n - 1)
  end.

(** [aheapsort_(vv, pl, n)]. *)
Definition aheapsort (v : list pyfloat) (ts : list nat) (base n : Z) : list nat :=
  pop_max (length v) v (heapify (length v) v ts base n (Z.shiftr n 1)) base n.

(** The outer [for (;;)] loop of [aquicksort_]. *)
Fixpoint qs_loop (fuel : nat) (v : list pyfloat) (ts : list nat) (pl pr cdepth : Z)
    (stack : list (Z * Z * Z)) : list nat :=
  match fuel with
  | O => ts
  | S f =>
      let '(ts', stack') :=
        if cdepth <? 0 then (aheapsort v ts pl (pr - pl + 1), stack)
        else
          let '(ts1, pl1, pr1, stack1) := partition_phase (length v) v ts pl pr cdepth stack in
          (insertion_sort (length v) v ts1 pl1 (pl1 + 1) pr1, stack1) in
      match stack' with
      | [] => ts'
      | (pl', pr', d') :: st => qs_loop f v ts' pl' pr' d' st
      end
  end.

(** [np.argsort(v, kind='quicksort')]: the index array starts as
    [0, 1, ..., n-1]. *)
Definition aquicksort (v : list pyfloat) : list nat :=
  let num := Z.of_nat (length v) in
  qs_loop (2 * length v + 2) v (seq 0 (length v)) 0 (num - 1) (get_msb num * 2) [].
End NpySort.

(* ================================================================== *)
(** ** [create_industry_table] *)

(** The columns of a screening row that the table reads. *)
Record screening_row : Type := {
  sr_symbol : string;
  sr_industry : cell;
  sr_technical_score : pyfloat;
  sr_screening_score : pyfloat
}.

#[global] Instance screening_row_inhabited : Inhabited screening_row :=
  populate {| sr_symbol := EmptyString; sr_industry := CMissing;
              sr_technical_score := NaN; sr_screening_score := NaN |}.

#[global] Instance industry_num_row_inhabited : Inhabited industry_num_row :=
  populate {| in_industry := CMissing; in_rs_rating := NaN; in_buy_pressure := NaN |}.

(** The [sort_by] argument: a column name. *)
Inductive sort_by_column : Type :=
| Technical_Score
| Screening_Score.

Definition sort_column (c : sort_by_column) (r : screening_row) : pyfloat :=
  match c with
  | Technical_Score => sr_technical_score r
  | Screening_Score => sr_screening_score r
  end.

(** Python's [==] between two cells of the [Industry] column. *)
Definition cell_eq (a b : cell) : bool :=
  match a, b with
  | CStr x, CStr y => String.eqb x y
  | CNum x, CNum y => Qeq_bool x y
  | _, _ => false
  end.

Section Pandas.
(** [ndarray.argsort(kind=...)] on a NaN-free float array. *)
Context (argsort : list pyfloat -> list nat).

(** pandas' [nargsort(items, kind, ascending=False, na_position='last')]:
    the non-NaN keys and their positions are reversed, argsorted, mapped
    back and reversed again; the NaN positions follow. *)
Definition nargsort_desc (items : list pyfloat) : list nat :=
  let idx := seq 0 (length items) in
  let non_nan_idx := List.filter (fun i => negb (py_isna (items !!! i))) idx in
  let non_nans := map (fun i => items !!! i) non_nan_idx in
  let nan_idx := List.filter (fun i => py_isna (items !!! i)) idx in
  let non_nans' := rev non_nans in
  let non_nan_idx' := rev non_nan_idx in
  let indexer := map (fun j => non_nan_idx' !!! j) (argsort non_nans') in
  rev indexer ++ nan_idx.

(** [df.sort_values(col, ascending=False)]: [take] of the indexer. *)
Definition sort_values_desc {A : Type} (col : A -> pyfloat) (rows : list A) : list A :=
  omap (fun i => rows !! i) (nargsort_desc (map col rows)).

(** The loop of [create_industry_table]: the groups it renders, each
    industry row with the stocks shown under it. *)
Definition create_industry_table_with (df_screening_disp : list screening_row)
    (df_industry_disp : list industry_num_row) (sort_by : sort_by_column)
    (max_stocks_per_industry : nat) : list (industry_num_row * list screening_row) :=
  let df_industry_sorted := sort_values_desc in_rs_rating df_industry_disp in
  omap (fun industry_row =>
          let industry_name := in_industry industry_row in
          let stocks_in_industry :=
            take max_stocks_per_industry
              (sort_values_desc (sort_column sort_by)
                 (List.filter (fun r => cell_eq (sr_industry r) industry_name)
                    df_screening_disp)) in
          if Nat.eqb (length stocks_in_industry) 0 then None
          else Some (industry_row, stocks_in_industry))
       df_industry_sorted.
End Pandas.

(** pandas' default [kind='quicksort'] on float64. *)
Definition create_industry_table := create_industry_table_with NpySort.aquicksort.

(** What an argsort promises: a permutation of the positions, ascending
    in value. *)
Definition argsort_sorts (argsort : list pyfloat -> list nat) : Prop :=
  forall v : list pyfloat, Forall (fun x => py_isna x = false) v ->
    Permutation (argsort v) (seq 0 (length v)) /\
    Sorted (fun i j => flt_lt (v !!! j) (v !!! i) = false) (argsort v).

(** Descending order with NaN last, as [sort_values(ascending=False)]
    means it. *)
Definition desc_before (a b : pyfloat) : bool :=
  if py_isna a then py_isna b else py_isna b || negb (flt_lt a b).

(** A plain insertion argsort. *)
Fixpoint argsort_insert (v : list pyfloat) (i : nat) (l : list nat) : list nat :=
  match l with
  | [] => [i]
  | j :: l' => if flt_lt (v !!! j) (v !!! i) then j :: argsort_insert v i l' else i :: l
  end.

Definition insertion_argsort (v : list pyfloat) : list nat :=
  fold_right (argsort_insert v) [] (seq 0 (length v)).

(** Eighteen stocks of one industry with the same technical score. *)
Definition tie_stock (k : nat) : screening_row :=
  {| sr_symbol := String (ascii_of_nat (65 + k)) EmptyString; sr_industry := CStr "Semis";
     sr_technical_score := Fin 14; sr_screening_score := Fin 14 |}.

Definition tie_stocks : list screening_row := map tie_stock (seq 0 18).

Definition tie_industry : industry_num_row :=
  {| in_industry := CStr "Semis"; in_rs_rating := Fin 90; in_buy_pressure := Fin (1 # 2) |}.

(* ================================================================== *)
(** ** Status labels as text, and the prefix strip of the check tabs *)

(** The label text of a bucket, as get_buy_pressure_status_display
    returns it. *)
Definition status_label (s : bp_status) : string :=
  match s with
  | EXTREME => "🔥 EXTREME"
  | STRONG => "🚀 STRONG"
  | BUY => "📈 BUY"
  | WEAK => "💀 WEAK"
  | CAUTION => "⚠️ CAUTION"
  | NEUTRAL => "➖ NEUTRAL"
  end.

(** The string get_buy_pressure_status returns: the sort key, a space
    and the label ("3 🔥 EXTREME", ...). *)
Definition get_buy_pressure_status_text (buy_pressure : pyfloat) : string :=
  let '(key, st) := get_buy_pressure_status buy_pressure in
  (key ++ " " ++ status_label st)%string.

Definition get_buy_pressure_status_display_text (buy_pressure : pyfloat) : string :=
  status_label (get_buy_pressure_status_display buy_pressure).

(** [[a-z]] *)
Definition is_lower (c : ascii) : bool :=
  Nat.leb 97 (nat_of_ascii c) && Nat.leb (nat_of_ascii c) 122.

(** [\s] on an ASCII character: [\t\n\v\f\r], the separators 0x1c-0x1f
    and the space. *)
Definition is_space (c : ascii) : bool :=
  let n := nat_of_ascii c in
  (Nat.leb 9 n && Nat.leb n 13) || (Nat.leb 28 n && Nat.leb n 32).

(** The longest prefix of characters satisfying [p]: its length and the rest. *)
Fixpoint span_while (p : ascii -> bool) (s : string) : nat * string :=
  match s with
  | EmptyString => (0%nat, EmptyString)
  | String c s' => if p c then let '(n, r) := span_while p s' in (S n, r) else (0%nat, s)
  end.

(** [re.sub(r'^\d+[a-z]?\s+', '', s)] (render_check_tab and
    render_check_tab_with_fs).  [^] without MULTILINE anchors at the start
    only, so at most one match is removed.  The three classes are disjoint,
    so the greedy match is the only one: a letter taken by [[a-z]?] can
    not be given back to [\s+].  [\d] and [\s] are read on ASCII; bytes of
    a multi-byte UTF-8 character match neither, as Python's Unicode classes
    do not on the texts this is applied to. *)
Definition strip_status_prefix (s : string) : string :=
  let '(nd, r1) := span_while is_digit s in
  if Nat.eqb nd 0 then s
  else
    let r2 := match r1 with
              | String c r => if is_lower c then r else r1
              | EmptyString => r1
              end in
    let '(ns, r3) := span_while is_space r2 in
    if Nat.eqb ns 0 then s else r3.

(* ================================================================== *)
(** ** html.escape *)

(** The double quote character. *)
Definition dquote : ascii := ascii_of_nat 34.

(** [s.replace(c, r)] for a one-character [c]: every occurrence, left to
    right. *)
Fixpoint replace_char (c : ascii) (r : string) (s : string) : string :=
  match s with
  | EmptyString => EmptyString
  | String x s' =>
      if Ascii.eqb x c then (r ++ replace_char c r s')%string
      else String x (replace_char c r s')
  end.

(** [html.escape(s)] with its default [quote=True]: five replacements in
    this order. *)
Definition html_escape (s : string) : string :=
  let s := replace_char "&" "&amp;" s in
  let s := replace_char "<" "&lt;" s in
  let s := replace_char ">" "&gt;" s in
  let s := replace_char dquote "&quot;" s in
  replace_char "'" "&#x27;" s.

(** What html.escape makes of one character. *)
Definition html_escape_char (x : ascii) : string :=
  if Ascii.eqb x "&" then "&amp;"
  else if Ascii.eqb x "<" then "&lt;"
  else if Ascii.eqb x ">" then "&gt;"
  else if Ascii.eqb x dquote then "&quot;"
  else if Ascii.eqb x "'" then "&#x27;"
  else String x EmptyString.

(** [html.escape(copy_text).replace("'", "\\'")] (the onclick argument
    of render_check_tab and render_check_tab_with_fs). *)
Definition onclick_copy_arg (copy_text : string) : string :=
  replace_char "'" (String "\" (String "'" EmptyString)) (html_escape copy_text).

(* ================================================================== *)
(** ** The symbol cells of the check tabs *)

(** The columns of df_screening_display that the check tabs and the
    summary read; [dr_symbol] is [str(stock['Symbol'])] and
    [dr_fundamental_score] the column [Screening_Score - Technical_Score]
    as float64 computes it (NaN when either score is NaN). *)
Record display_row : Type := {
  dr_symbol : string;
  dr_industry : cell;
  dr_technical_score : pyfloat;
  dr_screening_score : pyfloat;
  dr_buy_pressure : pyfloat;
  dr_fundamental_score : pyfloat
}.

#[global] Instance display_row_inhabited : Inhabited display_row :=
  populate {| dr_symbol := EmptyString; dr_industry := CMissing; dr_technical_score := NaN;
              dr_screening_score := NaN; dr_buy_pressure := NaN; dr_fundamental_score := NaN |}.

(** Python's [a == b] on floats; an int operand is converted exactly. *)
Definition flt_eq (a b : pyfloat) : bool :=
  match a, b with
  | Fin x, Fin y => Qeq_bool x y
  | PInf, PInf | NInf, NInf => true
  | _, _ => false
  end.

(** An int as a float operand of [==]. *)
Definition flt_of_Z (z : Z) : pyfloat := Fin (inject_Z z).

(** [sep.join(l)]. *)
Fixpoint py_join (sep : string) (l : list string) : string :=
  match l with
  | [] => EmptyString
  | [x] => x
  | x :: l' => (x ++ sep ++ py_join sep l')%string
  end.

(** [f'<span style="color:{color}; font-weight:bold;">{symbol}</span>'] *)
Definition colored_span (stock : display_row) : string :=
  ("<span style=" ++ String dquote
     ("color:" ++ get_color_from_buy_pressure (dr_buy_pressure stock) ++ "; font-weight:bold;"
      ++ String dquote (">" ++ html_escape (dr_symbol stock) ++ "</span>")))%string.

(** The part shared by get_colored_symbols_html and
    get_colored_symbols_html_with_fs once [stocks] is selected and
    sorted: [('', '')] for no stock, else the joined spans and the joined
    escaped symbols. *)
Definition colored_symbols (stocks : list display_row) : string * string :=
  if Nat.eqb (length stocks) 0 then (EmptyString, EmptyString)
  else (py_join ", " (map colored_span stocks),
        py_join ", " (map (fun stock => html_escape (dr_symbol stock)) stocks)).

Section SymbolCells.
Context (argsort : list pyfloat -> list nat).

(** get_colored_symbols_html(industry, score, df_screening_disp) *)
Definition get_colored_symbols_html_with (industry : cell) (score : Z)
    (df_screening_disp : list display_row) : string * string :=
  colored_symbols
    (sort_values_desc argsort dr_buy_pressure
       (List.filter (fun r => cell_eq (dr_industry r) industry
                              && flt_eq (dr_technical_score r) (flt_of_Z score))
          df_screening_disp)).

(** get_colored_symbols_html_with_fs(industry, ts, fs, df_screening_disp);
    [industry] is the text [str(row['業種'])]. *)
Definition get_colored_symbols_html_with_fs_with (industry : string) (ts : pyfloat) (fs : Z)
    (df_screening_disp : list display_row) : string * string :=
  colored_symbols
    (sort_values_desc argsort dr_buy_pressure
       (List.filter (fun r => cell_eq (dr_industry r) (CStr industry)
                              && flt_eq (dr_technical_score r) ts
                              && flt_eq (dr_fundamental_score r) (flt_of_Z fs))
          df_screening_disp)).
End SymbolCells.

Definition get_colored_symbols_html := get_colored_symbols_html_with NpySort.aquicksort.
Definition get_colored_symbols_html_with_fs :=
  get_colored_symbols_html_with_fs_with NpySort.aquicksort.

(* ================================================================== *)
(** ** render_check_tab_with_fs: the TS x FS sub-columns *)

(** Python's [int(x)] on a float: NaN raises ValueError, an infinity
    OverflowError. *)
Definition py_int_float (x : pyfloat) : py_result Z py_exc :=
  match x with
  | Fin q => POk (py_int q)
  | NaN => PErr ValueError
  | PInf | NInf => PErr OverflowError
  end.

(** [[int(f) for f in fs_vals]]: the first failing conversion raises. *)
Fixpoint map_int (l : list pyfloat) : py_result (list Z) py_exc :=
  match l with
  | [] => POk []
  | x :: l' =>
      match py_int_float x with
      | PErr e => PErr e
      | POk z => match map_int l' with POk zs => POk (z :: zs) | PErr e => PErr e end
      end
  end.

(** The equality of [pd.unique] on float64: [==], and NaN equal to NaN. *)
Definition flt_same (a b : pyfloat) : bool := flt_eq a b || (py_isna a && py_isna b).

(** [Series.unique()] on floats: first occurrences, in order. *)
Fixpoint unique_floats_acc (seen : list pyfloat) (l : list pyfloat) : list pyfloat :=
  match l with
  | [] => []
  | x :: l' =>
      if existsb (flt_same x) seen then unique_floats_acc seen l'
      else x :: unique_floats_acc (x :: seen) l'
  end.

Definition unique_floats (l : list pyfloat) : list pyfloat := unique_floats_acc [] l.

Section CheckTabFs.
(** Python's [sorted(..., reverse=True)] on a list of floats. *)
Context (py_sorted_desc : list pyfloat -> list pyfloat).

(** [ts_values] *)
Definition ts_values (df_screening_disp : list display_row) : list pyfloat :=
  py_sorted_desc (unique_floats (map dr_technical_score df_screening_disp)).

(** [ts_fs_map[ts]] *)
Definition fs_ints (df_screening_disp : list display_row) (ts : pyfloat) : py_result (list Z) py_exc :=
  map_int (py_sorted_desc (unique_floats
    (map dr_fundamental_score
       (List.filter (fun r => flt_eq (dr_technical_score r) ts) df_screening_disp)))).

(** The loop filling [ts_fs_map], in the order of [ts_values]. *)
Fixpoint ts_fs_map (df_screening_disp : list display_row) (tss : list pyfloat)
    : py_result (list (pyfloat * list Z)) py_exc :=
  match tss with
  | [] => POk []
  | ts :: tss' =>
      match fs_ints df_screening_disp ts with
      | PErr e => PErr e
      | POk fss =>
          match ts_fs_map df_screening_disp tss' with
          | POk m => POk ((ts, fss) :: m)
          | PErr e => PErr e
          end
      end
  end.

(** [all_sub_cols], or the exception of the first loop. *)
Definition all_sub_cols (df_screening_disp : list display_row)
    : py_result (list (pyfloat * Z)) py_exc :=
  match ts_fs_map df_screening_disp (ts_values df_screening_disp) with
  | PErr e => PErr e
  | POk m => POk (concat (map (fun '(ts, fss) => map (pair ts) fss) m))
  end.
End CheckTabFs.

(** An insertion sort by [>]: on a NaN-free list of distinct values it
    gives the order of [sorted(..., reverse=True)]. *)
Fixpoint insert_flt_desc (x : pyfloat) (l : list pyfloat) : list pyfloat :=
  match l with
  | [] => [x]
  | y :: l' => if flt_lt y x then x :: l else y :: insert_flt_desc x l'
  end.

Definition insertion_sort_desc (l : list pyfloat) : list pyfloat :=
  fold_right insert_flt_desc [] l.

(** Displayed frames on which the sub-column construction is exercised:
    integer fundamental scores, one score of 2.5 beside a 2 under the
    same technical score, and one missing fundamental score. *)
Definition disp_row (sym ind : string) (ts fs : pyfloat) : display_row :=
  {| dr_symbol := sym; dr_industry := CStr ind; dr_technical_score := ts;
     dr_screening_score := Fin 50; dr_buy_pressure := Fin (3 # 5);
     dr_fundamental_score := fs |}.

Definition disp_sample_int : list display_row :=
  [disp_row "AAA" "Semiconductors" (Fin 14) (Fin 3);
   disp_row "CCC" "Banks" (Fin 14) (Fin 2);
   disp_row "DDD" "Banks" (Fin 13) (Fin 2)].

Definition disp_sample_half : list display_row :=
  disp_sample_int ++ [disp_row "BBB" "Semiconductors" (Fin 14) (Fin (5 # 2))].

Definition disp_sample_nan : list display_row :=
  [disp_row "AAA" "Semiconductors" (Fin 14) (Fin 3);
   disp_row "EEE" "Banks" (Fin 12) NaN].

(** The row heights of both check tabs. *)
Definition row_height (sym_count : nat) : Z :=
  if Nat.leb sym_count 3 then 40
  else if Nat.leb sym_count 6 then 55
  else if Nat.leb sym_count 10 then 75
  else 95.

(** [total_height]: the base (80, or 100 for two header rows) plus one
    height per row. *)
Definition total_height (base : Z) (max_symbols_per_row : list nat) : Z :=
  fold_left (fun h c => h + row_height c) max_symbols_per_row base.

(** [row_max] of render_check_tab for the row of [industry]. *)
Definition check_row_max (df_screening_disp : list display_row) (industry : cell) : nat :=
  fold_left (fun row_max score =>
               Nat.max row_max
                 (length (List.filter (fun r => cell_eq (dr_industry r) industry
                                               && flt_eq (dr_technical_score r) (flt_of_Z score))
                             df_screening_disp)))
            [14; 13; 12; 11; 10] 0%nat.

(** The [height] render_check_tab gives its frame. *)
Definition render_check_tab_height (df_check_industries : list cell)
    (df_screening_disp : list display_row) : Z :=
  total_height 80 (map (check_row_max df_screening_disp) df_check_industries).

(* ================================================================== *)
(** ** The sidebar's technical-score slider *)

(** [Series.max()] on floats: NaN values are skipped, and NaN is the
    maximum of no value. *)
Definition series_max (l : list pyfloat) : pyfloat :=
  match List.filter (fun x => negb (py_isna x)) l with
  | [] => NaN
  | x :: l' => fold_left py_max l' x
  end.

(** [df_screening[df_screening['Technical_Score'] >= 10]] of load_data,
    on the technical-score column. *)
Definition screening_ts_filter (technical_scores : list pyfloat) : list pyfloat :=
  List.filter (fun x => flt_le (Fin 10) x) technical_scores.

(** [max_value=int(df_screening['Technical_Score'].max())] of the first
    slider. *)
Definition min_tech_slider_max (technical_scores : list pyfloat) : py_result Z py_exc :=
  py_int_float (series_max technical_scores).

(* ================================================================== *)
(** ** The industry filter and create_summary_data *)

(** [df['Industry'].isin(selected_industries)] on one cell. *)
Definition cell_isin (c : cell) (selected : list cell) : bool :=
  existsb (cell_eq c) selected.

(** df_industry_display (app.py lines 262-268). *)
Definition industry_display (selected : list cell) (df_industry : list industry_num_row)
    : list industry_num_row :=
  match selected with
  | [] => df_industry
  | _ => List.filter (fun r => cell_isin (in_industry r) selected) df_industry
  end.

(** The errors pandas raises in the code below. *)
Inductive frame_exc : Type := IndexError | KeyError.

(** One dictionary of [industry_summary]. *)
Record summary_row : Type := {
  su_industry : cell;
  su_rs_rating : pyfloat;
  su_buy_pressure : pyfloat;
  su_status : string;
  su_count : nat;
  su_avg_technical : pyfloat;
  su_avg_screening : pyfloat
}.

#[global] Instance summary_row_inhabited : Inhabited summary_row :=
  populate {| su_industry := CMissing; su_rs_rating := NaN; su_buy_pressure := NaN;
              su_status := EmptyString; su_count := 0; su_avg_technical := NaN;
              su_avg_screening := NaN |}.

Section Summary.
Context (argsort : list pyfloat -> list nat).
(** [Series.mean()] *)
Context (mean : list pyfloat -> pyfloat).

(** The body of the loop of create_summary_data for one [industry];
    [.iloc[0]] of an empty selection raises IndexError. *)
Definition summary_of (df_screening_disp : list display_row)
    (df_industry_disp : list industry_num_row) (industry : cell) : py_result summary_row frame_exc :=
  let stocks := List.filter (fun r => cell_eq (dr_industry r) industry) df_screening_disp in
  match List.filter (fun r => cell_eq (in_industry r) industry) df_industry_disp with
  | [] => PErr IndexError
  | industry_data :: _ =>
      POk {| su_industry := industry;
             su_rs_rating := in_rs_rating industry_data;
             su_buy_pressure := in_buy_pressure industry_data;
             su_status := get_buy_pressure_status_text (in_buy_pressure industry_data);
             su_count := length stocks;
             su_avg_technical :=
               if Nat.ltb 0 (length stocks) then mean (map dr_technical_score stocks) else Fin 0;
             su_avg_screening :=
               if Nat.ltb 0 (length stocks) then mean (map dr_screening_score stocks) else Fin 0 |}
  end.

(** The loop: the first exception stops it. *)
Fixpoint summary_loop (df_screening_disp : list display_row) (df_industry_disp : list industry_num_row)
    (industries : list cell) : py_result (list summary_row) frame_exc :=
  match industries with
  | [] => POk []
  | industry :: rest =>
      match summary_of df_screening_disp df_industry_disp industry with
      | PErr e => PErr e
      | POk s =>
          match summary_loop df_screening_disp df_industry_disp rest with
          | POk l => POk (s :: l)
          | PErr e => PErr e
          end
      end
  end.

(** create_summary_data.  [pd.DataFrame([])] has no columns, so
    [sort_values('RS Rating')] raises KeyError on an empty summary. *)
Definition create_summary_data_with (df_screening_disp : list display_row)
    (df_industry_disp : list industry_num_row) : py_result (list summary_row) frame_exc :=
  match summary_loop df_screening_disp df_industry_disp (map in_industry df_industry_disp) with
  | PErr e => PErr e
  | POk [] => PErr KeyError
  | POk rows => POk (sort_values_desc argsort su_rs_rating rows)
  end.
End Summary.

Definition create_summary_data := create_summary_data_with NpySort.aquicksort.

(* ================================================================== *)
(** ** The sector BP ranking of the summary tab *)

(** pandas' [nargsort(items, kind, ascending=True, na_position='last')]. *)
Definition nargsort_asc (argsort : list pyfloat -> list nat) (items : list pyfloat) : list nat :=
  let idx := seq 0 (length items) in
  let non_nan_idx := List.filter (fun i => negb (py_isna (items !!! i))) idx in
  let non_nans := map (fun i => items !!! i) non_nan_idx in
  let nan_idx := List.filter (fun i => py_isna (items !!! i)) idx in
  map (fun j => non_nan_idx !!! j) (argsort non_nans) ++ nan_idx.

Definition sort_values_asc {A : Type} (argsort : list pyfloat -> list nat) (col : A -> pyfloat)
    (rows : list A) : list A :=
  omap (fun i => rows !! i) (nargsort_asc argsort (map col rows)).

(** [df['Industry'].map(industry_sector_map).fillna('Unknown')]: the
    map's keys are texts, so any other cell gives NaN. *)
Definition row_sector (m : gmap string string) (r : all_industry_row) : string :=
  sector_lookup m (match ai_industry r with CStr s => Some s | _ => None end).

(** Whether df_all_industry has an RS_Rating column. *)
Definition all_industry_has_rs (full : option full_sheet) : bool :=
  match full with
  | Some sh => if fs_has_industry sh && fs_has_buy_pressure sh then fs_has_rs_rating sh else true
  | None => true
  end.

(** The RS_Rating of a row of a frame that has the column. *)
Definition row_rs (r : all_industry_row) : pyfloat :=
  match ai_rs_rating r with Some v => v | None => NaN end.

(** One sector heading and chart: the sector, [sector_avg], [rs80_count],
    [total_count] and the rows of [df_sector] in chart order. *)
Record sector_block : Type := {
  sb_sector : string;
  sb_avg : pyfloat;
  sb_rs80 : nat;
  sb_total : nat;
  sb_rows : list all_industry_row
}.

#[global] Instance all_industry_row_inhabited : Inhabited all_industry_row :=
  populate {| ai_industry := CMissing; ai_buy_pressure := NaN; ai_rs_rating := None |}.

Section BpRanking.
Context (mean : list pyfloat -> pyfloat).

Definition sector_rows (m : gmap string string) (rows : list all_industry_row) (sector : string)
    : list all_industry_row :=
  List.filter (fun r => String.eqb (row_sector m r) sector) rows.

(** [groupby('Sector')['Buy_Pressure'].mean().sort_values(ascending=False).index]:
    the group keys, sorted, then ordered by their mean. *)
Definition sorted_sectors (m : gmap string string) (rows : list all_industry_row) : list string :=
  map fst (sort_values_desc NpySort.aquicksort snd
             (map (fun s => (s, mean (map ai_buy_pressure (sector_rows m rows s))))
                  (sort_asc (unique (map (row_sector m) rows))))).

(** The body of the sector loop; [sort_values('RS_Rating')] raises
    KeyError when the frame has no such column. *)
Definition sector_step (m : gmap string string) (has_rs : bool) (rows : list all_industry_row)
    (sector : string) : py_result (option sector_block) frame_exc :=
  if negb has_rs then PErr KeyError
  else
    let df_sector := sort_values_asc NpySort.aquicksort row_rs (sector_rows m rows sector) in
    if Nat.eqb (length df_sector) 0 then POk None (* continue *)
    else POk (Some {| sb_sector := sector;
                      sb_avg := mean (map ai_buy_pressure df_sector);
                      sb_rs80 := length (List.filter (fun r => flt_le (Fin 80) (row_rs r)) df_sector);
                      sb_total := length df_sector;
                      sb_rows := df_sector |}).

Fixpoint sector_loop (m : gmap string string) (has_rs : bool) (rows : list all_industry_row)
    (sectors : list string) : py_result (list sector_block) frame_exc :=
  match sectors with
  | [] => POk []
  | s :: rest =>
      match sector_step m has_rs rows s with
      | PErr e => PErr e
      | POk b =>
          match sector_loop m has_rs rows rest with
          | PErr e => PErr e
          | POk l => POk (match b with Some blk => blk :: l | None => l end)
          end
      end
  end.

(** The BP ranking of df_all_industry (app.py lines 733-757). *)
Definition bp_ranking (m : gmap string string) (has_rs : bool) (df_all_industry : list all_industry_row)
    : py_result (list sector_block) frame_exc :=
  sector_loop m has_rs df_all_industry (sorted_sectors m df_all_industry).
End BpRanking.

(* ================================================================== *)
(** ** Properties *)

Lemma Qltb_true (x y : Q) : Qltb x y = true <-> (x < y)%Q.
Proof. unfold Qltb, Qlt. apply Z.ltb_lt. Qed.

Lemma Qltb_false (x y : Q) : Qltb x y = false <-> (y <= x)%Q.
Proof. unfold Qltb, Qle. rewrite Z.ltb_ge. lia. Qed.

Lemma Qle_bool_false (x y : Q) : Qle_bool x y = false <-> (y < x)%Q.
Proof.
  split; intros H.
  - apply Qnot_le_lt. intros H'. apply Qle_bool_iff in H'. congruence.
  - destruct (Qle_bool x y) eqn:E; [|reflexivity].
    apply Qle_bool_iff in E. exfalso. apply (Qlt_not_le y x); assumption.
Qed.

(** Turn every boolean comparison in the context into a [Q] fact. *)
Ltac q_facts :=
  repeat match goal with
  | H : Qltb _ _ = true |- _ => apply Qltb_true in H
  | H : Qltb _ _ = false |- _ => apply Qltb_false in H
  | H : Qle_bool _ _ = true |- _ => apply Qle_bool_iff in H
  | H : Qle_bool _ _ = false |- _ => apply Qle_bool_false in H
  end.

Ltac case_cmps :=
  repeat match goal with
  | |- context [Qltb ?a ?b] => destruct (Qltb a b) eqn:?
  | |- context [Qle_bool ?a ?b] => destruct (Qle_bool a b) eqn:?
  end.

Lemma status_monotone (x y : pyfloat) :
  x <> NaN -> y <> NaN -> flt_le x y = true ->
  (status_rank (snd (get_buy_pressure_status x))
   <= status_rank (snd (get_buy_pressure_status y)))%nat.
Proof.
  intros Hx Hy Hle.
  destruct x as [q| | |]; destruct y as [r| | |]; try congruence;
    unfold get_buy_pressure_status, flt_lt, flt_le in *; simpl in *;
    try discriminate; case_cmps; simpl; try lia; q_facts;
    unfold lit_0_667, lit_0_60, lit_0_55, lit_0_333, lit_0_45 in *; lra.
Qed.

Ltac bucket_char :=
  unfold get_buy_pressure_status, flt_lt; simpl; case_cmps; simpl; q_facts;
  unfold lit_0_667, lit_0_60, lit_0_55, lit_0_333, lit_0_45 in *;
  split; intros H; try discriminate; try reflexivity; try lra;
  exfalso; lra.

(** C1: the status function is monotone in bucket rank on non-NaN input,
    and on finite input its buckets are exactly: EXTREME for x > 0.667,
    STRONG for 0.60 < x <= 0.667, BUY for 0.55 < x <= 0.60, WEAK for
    x < 0.333, CAUTION for 0.333 <= x < 0.45, NEUTRAL otherwise
    (0.45 <= x <= 0.55); in particular 0.667 is STRONG and 0.45, 0.55 are
    NEUTRAL.  The display variant picks the same bucket everywhere. *)
Theorem classify_buckets_monotone :
  (forall x y : pyfloat, x <> NaN -> y <> NaN -> flt_le x y = true ->
     (status_rank (snd (get_buy_pressure_status x))
      <= status_rank (snd (get_buy_pressure_status y)))%nat) /\
  (forall q : Q, snd (get_buy_pressure_status (Fin q)) = EXTREME <-> (lit_0_667 < q)%Q) /\
  (forall q : Q, snd (get_buy_pressure_status (Fin q)) = STRONG
                 <-> (lit_0_60 < q /\ q <= lit_0_667)%Q) /\
  (forall q : Q, snd (get_buy_pressure_status (Fin q)) = BUY
                 <-> (lit_0_55 < q /\ q <= lit_0_60)%Q) /\
  (forall q : Q, snd (get_buy_pressure_status (Fin q)) = WEAK <-> (q < lit_0_333)%Q) /\
  (forall q : Q, snd (get_buy_pressure_status (Fin q)) = CAUTION
                 <-> (lit_0_333 <= q /\ q < lit_0_45)%Q) /\
  (forall q : Q, snd (get_buy_pressure_status (Fin q)) = NEUTRAL
                 <-> (lit_0_45 <= q /\ q <= lit_0_55)%Q) /\
  snd (get_buy_pressure_status (Fin lit_0_667)) = STRONG /\
  snd (get_buy_pressure_status (Fin lit_0_45)) = NEUTRAL /\
  snd (get_buy_pressure_status (Fin lit_0_55)) = NEUTRAL /\
  (forall x : pyfloat,
     get_buy_pressure_status_display x = snd (get_buy_pressure_status x)).
Proof.
  split; [exact status_monotone|].
  split; [intros q; bucket_char|].
  split; [intros q; bucket_char|].
  split; [intros q; bucket_char|].
  split; [intros q; bucket_char|].
  split; [intros q; bucket_char|].
  split; [intros q; bucket_char|].
  split; [vm_compute; reflexivity|].
  split; [vm_compute; reflexivity|].
  split; [vm_compute; reflexivity|].
  intros x. unfold get_buy_pressure_status_display, get_buy_pressure_status.
  repeat (destruct (flt_lt _ _)); reflexivity.
Qed.

(** C3 (counterexample): a NaN buy pressure lands in one of the six
    ordered buckets, NEUTRAL, the bucket of 0.45; no separate status. *)
Lemma status_nan_counterexample :
  snd (get_buy_pressure_status NaN) = NEUTRAL /\
  snd (get_buy_pressure_status NaN) = snd (get_buy_pressure_status (Fin lit_0_45)) /\
  In (snd (get_buy_pressure_status NaN)) [WEAK; CAUTION; NEUTRAL; BUY; STRONG; EXTREME].
Proof. vm_compute. split; [reflexivity|]. split; [reflexivity|]. right; right; left; reflexivity. Qed.

(** C3 (amended): the status functions return a value on every float; on
    NaN every comparison is false, so both return the NEUTRAL label
    ("0c ➖ NEUTRAL" and "➖ NEUTRAL"). *)
Theorem status_total_nan_neutral :
  (forall x : pyfloat, exists k s, get_buy_pressure_status x = (k, s)) /\
  get_buy_pressure_status NaN = ("0c"%string, NEUTRAL) /\
  get_buy_pressure_status_display NaN = NEUTRAL.
Proof.
  split; [intros x; destruct (get_buy_pressure_status x) as [k s]; eauto|].
  split; reflexivity.
Qed.

Lemma str_app_cons (c : ascii) (s t : string) :
  (String c s ++ t)%string = String c (s ++ t).
Proof. reflexivity. Qed.

Lemma str_length_app (s t : string) :
  String.length (s ++ t) = (String.length s + String.length t)%nat.
Proof.
  induction s as [|c s IH]; [reflexivity|].
  rewrite str_app_cons. cbn [String.length]. rewrite IH. reflexivity.
Qed.

Lemma str_app_assoc (s t u : string) : (s ++ (t ++ u) = (s ++ t) ++ u)%string.
Proof.
  induction s as [|c s IH]; [reflexivity|].
  rewrite !str_app_cons, IH. reflexivity.
Qed.

Lemma str_suffix_00_80 (x y : string) : (x ++ "00")%string <> (y ++ "80")%string.
Proof.
  revert y. induction x as [|c x IH]; intros y H.
  - destruct y as [|d y]; [discriminate|]. rewrite str_app_cons in H.
    injection H as _ H.
    apply (f_equal String.length) in H. rewrite str_length_app in H. simpl in H. lia.
  - destruct y as [|d y].
    + rewrite str_app_cons in H. injection H as _ H.
      apply (f_equal String.length) in H. rewrite str_length_app in H. simpl in H. lia.
    + rewrite !str_app_cons in H. injection H as _ H. exact (IH y H).
Qed.

Lemma color_not_gray (a b : string) :
  ("#" ++ a ++ b ++ fmt02x 0)%string <> "#808080"%string.
Proof.
  change (fmt02x 0) with "00"%string. change "#808080"%string with ("#8080" ++ "80")%string.
  rewrite !str_app_assoc. apply str_suffix_00_80.
Qed.

(** The clamp [max(0.0, min(1.0, x))] of a non-NaN float is a finite
    float in [0, 1]. *)
Lemma clamp_finite (x : pyfloat) :
  x <> NaN -> exists n, py_max (Fin 0) (py_min (Fin 1) x) = Fin n /\ (0 <= n <= 1)%Q.
Proof.
  intros Hx. destruct x as [q| | |]; [| | |congruence].
  - unfold py_min, py_max, flt_lt. destruct (Qltb q 1) eqn:E1.
    + destruct (Qltb 0 q) eqn:E2; q_facts; eexists; split; try reflexivity; lra.
    + destruct (Qltb 0 1) eqn:E2; q_facts; eexists; split; try reflexivity; lra.
  - exists 1%Q. split; [reflexivity | lra].
  - exists 0%Q. split; [reflexivity | lra].
Qed.

Lemma clamp_low (q : Q) : (q <= 0)%Q -> py_max (Fin 0) (py_min (Fin 1) (Fin q)) = Fin 0.
Proof.
  intros H. unfold py_min, py_max, flt_lt.
  destruct (Qltb q 1) eqn:E1; [destruct (Qltb 0 q) eqn:E2|]; q_facts; try reflexivity; lra.
Qed.

Lemma clamp_high (q : Q) : (1 <= q)%Q -> py_max (Fin 0) (py_min (Fin 1) (Fin q)) = Fin 1.
Proof.
  intros H. unfold py_min, py_max, flt_lt.
  destruct (Qltb q 1) eqn:E1; q_facts; [lra | reflexivity].
Qed.

(** C8: red at 0.0, yellow at 0.5, green at 1.0; inputs are clamped to
    [0, 1] (everything at or below 0, and -inf, is red; everything at or
    above 1, and +inf, is green); NaN gives the gray #808080, which no
    non-NaN input produces. *)
Theorem color_anchors_clamp_nan :
  get_color_from_buy_pressure (Fin 0) = "#ff0000"%string /\
  get_color_from_buy_pressure (Fin (1 # 2)) = "#ffff00"%string /\
  get_color_from_buy_pressure (Fin 1) = "#00ff00"%string /\
  (forall q : Q, (q <= 0)%Q -> get_color_from_buy_pressure (Fin q) = "#ff0000"%string) /\
  (forall q : Q, (1 <= q)%Q -> get_color_from_buy_pressure (Fin q) = "#00ff00"%string) /\
  get_color_from_buy_pressure NInf = "#ff0000"%string /\
  get_color_from_buy_pressure PInf = "#00ff00"%string /\
  get_color_from_buy_pressure NaN = "#808080"%string /\
  (forall x : pyfloat, x <> NaN -> get_color_from_buy_pressure x <> "#808080"%string).
Proof.
  split; [vm_compute; reflexivity|].
  split; [vm_compute; reflexivity|].
  split; [vm_compute; reflexivity|].
  split; [intros q H; unfold get_color_from_buy_pressure; simpl;
          rewrite (clamp_low q H); vm_compute; reflexivity|].
  split; [intros q H; unfold get_color_from_buy_pressure; simpl;
          rewrite (clamp_high q H); vm_compute; reflexivity|].
  split; [vm_compute; reflexivity|].
  split; [vm_compute; reflexivity|].
  split; [reflexivity|].
  intros x Hx. destruct (clamp_finite x Hx) as [n [Hn _]].
  unfold get_color_from_buy_pressure.
  replace (py_isna x) with false by (destruct x; simpl; congruence).
  rewrite Hn. destruct (Qle_bool (1 # 2) n); apply color_not_gray.
Qed.

Example find_probe :
  find_latest_file (ustr "data") (ustr "industry_x_")
    (map ustr ["industry_x_20260210_090000.xlsx"; "other_20270101_000000.xlsx";
               "industry_x_20260211_090000.xlsx"; "industry_x_notes.xlsx"])
  = POk (ustr "data/industry_x_20260211_090000.xlsx").
Proof. vm_compute. reflexivity. Qed.

Example find_probe_fullwidth :
  find_latest_file (ustr "data") (ustr "industry_x_")
    [ustr "industry_x_２０２６０２１１_０９００００.xlsx"]
  = POk (ustr "data/industry_x_２０２６０２１１_０９００００.xlsx").
Proof. vm_compute. reflexivity. Qed.









Section StableSortDescFacts.
Context {A : Type} (key : A -> pystr).









End StableSortDescFacts.



Lemma find_latest_file_dated (directory prefix : pystr) (entries : list pystr) :
  List.filter (glob_match prefix) entries <> [] ->
  find_latest_file directory prefix entries =
  match sort_desc snd (dated_candidates directory prefix entries) with
  | [] => PErr (NoDatedFile directory)
  | (path, _) :: _ => POk path
  end.
Proof.
  unfold find_latest_file, dated_candidates. intros Hne.
  destruct (List.filter (glob_match prefix) entries); [congruence|reflexivity].
Qed.

(** C9: no entry matching the prefix raises [NoMatchingFile]; entries that
    match but carry no timestamp raise [NoDatedFile]; the two errors are
    distinct. *)
Theorem find_latest_file_errors :
  (forall (directory prefix : pystr) (entries : list pystr),
     List.filter (glob_match prefix) entries = [] ->
     find_latest_file directory prefix entries = PErr (NoMatchingFile directory prefix)) /\
  (forall (directory prefix : pystr) (entries : list pystr),
     List.filter (glob_match prefix) entries <> [] ->
     dated_candidates directory prefix entries = [] ->
     find_latest_file directory prefix entries = PErr (NoDatedFile directory)) /\
  (forall d p d' : pystr, NoMatchingFile d p <> NoDatedFile d').
Proof.
  split; [|split].
  - intros directory prefix entries E. unfold find_latest_file. rewrite E. reflexivity.
  - intros directory prefix entries Hne Hd.
    rewrite (find_latest_file_dated _ _ _ Hne), Hd. reflexivity.
  - discriminate.
Qed.






















Example date_probe1 :
  get_data_date_from_filename (ustr "industry_x_20260211_090000.xlsx") = POk (ustr "2026-02-10").
Proof. vm_compute. reflexivity. Qed.
Example date_probe2 :
  get_data_date_from_filename (ustr "industry_x_20240301_090000.xlsx") = POk (ustr "2024-02-29").
Proof. vm_compute. reflexivity. Qed.
Example date_probe3 :
  get_data_date_from_filename (ustr "industry_x_20260101_090000.xlsx") = POk (ustr "2025-12-31").
Proof. vm_compute. reflexivity. Qed.
Example date_probe4 :
  get_data_date_from_filename (ustr "industry_x.xlsx") = POk (ustr "不明").
Proof. vm_compute. reflexivity. Qed.
Example date_probe5 :
  get_data_date_from_filename (ustr "industry_x_２０２６0211_090000.xlsx") = POk (ustr "2026-02-10").
Proof. vm_compute. reflexivity. Qed.
Example date_probe6 :
  get_data_date_from_filename (ustr "industry_x_２０２６０２１１_０９００００.xlsx") = PErr ValueError.
Proof. vm_compute. reflexivity. Qed.
Example date_probe7 :
  get_data_date_from_filename (ustr "industry_x_2026021５_090000.xlsx") = POk (ustr "2026-02-14").
Proof. vm_compute. reflexivity. Qed.





















Lemma filter_map_comm {A B} (p : B -> bool) (f : A -> B) (l : list A) :
  List.filter p (map f l) = map f (List.filter (fun x => p (f x)) l).
Proof.
  induction l as [|x l IH]; simpl; [reflexivity|].
  destruct (p (f x)); simpl; rewrite IH; reflexivity.
Qed.

Lemma filter_length_split {A} (p : A -> bool) (l : list A) :
  length (List.filter p l) = (length l - length (List.filter (fun x => negb (p x)) l))%nat.
Proof.
  induction l as [|x l IH]; simpl; [reflexivity|].
  pose proof (List.filter_length_le (fun x => negb (p x)) l).
  destruct (p x); simpl; rewrite IH; lia.
Qed.

(** C6 (counterexample): a row whose rating (95) and pressure (0.7) are
    numbers but whose Industry cell is empty is dropped too. *)
Lemma normalize_industry_counterexample :
  let row := {| ir_industry := CMissing; ir_rs_rating := CNum 95;
                ir_buy_pressure := CNum (7 # 10) |} in
  to_numeric (fun _ => None) (ir_rs_rating row) <> NaN /\
  to_numeric (fun _ => None) (ir_buy_pressure row) <> NaN /\
  normalize_industry (fun _ => None) [row] = [].
Proof. simpl. split; [discriminate|]. split; [discriminate|]. reflexivity. Qed.

(** C6 (amended): the qualifying table keeps, in order and coerced,
    exactly the rows whose Industry cell is present and whose rating and
    pressure both coerce to numbers; rows failing this are dropped without
    error, and the row count is the input count minus the dropped count. *)
Theorem normalize_industry_keeps_numeric :
  forall (parse_number : string -> option pyfloat) (rows : list industry_row),
    let keep r := negb (cell_isna (ir_industry r))
                  && negb (py_isna (to_numeric parse_number (ir_rs_rating r)))
                  && negb (py_isna (to_numeric parse_number (ir_buy_pressure r))) in
    normalize_industry parse_number rows
      = map (coerce_industry_row parse_number) (List.filter keep rows) /\
    length (normalize_industry parse_number rows)
      = (length rows - length (List.filter (fun r => negb (keep r)) rows))%nat.
Proof.
  intros parse_number rows keep.
  assert (E : normalize_industry parse_number rows
              = map (coerce_industry_row parse_number) (List.filter keep rows)).
  { unfold normalize_industry. rewrite filter_map_comm. reflexivity. }
  split; [exact E|]. rewrite E, length_map. apply filter_length_split.
Qed.

(** C10: when Full_Results has Industry and Buy_Pressure columns,
    df_all_industry is its rows, coerced, minus exactly those whose
    Buy_Pressure is not numeric: every row with a numeric Buy_Pressure is
    kept, whatever its RS_Rating (missing or not numeric included). *)
Theorem all_industry_drops_only_bad_pressure :
  forall (parse_number : string -> option pyfloat) (sh : full_sheet)
         (df_industry : list industry_num_row),
    fs_has_industry sh = true -> fs_has_buy_pressure sh = true ->
    all_industry_table parse_number (Some sh) df_industry
      = map (coerce_full_row parse_number (fs_has_rs_rating sh))
            (List.filter (fun r => negb (py_isna (to_numeric parse_number (fr_buy_pressure r))))
                         (fs_rows sh)) /\
    (forall r, In r (fs_rows sh) ->
       py_isna (to_numeric parse_number (fr_buy_pressure r)) = false ->
       In (coerce_full_row parse_number (fs_has_rs_rating sh) r)
          (all_industry_table parse_number (Some sh) df_industry)).
Proof.
  intros parse_number sh df_industry Hi Hb.
  assert (E : all_industry_table parse_number (Some sh) df_industry
              = map (coerce_full_row parse_number (fs_has_rs_rating sh))
                    (List.filter (fun r => negb (py_isna (to_numeric parse_number (fr_buy_pressure r))))
                                 (fs_rows sh))).
  { unfold all_industry_table. rewrite Hi, Hb. simpl. rewrite filter_map_comm. reflexivity. }
  split; [exact E|].
  intros r Hr Hbp. rewrite E. apply in_map. apply List.filter_In. rewrite Hbp. auto.
Qed.

Lemma all_industry_drops_only_bad_pressure_witness :
  fs_has_industry full_sheet_sample = true /\ fs_has_buy_pressure full_sheet_sample = true /\
  all_industry_table (fun _ => None) (Some full_sheet_sample) []
    = [ {| ai_industry := CStr "Semiconductors"; ai_buy_pressure := Fin (7 # 10);
           ai_rs_rating := Some NaN |} ] /\
  all_industry_table (fun _ => None) (Some full_sheet_sample) []
    = map (coerce_full_row (fun _ => None) (fs_has_rs_rating full_sheet_sample))
          (List.filter (fun r => negb (py_isna (to_numeric (fun _ => None) (fr_buy_pressure r))))
                       (fs_rows full_sheet_sample)).
Proof.
  split; [reflexivity|]. split; [reflexivity|]. split; [reflexivity|].
  exact (proj1 (all_industry_drops_only_bad_pressure (fun _ => None) full_sheet_sample []
                  eq_refl eq_refl)).
Defined.

Example sector_probe :
  let rows := [ {| isr_industry := Some "Semis"%string; isr_sector := Some "Tech"%string |};
                {| isr_industry := Some "Semis"%string; isr_sector := Some "Tech"%string |};
                {| isr_industry := Some "Semis"%string; isr_sector := Some "Energy"%string |} ] in
  sector_lookup (build_industry_sector_map rows) (Some "Semis"%string) = "Energy"%string.
Proof. vm_compute. reflexivity. Qed.

(** C2 (failing input): in Screening_Results the industry "Semis" appears
    twice with sector "Tech" and once with "Energy", so its modal sector is
    "Tech"; the map built by load_data assigns "Energy", because
    [drop_duplicates] leaves each (industry, sector) pair once and
    [mode()] then returns every sector, sorted.  An industry absent from
    the map does get "Unknown". *)
Theorem sector_map_not_modal :
  let rows := [ {| isr_industry := Some "Semis"%string; isr_sector := Some "Tech"%string |};
                {| isr_industry := Some "Semis"%string; isr_sector := Some "Tech"%string |};
                {| isr_industry := Some "Semis"%string; isr_sector := Some "Energy"%string |} ] in
  let raw_sectors := omap isr_sector rows in
  count_occ_str raw_sectors "Tech" = 2%nat /\ count_occ_str raw_sectors "Energy" = 1%nat /\
  sector_lookup (build_industry_sector_map rows) (Some "Semis"%string) = "Energy"%string /\
  sector_lookup (build_industry_sector_map rows) (Some "Banks"%string) = "Unknown"%string.
Proof. vm_compute. repeat split; reflexivity. Qed.

Example npysort_probe_equal :
  NpySort.aquicksort (repeat (Fin 14) 18) = [0;15;14;13;12;11;10;9;8;7;6;5;4;3;2;1;16;17]%nat.
Proof. vm_compute. reflexivity. Qed.


(* ------------------------------------------------------------------ *)
(** *** Sorting facts behind [create_industry_table] *)

Lemma Sorted_map_iff {A B : Type} (R : B -> B -> Prop) (f : A -> B) (l : list A) :
  Sorted R (map f l) <-> Sorted (fun x y => R (f x) (f y)) l.
Proof.
  induction l as [|a l IH]; simpl.
  - split; constructor.
  - split; intros H; inversion H as [|? ? Hs Hd]; subst; constructor.
    + apply IH; exact Hs.
    + destruct l; simpl in *; constructor. inversion Hd; auto.
    + apply IH; exact Hs.
    + destruct l; simpl in *; constructor. inversion Hd; auto.
Qed.

Lemma Sorted_weaken {A : Type} (R R' : A -> A -> Prop) (P : A -> Prop) (l : list A) :
  (forall x y, P x -> P y -> R x y -> R' x y) -> Forall P l -> Sorted R l -> Sorted R' l.
Proof.
  intros HR HP HS. induction HS as [|a l Hs IH Hd]; constructor.
  - apply IH. inversion HP; auto.
  - destruct Hd as [|b l' Hab]; constructor.
    inversion HP as [|? ? Pa Pl]; subst. inversion Pl; subst. apply HR; auto.
Qed.

Lemma Sorted_snoc {A : Type} (R : A -> A -> Prop) (m : list A) (b a : A) :
  Sorted R (m ++ [b]) -> R b a -> Sorted R (m ++ [b; a]).
Proof.
  induction m as [|c m IH]; simpl; intros H Hba.
  - constructor; [constructor; [constructor|constructor]|constructor; exact Hba].
  - inversion H as [|? ? Hs Hd]; subst. constructor.
    + apply IH; auto.
    + destruct m as [|d m]; simpl in *; inversion Hd; constructor; auto.
Qed.

Lemma Sorted_rev {A : Type} (R : A -> A -> Prop) (l : list A) :
  Sorted R l -> Sorted (fun x y => R y x) (rev l).
Proof.
  induction l as [|a l IH]; simpl; intros H; [constructor|].
  inversion H as [|? ? Hs Hd]; subst.
  destruct l as [|b l]; simpl; [repeat constructor|].
  inversion Hd; subst. simpl in IH.
  rewrite <- app_assoc. simpl. apply Sorted_snoc; auto.
Qed.

Lemma Sorted_app_join {A : Type} (R : A -> A -> Prop) (l1 l2 : list A) :
  Sorted R l1 -> Sorted R l2 -> (forall x y, In x l1 -> In y l2 -> R x y) ->
  Sorted R (l1 ++ l2).
Proof.
  induction l1 as [|a l1 IH]; simpl; intros H1 H2 Hx; auto.
  inversion H1 as [|? ? Hs Hd]; subst. constructor.
  - apply IH; [exact Hs|exact H2|]. intros x y Hx1 Hy. apply Hx; auto.
  - destruct l1 as [|b l1]; simpl.
    + destruct l2; constructor. apply Hx; simpl; auto.
    + inversion Hd; constructor; auto.
Qed.

Lemma Sorted_all_related {A : Type} (R : A -> A -> Prop) (l : list A) :
  (forall x y, In x l -> In y l -> R x y) -> Sorted R l.
Proof.
  induction l as [|a l IH]; intros H; constructor.
  - apply IH. intros x y Hx Hy. apply H; simpl; auto.
  - destruct l; constructor. apply H; simpl; auto.
Qed.

Lemma map_lookup_total {A B : Type} `{!Inhabited A, !Inhabited B} (f : A -> B)
    (l : list A) (i : nat) :
  (i < length l)%nat -> map f l !!! i = f (l !!! i).
Proof.
  revert i. induction l as [|a l IH]; intros [|i] Hi; simpl in *; try lia; auto.
  apply IH. lia.
Qed.

Lemma map_lookup_total_seq {A : Type} `{!Inhabited A} (l : list A) :
  map (fun i => l !!! i) (seq 0 (length l)) = l.
Proof.
  induction l as [|a l IH]; simpl; [reflexivity|].
  f_equal. rewrite <- seq_shift, map_map. exact IH.
Qed.

Lemma lookup_total_In {A : Type} `{!Inhabited A} (l : list A) (i : nat) :
  (i < length l)%nat -> In (l !!! i) l.
Proof.
  intros Hi. apply list_elem_of_In.
  apply (list_elem_of_lookup_2 _ i). apply list_lookup_lookup_total_lt. exact Hi.
Qed.

Lemma omap_lookup_in_range {A : Type} `{!Inhabited A} (l : list A) (idx : list nat) :
  Forall (fun i => (i < length l)%nat) idx ->
  omap (fun i => l !! i) idx = map (fun i => l !!! i) idx.
Proof.
  induction idx as [|i idx IH]; intros H; simpl; [reflexivity|].
  inversion H as [|? ? Hi Hrest]; subst.
  rewrite (list_lookup_lookup_total_lt l i Hi). f_equal. apply IH; auto.
Qed.

Lemma filter_complement_perm {A : Type} (g : A -> bool) (l : list A) :
  Permutation (List.filter (fun x => negb (g x)) l ++ List.filter g l) l.
Proof.
  induction l as [|a l IH]; simpl; [constructor|].
  destruct (g a); simpl.
  - rewrite <- Permutation_middle. constructor. exact IH.
  - constructor. exact IH.
Qed.

Lemma Permutation_seq_bound (l : list nat) (n : nat) :
  Permutation l (seq 0 n) -> Forall (fun i => (i < n)%nat) l.
Proof.
  intros HP. apply List.Forall_forall. intros i Hi.
  apply (Permutation_in _ HP), in_seq in Hi. lia.
Qed.

Section NargsortFacts.
Context (argsort : list pyfloat -> list nat) (Hsorts : argsort_sorts argsort).

Let NNI (items : list pyfloat) :=
  List.filter (fun i => negb (py_isna (items !!! i))) (seq 0 (length items)).

Lemma nargsort_parts (items : list pyfloat) :
  let L := argsort (rev (map (fun i => items !!! i) (NNI items))) in
  Permutation L (seq 0 (length (NNI items))) /\
  Sorted (fun j k => flt_lt (items !!! (rev (NNI items) !!! k))
                            (items !!! (rev (NNI items) !!! j)) = false) L.
Proof.
  intros L.
  assert (Hnn : Forall (fun x => py_isna x = false) (rev (map (fun i => items !!! i) (NNI items)))).
  { apply List.Forall_forall. intros x Hx. apply in_rev, in_map_iff in Hx.
    destruct Hx as [i [<- Hi]]. unfold NNI in Hi. apply List.filter_In in Hi.
    destruct Hi as [_ Hi]. destruct (py_isna (items !!! i)); simpl in *; congruence. }
  destruct (Hsorts _ Hnn) as [HP HS].
  rewrite length_rev, length_map in HP.
  split; [exact HP|].
  eapply (Sorted_weaken _ _ (fun j => (j < length (NNI items))%nat)); [|apply Permutation_seq_bound; exact HP|exact HS].
  intros j k Hj Hk. rewrite <- map_rev.
  rewrite !(map_lookup_total (fun i => items !!! i)) by (rewrite length_rev; lia).
  auto.
Qed.

Lemma nargsort_desc_perm (items : list pyfloat) :
  Permutation (nargsort_desc argsort items) (seq 0 (length items)).
Proof.
  destruct (nargsort_parts items) as [HP _].
  unfold nargsort_desc. cbv zeta. fold (NNI items).
  etransitivity; [|apply (filter_complement_perm (fun i => py_isna (items !!! i)))].
  apply Permutation_app_tail. fold (NNI items).
  rewrite <- Permutation_rev.
  rewrite <- map_rev in HP |- *.
  transitivity (map (fun j => rev (NNI items) !!! j) (seq 0 (length (rev (NNI items))))).
  - apply Permutation_map. rewrite length_rev. exact HP.
  - rewrite map_lookup_total_seq. symmetry. apply Permutation_rev.
Qed.

Lemma nargsort_desc_sorted (items : list pyfloat) :
  Sorted (fun i j => desc_before (items !!! i) (items !!! j) = true)
         (nargsort_desc argsort items).
Proof.
  destruct (nargsort_parts items) as [HP HS].
  unfold nargsort_desc. cbv zeta. fold (NNI items).
  set (L := argsort _) in *.
  assert (Hin : Forall (fun i => In i (NNI items)) (map (fun j => rev (NNI items) !!! j) L)).
  { apply List.Forall_forall. intros i Hi. apply in_map_iff in Hi. destruct Hi as [j [<- Hj]].
    apply (Permutation_in _ HP), in_seq in Hj. apply in_rev.
    apply lookup_total_In. rewrite length_rev. lia. }
  assert (HS' : Sorted (fun i j => desc_before (items !!! j) (items !!! i) = true)
                       (map (fun j => rev (NNI items) !!! j) L)).
  { apply (Sorted_weaken (fun i j => flt_lt (items !!! j) (items !!! i) = false) _
                         (fun i => In i (NNI items))); [|exact Hin|].
    - intros i j _ Hj H. unfold desc_before.
      unfold NNI in Hj. apply List.filter_In in Hj as [_ Hj].
      destruct (py_isna (items !!! j)); [discriminate|].
      rewrite H. destruct (py_isna (items !!! i)); reflexivity.
    - apply (proj2 (Sorted_map_iff (fun a b => flt_lt (items !!! b) (items !!! a) = false)
                                    (fun j => rev (NNI items) !!! j) L)).
      exact HS. }
  apply Sorted_app_join.
  - exact (Sorted_rev _ _ HS').
  - apply Sorted_all_related. intros i j Hi Hj.
    apply List.filter_In in Hi as [_ Hi]. apply List.filter_In in Hj as [_ Hj].
    unfold desc_before. rewrite Hi, Hj. reflexivity.
  - intros i j _ Hj. apply List.filter_In in Hj as [_ Hj].
    unfold desc_before. rewrite Hj. destruct (py_isna (items !!! i)); reflexivity.
Qed.
End NargsortFacts.

Lemma sort_values_desc_spec (argsort : list pyfloat -> list nat) (Hs : argsort_sorts argsort)
    {A : Type} `{!Inhabited A} (col : A -> pyfloat) (rows : list A) :
  Permutation (sort_values_desc argsort col rows) rows /\
  Sorted (fun a b => desc_before (col a) (col b) = true) (sort_values_desc argsort col rows).
Proof.
  unfold sort_values_desc.
  pose proof (nargsort_desc_perm argsort Hs (map col rows)) as HP.
  pose proof (nargsort_desc_sorted argsort Hs (map col rows)) as HS.
  rewrite length_map in HP.
  rewrite omap_lookup_in_range by (apply Permutation_seq_bound; exact HP).
  split.
  - transitivity (map (fun i => rows !!! i) (seq 0 (length rows))).
    + apply Permutation_map. exact HP.
    + rewrite map_lookup_total_seq. reflexivity.
  - apply (proj2 (Sorted_map_iff (fun a b => desc_before (col a) (col b) = true)
                                  (fun i => rows !!! i) _)).
    apply (Sorted_weaken (fun i j => desc_before (map col rows !!! i) (map col rows !!! j) = true) _ (fun i => (i < length rows)%nat));
      [|apply Permutation_seq_bound; exact HP|exact HS].
    intros i j Hi Hj H.
    rewrite !(map_lookup_total col) in H by lia. exact H.
Qed.

Lemma In_take {A : Type} (n : nat) (l : list A) (x : A) : In x (take n l) -> In x l.
Proof.
  intros H. rewrite <- (take_drop n l). apply in_or_app. left. exact H.
Qed.

Lemma create_industry_table_with_groups (argsort : list pyfloat -> list nat)
    (stocks : list screening_row) (inds : list industry_num_row) (c : sort_by_column)
    (maxn : nat) (ind : industry_num_row) (grp : list screening_row) :
  In (ind, grp) (create_industry_table_with argsort stocks inds c maxn) ->
  grp <> [] /\ (length grp <= maxn)%nat /\
  grp = take maxn (sort_values_desc argsort (sort_column c)
                     (List.filter (fun r => cell_eq (sr_industry r) (in_industry ind)) stocks)) /\
  (forall s, In s grp -> In s stocks /\ cell_eq (sr_industry s) (in_industry ind) = true).
Proof.
  unfold create_industry_table_with. intros Hin.
  apply list_elem_of_In, list_elem_of_omap in Hin. destruct Hin as [r [_ Hr]].
  match type of Hr with
  | (if Nat.eqb (length ?g) 0 then _ else _) = _ => destruct (Nat.eqb (length g) 0) eqn:E
  end; [discriminate|].
  inversion Hr; subst ind grp. clear Hr.
  apply Nat.eqb_neq in E.
  split; [intros Hg; rewrite Hg in E; simpl in E; lia|].
  split; [rewrite length_take; lia|].
  split; [reflexivity|].
  intros s Hs. apply In_take in Hs.
  unfold sort_values_desc in Hs.
  apply list_elem_of_In, list_elem_of_omap in Hs. destruct Hs as [i [_ Hi]].
  apply list_elem_of_lookup_2, list_elem_of_In, List.filter_In in Hi. exact Hi.
Qed.

Lemma flt_lt_asym (a b : pyfloat) : flt_lt a b = true -> flt_lt b a = false.
Proof.
  destruct a, b; simpl; try reflexivity; try discriminate.
  unfold Qltb. intros H. apply Z.ltb_lt in H. apply Z.ltb_ge. lia.
Qed.

Lemma argsort_insert_perm (v : list pyfloat) (i : nat) (l : list nat) :
  Permutation (argsort_insert v i l) (i :: l).
Proof.
  induction l as [|j l IH]; simpl; [reflexivity|].
  destruct (flt_lt (v !!! j) (v !!! i)); [|reflexivity].
  etransitivity; [apply perm_skip; exact IH|apply perm_swap].
Qed.

Lemma argsort_insert_sorted (v : list pyfloat) (i : nat) (l : list nat) :
  Sorted (fun a b => flt_lt (v !!! b) (v !!! a) = false) l ->
  Sorted (fun a b => flt_lt (v !!! b) (v !!! a) = false) (argsort_insert v i l).
Proof.
  induction 1 as [|j l Hs IH Hd]; simpl; [repeat constructor|].
  destruct (flt_lt (v !!! j) (v !!! i)) eqn:E.
  - constructor; [exact IH|].
    destruct l as [|k l]; simpl.
    + constructor. apply flt_lt_asym. exact E.
    + inversion Hd; subst.
      destruct (flt_lt (v !!! k) (v !!! i)); constructor; auto.
      apply flt_lt_asym. exact E.
  - constructor; [constructor; auto|constructor; exact E].
Qed.

(** The hypothesis [argsort_sorts] is met: insertion argsort satisfies it. *)
Lemma insertion_argsort_sorts : argsort_sorts insertion_argsort.
Proof.
  intros v _. unfold insertion_argsort. split.
  - induction (seq 0 (length v)) as [|i s IH]; simpl; [reflexivity|].
    etransitivity; [apply argsort_insert_perm|apply perm_skip; exact IH].
  - induction (seq 0 (length v)) as [|i s IH]; simpl; [constructor|].
    apply argsort_insert_sorted. exact IH.
Qed.

(** C5 (counterexample): eighteen stocks of one industry, all with
    technical score 14, shown at most fifteen at a time: numpy's
    quicksort argsort (pandas' default [kind]) permutes the ties, so the
    group shows stocks 0, 1, 16, 15, ..., 4 rather than the first
    fifteen in input order; stocks 2 and 3 are left out while 15 and 16
    are shown. *)
Lemma industry_table_tie_counterexample :
  create_industry_table tie_stocks [tie_industry] Technical_Score 15
  = [(tie_industry, map tie_stock [0;1;16;15;14;13;12;11;10;9;8;7;6;5;4]%nat)] /\
  (forall k, sr_technical_score (tie_stock k) = Fin 14) /\
  map tie_stock [0;1;16;15;14;13;12;11;10;9;8;7;6;5;4]%nat <> take 15 tie_stocks.
Proof.
  split; [vm_compute; reflexivity|].
  split; [reflexivity|].
  vm_compute. congruence.
Qed.

(** C5 (amended): every group [create_industry_table] renders is
    non-empty, has at most [max_stocks_per_industry] stocks, all of them
    from the input and of that group's industry; and, for any argsort
    that sorts (numpy's quicksort among them), the group is the first
    [max_stocks_per_industry] entries of an arrangement of the industry's
    stocks in descending order of the sort column with NaN last.  The
    order among equal keys is whatever the argsort leaves, not input
    order. *)
Theorem industry_table_groups :
  (forall stocks inds c maxn ind grp,
     In (ind, grp) (create_industry_table stocks inds c maxn) ->
     grp <> [] /\ (length grp <= maxn)%nat /\
     forall s, In s grp -> In s stocks /\ cell_eq (sr_industry s) (in_industry ind) = true) /\
  (forall argsort, argsort_sorts argsort ->
   forall stocks inds c maxn ind grp,
     In (ind, grp) (create_industry_table_with argsort stocks inds c maxn) ->
     grp <> [] /\ (length grp <= maxn)%nat /\
     exists sorted_rows,
       Permutation sorted_rows
         (List.filter (fun r => cell_eq (sr_industry r) (in_industry ind)) stocks) /\
       Sorted (fun a b => desc_before (sort_column c a) (sort_column c b) = true) sorted_rows /\
       grp = take maxn sorted_rows).
Proof.
  split.
  - intros stocks inds c maxn ind grp Hin.
    destruct (create_industry_table_with_groups _ _ _ _ _ _ _ Hin) as (Hne & Hlen & _ & Hs).
    auto.
  - intros argsort Hsorts stocks inds c maxn ind grp Hin.
    destruct (create_industry_table_with_groups _ _ _ _ _ _ _ Hin) as (Hne & Hlen & Hg & _).
    split; [exact Hne|]. split; [exact Hlen|].
    eexists. split; [|split; [|exact Hg]].
    + exact (proj1 (sort_values_desc_spec argsort Hsorts _ _)).
    + exact (proj2 (sort_values_desc_spec argsort Hsorts _ _)).
Qed.

(* ------------------------------------------------------------------ *)
(** *** html.escape and the status prefix *)

Lemma replace_char_app (c : ascii) (r s t : string) :
  replace_char c r (s ++ t) = (replace_char c r s ++ replace_char c r t)%string.
Proof.
  induction s as [|x s IH]; simpl; [reflexivity|].
  destruct (Ascii.eqb x c); rewrite IH; [apply str_app_assoc|reflexivity].
Qed.

Lemma html_escape_cons (x : ascii) (s : string) :
  html_escape (String x s) = (html_escape_char x ++ html_escape s)%string.
Proof.
  change (String x s) with (String x EmptyString ++ s)%string.
  unfold html_escape. rewrite !replace_char_app. f_equal.
  unfold html_escape_char.
  destruct (Ascii.eqb x "&") eqn:E1; [apply Ascii.eqb_eq in E1; subst; reflexivity|].
  destruct (Ascii.eqb x "<") eqn:E2; [apply Ascii.eqb_eq in E2; subst; reflexivity|].
  destruct (Ascii.eqb x ">") eqn:E3; [apply Ascii.eqb_eq in E3; subst; reflexivity|].
  destruct (Ascii.eqb x dquote) eqn:E4; [apply Ascii.eqb_eq in E4; subst; reflexivity|].
  destruct (Ascii.eqb x "'") eqn:E5; [apply Ascii.eqb_eq in E5; subst; reflexivity|].
  simpl. rewrite E1. simpl. rewrite E2. simpl. rewrite E3. simpl. rewrite E4. simpl.
  rewrite E5. reflexivity.
Qed.

Lemma chars_app (s t : string) : chars (s ++ t) = chars s ++ chars t.
Proof.
  induction s as [|x s IH]; [reflexivity|].
  unfold chars in *. simpl. f_equal. exact IH.
Qed.

Definition markup_free (c : ascii) : bool :=
  negb (Ascii.eqb c "<") && negb (Ascii.eqb c ">") && negb (Ascii.eqb c dquote)
  && negb (Ascii.eqb c "'").

Lemma html_escape_markup_free (s : string) : forallb markup_free (chars (html_escape s)) = true.
Proof.
  induction s as [|x s IH]; [reflexivity|].
  rewrite html_escape_cons, chars_app, forallb_app, IH, andb_true_r.
  unfold html_escape_char.
  destruct (Ascii.eqb x "&") eqn:E1; [reflexivity|].
  destruct (Ascii.eqb x "<") eqn:E2; [reflexivity|].
  destruct (Ascii.eqb x ">") eqn:E3; [reflexivity|].
  destruct (Ascii.eqb x dquote) eqn:E4; [reflexivity|].
  destruct (Ascii.eqb x "'") eqn:E5; [reflexivity|].
  unfold chars. simpl. unfold markup_free. rewrite E2, E3, E4, E5. reflexivity.
Qed.

Lemma replace_char_absent (c : ascii) (r t : string) :
  forallb (fun x => negb (Ascii.eqb x c)) (chars t) = true -> replace_char c r t = t.
Proof.
  induction t as [|x t IH]; simpl; [reflexivity|].
  intros H. apply andb_prop in H as [Hx Ht].
  destruct (Ascii.eqb x c); [discriminate|]. rewrite IH; auto.
Qed.

Lemma html_escape_char_cases (x : ascii) :
  (x = "&"%char /\ html_escape_char x = "&amp;"%string) \/
  (x = "<"%char /\ html_escape_char x = "&lt;"%string) \/
  (x = ">"%char /\ html_escape_char x = "&gt;"%string) \/
  (x = dquote /\ html_escape_char x = "&quot;"%string) \/
  (x = "'"%char /\ html_escape_char x = "&#x27;"%string) \/
  (x <> "&"%char /\ html_escape_char x = String x EmptyString).
Proof.
  unfold html_escape_char.
  destruct (Ascii.eqb x "&") eqn:E1; [apply Ascii.eqb_eq in E1; auto|].
  destruct (Ascii.eqb x "<") eqn:E2; [apply Ascii.eqb_eq in E2; auto 6|].
  destruct (Ascii.eqb x ">") eqn:E3; [apply Ascii.eqb_eq in E3; auto 6|].
  destruct (Ascii.eqb x dquote) eqn:E4; [apply Ascii.eqb_eq in E4; auto 6|].
  destruct (Ascii.eqb x "'") eqn:E5; [apply Ascii.eqb_eq in E5; auto 7|].
  right; right; right; right; right. split; [|reflexivity].
  intros ->. discriminate.
Qed.

Lemma html_escape_char_prefix (x y : ascii) (u w : string) :
  (html_escape_char x ++ u)%string = (html_escape_char y ++ w)%string -> x = y /\ u = w.
Proof.
  intros H.
  destruct (html_escape_char_cases x) as [[-> Ex]|[[-> Ex]|[[-> Ex]|[[-> Ex]|[[-> Ex]|[Nx Ex]]]]]];
  destruct (html_escape_char_cases y) as [[-> Ey]|[[-> Ey]|[[-> Ey]|[[-> Ey]|[[-> Ey]|[Ny Ey]]]]]];
  rewrite ?Ex, ?Ey in H; simpl in H; inversion H; subst; auto; congruence.
Qed.

(** html.escape leaves no markup character: its output contains no
    [<], [>], double quote or single quote, so the [.replace("'", "\\'")]
    that render_check_tab and render_check_tab_with_fs apply after it
    changes nothing. *)
Theorem html_escape_no_markup (s : string) :
  Forall (fun c => c <> "<"%char /\ c <> ">"%char /\ c <> dquote /\ c <> "'"%char)
         (chars (html_escape s)) /\
  onclick_copy_arg s = html_escape s.
Proof.
  pose proof (html_escape_markup_free s) as H.
  split.
  - apply List.Forall_forall. intros c Hc.
    pose proof (proj1 (forallb_forall _ _) H c Hc) as Hm.
    unfold markup_free in Hm.
    repeat (apply andb_prop in Hm as [Hm ?]).
    repeat split; intros ->; discriminate.
  - unfold onclick_copy_arg. apply replace_char_absent.
    apply forallb_forall. intros c Hc.
    pose proof (proj1 (forallb_forall _ _) H c Hc) as Hm.
    unfold markup_free in Hm. repeat (apply andb_prop in Hm as [Hm ?]). assumption.
Qed.

(** html.escape is injective: two different symbols never give the same
    escaped text. *)
Theorem html_escape_injective (s t : string) : html_escape s = html_escape t -> s = t.
Proof.
  revert t. induction s as [|x s IH]; intros [|y t] H.
  - reflexivity.
  - rewrite html_escape_cons in H.
    destruct (html_escape_char_cases y) as [[_ E]|[[_ E]|[[_ E]|[[_ E]|[[_ E]|[_ E]]]]]];
      rewrite E in H; discriminate.
  - rewrite html_escape_cons in H.
    destruct (html_escape_char_cases x) as [[_ E]|[[_ E]|[[_ E]|[[_ E]|[[_ E]|[_ E]]]]]];
      rewrite E in H; discriminate.
  - rewrite !html_escape_cons in H.
    apply html_escape_char_prefix in H as [-> H]. f_equal. apply IH. exact H.
Qed.

(** The status column of the check tabs: [re.sub(r'^\d+[a-z]?\s+', '', ...)]
    on the label get_buy_pressure_status returns gives exactly the label
    get_buy_pressure_status_display returns, for every Buy Pressure
    (NaN included). *)
Theorem status_prefix_strip (bp : pyfloat) :
  strip_status_prefix (get_buy_pressure_status_text bp) = get_buy_pressure_status_display_text bp.
Proof.
  unfold get_buy_pressure_status_text, get_buy_pressure_status_display_text,
    get_buy_pressure_status, get_buy_pressure_status_display.
  destruct (flt_lt (Fin lit_0_667) bp); [reflexivity|].
  destruct (flt_lt (Fin lit_0_60) bp); [reflexivity|].
  destruct (flt_lt (Fin lit_0_55) bp); [reflexivity|].
  destruct (flt_lt bp (Fin lit_0_333)); [reflexivity|].
  destruct (flt_lt bp (Fin lit_0_45)); reflexivity.
Qed.

(* ------------------------------------------------------------------ *)
(** *** numpy's argsort returns a permutation of the positions *)

Lemma count_occ_insert (l : list nat) (i x y : nat) :
  (i < length l)%nat ->
  (count_occ Nat.eq_dec (<[i:=x]> l) y + (if Nat.eq_dec (l !!! i) y then 1 else 0)
   = count_occ Nat.eq_dec l y + (if Nat.eq_dec x y then 1 else 0))%nat.
Proof.
  revert i. induction l as [|a l IH]; intros [|i] Hi; simpl in *; try lia.
  - destruct (Nat.eq_dec x y), (Nat.eq_dec a y); lia.
  - specialize (IH i ltac:(lia)). destruct (Nat.eq_dec a y); lia.
Qed.

(** Writing [x] at [i] and [y] at [j] gives the same multiset as writing
    them the other way round. *)
Lemma insert_insert_perm (l : list nat) (i j x y : nat) :
  i <> j -> (i < length l)%nat -> (j < length l)%nat ->
  Permutation (<[i:=x]> (<[j:=y]> l)) (<[i:=y]> (<[j:=x]> l)).
Proof.
  intros Hij Hi Hj. apply (Permutation_count_occ Nat.eq_dec). intros c.
  pose proof (count_occ_insert l j y c Hj) as A1.
  pose proof (count_occ_insert l j x c Hj) as A2.
  pose proof (count_occ_insert (<[j:=y]> l) i x c ltac:(rewrite length_insert; lia)) as A3.
  pose proof (count_occ_insert (<[j:=x]> l) i y c ltac:(rewrite length_insert; lia)) as A4.
  rewrite list_lookup_total_insert_ne in A3, A4 by congruence.
  destruct (Nat.eq_dec x c), (Nat.eq_dec y c); lia.
Qed.

(** Moving the value at [j] into the hole [i] moves the hole to [j]. *)
Lemma hole_move_perm (l : list nat) (i j h : nat) :
  i <> j -> (i < length l)%nat -> (j < length l)%nat ->
  Permutation (<[j:=h]> (<[i:=l !!! j]> l)) (<[i:=h]> l).
Proof.
  intros Hij Hi Hj.
  rewrite (insert_insert_perm l j i h (l !!! j)) by auto.
  rewrite list_insert_id; [reflexivity|].
  rewrite list_lookup_insert_ne by congruence.
  apply list_lookup_lookup_total_lt. exact Hj.
Qed.

Lemma insert_self (l : list nat) (i : nat) : <[i:=l !!! i]> l = l.
Proof.
  destruct (decide (i < length l)%nat) as [Hi|Hi].
  - apply list_insert_id, list_lookup_lookup_total_lt. exact Hi.
  - apply list_insert_ge. lia.
Qed.

Module NpySortPerm.
Import NpySort.

Definition in_range (ts : list nat) (p : Z) : Prop := (0 <= p < Z.of_nat (length ts))%Z.

Lemma length_set (ts : list nat) (p : Z) (x : nat) : length (set_ ts p x) = length ts.
Proof. apply length_insert. Qed.

Lemma length_swap (ts : list nat) (p q : Z) : length (swap ts p q) = length ts.
Proof. unfold swap. rewrite !length_set. reflexivity. Qed.

Lemma in_range_set (ts : list nat) (p q : Z) (x : nat) :
  in_range (set_ ts q x) p <-> in_range ts p.
Proof. unfold in_range. rewrite length_set. reflexivity. Qed.

Lemma in_range_swap (ts : list nat) (p q r : Z) :
  in_range (swap ts q r) p <-> in_range ts p.
Proof. unfold in_range. rewrite length_swap. reflexivity. Qed.

Lemma Z2Nat_neq (p q : Z) : (0 <= p)%Z -> (0 <= q)%Z -> p <> q -> Z.to_nat p <> Z.to_nat q.
Proof. lia. Qed.

Lemma at_set_eq (ts : list nat) (p : Z) (x : nat) : in_range ts p -> at_ (set_ ts p x) p = x.
Proof. unfold in_range, at_, set_. intros. apply list_lookup_total_insert_eq. lia. Qed.

Lemma at_set_ne (ts : list nat) (p q : Z) (x : nat) :
  (0 <= p)%Z -> (0 <= q)%Z -> p <> q -> at_ (set_ ts p x) q = at_ ts q.
Proof. unfold at_, set_. intros. apply list_lookup_total_insert_ne. lia. Qed.

Lemma swap_perm (ts : list nat) (p q : Z) :
  in_range ts p -> in_range ts q -> Permutation (swap ts p q) ts.
Proof.
  unfold in_range, swap, set_, at_. intros Hp Hq.
  destruct (Z.eq_dec p q) as [->|Hne].
  - rewrite !insert_self. reflexivity.
  - rewrite (insert_insert_perm ts (Z.to_nat q) (Z.to_nat p)) by lia.
    rewrite !insert_self. reflexivity.
Qed.

Lemma at_swap_l (ts : list nat) (p q : Z) :
  in_range ts p -> in_range ts q -> at_ (swap ts p q) p = at_ ts q.
Proof.
  intros Hp Hq. unfold swap. destruct (Z.eq_dec p q) as [->|Hne].
  - rewrite at_set_eq by (apply in_range_set; exact Hq).
    reflexivity.
  - rewrite at_set_ne by (unfold in_range in *; lia).
    apply at_set_eq. exact Hp.
Qed.

Lemma at_swap_r (ts : list nat) (p q : Z) :
  in_range ts p -> in_range ts q -> at_ (swap ts p q) q = at_ ts p.
Proof.
  intros Hp Hq. unfold swap. apply at_set_eq. apply in_range_set. exact Hq.
Qed.

Lemma at_swap_other (ts : list nat) (p q r : Z) :
  (0 <= p)%Z -> (0 <= q)%Z -> (0 <= r)%Z -> r <> p -> r <> q ->
  at_ (swap ts p q) r = at_ ts r.
Proof.
  intros. unfold swap. rewrite !at_set_ne by lia. reflexivity.
Qed.
Lemma flt_lt_irrefl (a : pyfloat) : flt_lt a a = false.
Proof.
  destruct a; simpl; try reflexivity.
  unfold Qltb. apply Z.ltb_ge. lia.
Qed.

Lemma scan_up_bound (fuel : nat) (v : list pyfloat) (ts : list nat) (vp : pyfloat) (pi stop : Z) :
  (pi < stop)%Z -> flt_lt (val v ts stop) vp = false ->
  (pi <= scan_up fuel v ts vp pi <= stop)%Z /\
  ((0 < fuel)%nat -> (pi < scan_up fuel v ts vp pi)%Z).
Proof.
  revert pi. induction fuel as [|f IH]; intros pi Hlt Hstop; simpl.
  - split; lia.
  - destruct (flt_lt (val v ts (pi + 1)) vp) eqn:E.
    + assert (pi + 1 <> stop)%Z by (intros Heq; rewrite Heq in E; congruence).
      destruct (IH (pi + 1)%Z ltac:(lia) Hstop) as [H1 _]. split; lia.
    + split; lia.
Qed.

Lemma scan_down_bound (fuel : nat) (v : list pyfloat) (ts : list nat) (vp : pyfloat) (pj stop : Z) :
  (stop < pj)%Z -> flt_lt vp (val v ts stop) = false ->
  (stop <= scan_down fuel v ts vp pj <= pj)%Z /\
  ((0 < fuel)%nat -> (scan_down fuel v ts vp pj < pj)%Z).
Proof.
  revert pj. induction fuel as [|f IH]; intros pj Hlt Hstop; simpl.
  - split; lia.
  - destruct (flt_lt vp (val v ts (pj - 1))) eqn:E.
    + assert (pj - 1 <> stop)%Z by (intros Heq; rewrite Heq in E; congruence).
      destruct (IH (pj - 1)%Z ltac:(lia) Hstop) as [H1 _]. split; lia.
    + split; lia.
Qed.

Lemma val_swap_other (v : list pyfloat) (ts : list nat) (p q r : Z) :
  (0 <= p)%Z -> (0 <= q)%Z -> (0 <= r)%Z -> r <> p -> r <> q ->
  val v (swap ts p q) r = val v ts r.
Proof. intros. unfold val. rewrite at_swap_other; auto. Qed.

Lemma partition_loop_perm (fuel : nat) (v : list pyfloat) (ts : list nat) (vp : pyfloat)
    (pl pr pi pj : Z) :
  (0 < length v)%nat ->
  (0 <= pl)%Z -> (pr < Z.of_nat (length ts))%Z ->
  (pl <= pi < pj)%Z -> (pj <= pr - 1)%Z ->
  flt_lt (val v ts (pr - 1)) vp = false ->
  flt_lt vp (val v ts pl) = false ->
  Permutation (fst (partition_loop fuel v ts vp pi pj)) ts /\
  length (fst (partition_loop fuel v ts vp pi pj)) = length ts /\
  (pl <= snd (partition_loop fuel v ts vp pi pj) <= pr - 1)%Z.
Proof.
  revert ts pi pj. induction fuel as [|f IH]; intros ts pi pj Hv Hpl Hpr Hij Hpj Hs1 Hs2; simpl.
  - split; [reflexivity|]. split; [reflexivity|]. lia.
  - destruct (scan_up_bound (length v) v ts vp pi (pr - 1) ltac:(lia) Hs1) as [Hu1 Hu2].
    destruct (scan_down_bound (length v) v ts vp pj pl ltac:(lia) Hs2) as [Hd1 Hd2].
    specialize (Hu2 Hv). specialize (Hd2 Hv).
    set (pi' := scan_up (length v) v ts vp pi) in *.
    set (pj' := scan_down (length v) v ts vp pj) in *.
    destruct (pj' <=? pi')%Z eqn:E.
    + simpl. split; [reflexivity|]. split; [reflexivity|]. lia.
    + apply Z.leb_gt in E.
      destruct (IH (swap ts pi' pj') pi' pj') as (H1 & H2 & H3).
      * exact Hv.
      * exact Hpl.
      * rewrite length_swap. exact Hpr.
      * lia.
      * lia.
      * rewrite val_swap_other by lia. exact Hs1.
      * rewrite val_swap_other by lia. exact Hs2.
      * split; [|split].
        -- rewrite H1. apply swap_perm; unfold in_range; lia.
        -- rewrite H2, length_swap. reflexivity.
        -- exact H3.
Qed.

(** One conditional exchange of the median-of-three step. *)
Lemma cond_swap_spec (v : list pyfloat) (ts : list nat) (p q : Z) :
  in_range ts p -> in_range ts q ->
  let ts1 := if flt_lt (val v ts p) (val v ts q) then swap ts p q else ts in
  Permutation ts1 ts /\ length ts1 = length ts /\
  flt_lt (val v ts1 p) (val v ts1 q) = false /\
  (forall r, (0 <= r)%Z -> r <> p -> r <> q -> at_ ts1 r = at_ ts r).
Proof.
  intros Hp Hq ts1. subst ts1.
  destruct (flt_lt (val v ts p) (val v ts q)) eqn:E.
  - split; [apply swap_perm; auto|]. split; [apply length_swap|]. split.
    + unfold val in *. rewrite at_swap_l, at_swap_r by auto. apply flt_lt_asym. exact E.
    + intros r Hr H1 H2. apply at_swap_other; unfold in_range in *; lia.
  - split; [reflexivity|]. split; [reflexivity|]. split; [exact E|]. reflexivity.
Qed.

Lemma partition_perm (v : list pyfloat) (ts : list nat) (pl pr : Z) :
  (0 < length v)%nat -> (0 <= pl)%Z -> (pr < Z.of_nat (length ts))%Z -> (16 < pr - pl)%Z ->
  Permutation (fst (partition v ts pl pr)) ts /\
  length (fst (partition v ts pl pr)) = length ts /\
  (pl <= snd (partition v ts pl pr) <= pr - 1)%Z.
Proof.
  intros Hv Hpl Hpr Hlen. unfold partition.
  set (pm := (pl + Z.shiftr (pr - pl) 1)%Z).
  assert (Hpm : (pl < pm < pr - 1)%Z).
  { subst pm. rewrite Z.shiftr_div_pow2, Z.pow_1_r by lia.
    assert (2 * ((pr - pl) / 2) <= pr - pl)%Z by (apply Z.mul_div_le; lia).
    assert (pr - pl < 2 * ((pr - pl) / 2) + 2)%Z.
    { pose proof (Z.mod_pos_bound (pr - pl) 2 ltac:(lia)).
      pose proof (Z.div_mod (pr - pl) 2 ltac:(lia)). lia. }
    lia. }
  destruct (cond_swap_spec v ts pm pl ltac:(unfold in_range; lia) ltac:(unfold in_range; lia))
    as (P1 & L1 & _ & _).
  set (ts1 := if flt_lt (val v ts pm) (val v ts pl) then swap ts pm pl else ts) in *.
  destruct (cond_swap_spec v ts1 pr pm ltac:(unfold in_range; lia) ltac:(unfold in_range; lia))
    as (P2 & L2 & _ & _).
  set (ts2 := if flt_lt (val v ts1 pr) (val v ts1 pm) then swap ts1 pr pm else ts1) in *.
  destruct (cond_swap_spec v ts2 pm pl ltac:(unfold in_range; lia) ltac:(unfold in_range; lia))
    as (P3 & L3 & S3 & _).
  set (ts3 := if flt_lt (val v ts2 pm) (val v ts2 pl) then swap ts2 pm pl else ts2) in *.
  set (vp := val v ts3 pm).
  set (ts4 := swap ts3 pm (pr - 1)).
  assert (L4 : length ts4 = length ts) by (subst ts4; rewrite length_swap; lia).
  assert (P4 : Permutation ts4 ts).
  { subst ts4. rewrite swap_perm by (unfold in_range; lia). rewrite P3, P2, P1. reflexivity. }
  assert (S4a : flt_lt (val v ts4 (pr - 1)) vp = false).
  { subst ts4 vp. unfold val at 1. rewrite at_swap_r by (unfold in_range; lia).
    apply flt_lt_irrefl. }
  assert (S4b : flt_lt vp (val v ts4 pl) = false).
  { subst ts4. rewrite val_swap_other by lia. exact S3. }
  destruct (partition_loop_perm (length v) v ts4 vp pl pr pl (pr - 1) Hv Hpl
              ltac:(lia) ltac:(lia) ltac:(lia) S4a S4b) as (P5 & L5 & B5).
  destruct (partition_loop (length v) v ts4 vp pl (pr - 1)) as [ts5 pi] eqn:E5.
  simpl in *. split; [|split].
  - rewrite swap_perm by (unfold in_range; lia). rewrite P5. exact P4.
  - rewrite length_swap. lia.
  - exact B5.
Qed.
(** The pending ranges lie inside the array. *)
Definition stack_ok (len : nat) (stack : list (Z * Z * Z)) : Prop :=
  Forall (fun e => match e with (a, b, _) => (0 <= a)%Z /\ (b < Z.of_nat len)%Z end) stack.

Lemma partition_phase_perm (fuel : nat) (v : list pyfloat) (ts : list nat) (pl pr cdepth : Z)
    (stack : list (Z * Z * Z)) :
  length ts = length v -> (0 <= pl)%Z -> (pr < Z.of_nat (length ts))%Z ->
  stack_ok (length ts) stack ->
  match partition_phase fuel v ts pl pr cdepth stack with
  | (ts', pl', pr', stack') =>
      Permutation ts' ts /\ length ts' = length ts /\ (0 <= pl')%Z /\
      (pr' < Z.of_nat (length ts))%Z /\ stack_ok (length ts) stack'
  end.
Proof.
  revert ts pl pr cdepth stack.
  induction fuel as [|f IH]; intros ts pl pr cdepth stack Hlen Hpl Hpr Hst; simpl.
  - auto.
  - destruct (SMALL_QUICKSORT <? pr - pl)%Z eqn:Es; [|auto].
    unfold SMALL_QUICKSORT in Es. apply Z.ltb_lt in Es.
    destruct (partition_perm v ts pl pr ltac:(lia) Hpl Hpr ltac:(lia)) as (P1 & L1 & B1).
    destruct (partition v ts pl pr) as [ts1 pi] eqn:Ep. simpl in P1, L1, B1.
    destruct (pi - pl <? pr - pi)%Z.
    + specialize (IH ts1 pl (pi - 1)%Z (cdepth - 1)%Z ((pi + 1, pr, cdepth - 1)%Z :: stack)
                    ltac:(lia) Hpl ltac:(lia)).
      rewrite L1 in IH.
      destruct (partition_phase f v ts1 pl (pi - 1) (cdepth - 1) _) as [[[ts2 pl2] pr2] st2].
      destruct IH as (P2 & L2 & H2); [constructor; [lia|exact Hst]|].
      split; [rewrite P2; exact P1|]. split; [lia|exact H2].
    + specialize (IH ts1 (pi + 1)%Z pr (cdepth - 1)%Z ((pl, pi - 1, cdepth - 1)%Z :: stack)
                    ltac:(lia) ltac:(lia) ltac:(lia)).
      rewrite L1 in IH.
      destruct (partition_phase f v ts1 (pi + 1) pr (cdepth - 1) _) as [[[ts2 pl2] pr2] st2].
      destruct IH as (P2 & L2 & H2); [constructor; [lia|exact Hst]|].
      split; [rewrite P2; exact P1|]. split; [lia|exact H2].
Qed.

Lemma insertion_shift_perm (fuel : nat) (v : list pyfloat) (ts : list nat) (vp : pyfloat)
    (pl pj : Z) (vi : nat) (orig : list nat) :
  (0 <= pl <= pj)%Z -> (pj < Z.of_nat (length ts))%Z ->
  Permutation (<[Z.to_nat pj := vi]> ts) orig ->
  Permutation (<[Z.to_nat (snd (insertion_shift fuel v ts vp pl pj)) := vi]>
                 (fst (insertion_shift fuel v ts vp pl pj))) orig /\
  length (fst (insertion_shift fuel v ts vp pl pj)) = length ts /\
  (pl <= snd (insertion_shift fuel v ts vp pl pj) <= pj)%Z.
Proof.
  revert ts pj. induction fuel as [|f IH]; intros ts pj Hpj Hlt HP; simpl.
  - split; [exact HP|]. split; [reflexivity|]. lia.
  - destruct ((pl <? pj)%Z && flt_lt vp (val v ts (pj - 1))) eqn:E.
    + apply andb_prop in E as [E _]. apply Z.ltb_lt in E.
      destruct (IH (set_ ts pj (at_ ts (pj - 1))) (pj - 1)%Z) as (H1 & H2 & H3).
      * lia.
      * rewrite length_set. lia.
      * unfold set_, at_. rewrite hole_move_perm by lia. exact HP.
      * split; [exact H1|]. split; [rewrite H2, length_set; reflexivity|]. lia.
    + simpl. split; [exact HP|]. split; [reflexivity|]. lia.
Qed.

Lemma insertion_sort_perm (fuel : nat) (v : list pyfloat) (ts : list nat) (pl pi pr : Z) :
  (0 <= pl < pi)%Z -> (pr < Z.of_nat (length ts))%Z ->
  Permutation (insertion_sort fuel v ts pl pi pr) ts /\
  length (insertion_sort fuel v ts pl pi pr) = length ts.
Proof.
  revert ts pi. induction fuel as [|f IH]; intros ts pi Hpi Hpr; simpl; [auto|].
  destruct (pr <? pi)%Z eqn:E; [auto|]. apply Z.ltb_ge in E.
  destruct (insertion_shift_perm (length v) v ts (v !!! at_ ts pi) pl pi (at_ ts pi) ts
              ltac:(lia) ltac:(lia) ltac:(unfold at_; rewrite insert_self; reflexivity))
    as (H1 & H2 & H3).
  destruct (insertion_shift (length v) v ts (v !!! at_ ts pi) pl pi) as [ts1 pj] eqn:Es.
  simpl in H1, H2, H3.
  destruct (IH (set_ ts1 pj (at_ ts pi)) (pi + 1)%Z) as (H4 & H5).
  - lia.
  - rewrite length_set, H2. lia.
  - split; [rewrite H4; exact H1|]. rewrite H5, length_set, H2. reflexivity.
Qed.

Lemma sift_perm (fuel : nat) (v : list pyfloat) (ts : list nat) (base n : Z) (tmp : nat)
    (i j : Z) (orig : list nat) :
  (0 <= base)%Z -> (base + n - 1 < Z.of_nat (length ts))%Z -> (1 <= i <= n)%Z -> j = (i + i)%Z ->
  Permutation (<[Z.to_nat (base + i - 1) := tmp]> ts) orig ->
  Permutation (sift fuel v ts base n tmp i j) orig /\
  length (sift fuel v ts base n tmp i j) = length ts.
Proof.
  revert ts i j. induction fuel as [|f IH]; intros ts i j Hb Hn Hi Hj HP; simpl.
  - split; [exact HP|apply length_set].
  - destruct (n <? j)%Z eqn:E1; [split; [exact HP|apply length_set]|].
    apply Z.ltb_ge in E1.
    set (j' := if ((j <? n)%Z && flt_lt (v !!! at_ ts (base + j - 1)) (v !!! at_ ts (base + (j + 1) - 1)))
               then (j + 1)%Z else j).
    assert (Hj' : (i < j' <= n)%Z).
    { subst j'. destruct (j <? n)%Z eqn:E2; simpl; [apply Z.ltb_lt in E2|]; 
      [destruct (flt_lt _ _)|]; lia. }
    destruct (flt_lt (v !!! tmp) (v !!! at_ ts (base + j' - 1))).
    + destruct (IH (set_ ts (base + i - 1) (at_ ts (base + j' - 1))) j' (j' + j')%Z)
        as (H1 & H2).
      * exact Hb.
      * rewrite length_set. exact Hn.
      * lia.
      * reflexivity.
      * unfold set_, at_. rewrite hole_move_perm by lia. exact HP.
      * split; [exact H1|rewrite H2, length_set; reflexivity].
    + split; [exact HP|apply length_set].
Qed.

Lemma heapify_perm (fuel : nat) (v : list pyfloat) (ts : list nat) (base n l : Z) :
  (0 <= base)%Z -> (base + n - 1 < Z.of_nat (length ts))%Z -> ((0 < l)%Z -> (l <= n)%Z) ->
  Permutation (heapify fuel v ts base n l) ts /\ length (heapify fuel v ts base n l) = length ts.
Proof.
  revert ts l. induction fuel as [|f IH]; intros ts l Hb Hn Hl; simpl; [auto|].
  destruct (l <=? 0)%Z eqn:E; [auto|]. apply Z.leb_gt in E.
  destruct (sift_perm (length v) v ts base n (at_ ts (base + l - 1)) l (Z.shiftl l 1) ts
              Hb Hn ltac:(lia) ltac:(rewrite Z.shiftl_mul_pow2, Z.pow_1_r by lia; lia)
              ltac:(unfold at_; rewrite insert_self; reflexivity)) as (H1 & H2).
  destruct (IH (sift (length v) v ts base n (at_ ts (base + l - 1)) l (Z.shiftl l 1)) (l - 1)%Z)
    as (H3 & H4).
  - exact Hb.
  - rewrite H2. exact Hn.
  - lia.
  - split; [rewrite H3; exact H1|rewrite H4; exact H2].
Qed.

Lemma pop_max_perm (fuel : nat) (v : list pyfloat) (ts : list nat) (base n : Z) :
  (0 <= base)%Z -> (base + n - 1 < Z.of_nat (length ts))%Z ->
  Permutation (pop_max fuel v ts base n) ts /\ length (pop_max fuel v ts base n) = length ts.
Proof.
  revert ts n. induction fuel as [|f IH]; intros ts n Hb Hn; simpl; [auto|].
  destruct (n <=? 1)%Z eqn:E; [auto|]. apply Z.leb_gt in E.
  set (ts1 := set_ ts (base + n - 1) (at_ ts base)).
  assert (L1 : length ts1 = length ts) by apply length_set.
  destruct (sift_perm (length v) v ts1 base (n - 1) (at_ ts (base + n - 1)) 1 2 ts
              Hb ltac:(lia) ltac:(lia) ltac:(lia)) as (H1 & H2).
  { subst ts1. unfold set_, at_.
    replace (Z.to_nat (base + 1 - 1)) with (Z.to_nat base) by lia.
    rewrite hole_move_perm by lia. rewrite insert_self. reflexivity. }
  destruct (IH (sift (length v) v ts1 base (n - 1) (at_ ts (base + n - 1)) 1 2) (n - 1)%Z)
    as (H3 & H4).
  - exact Hb.
  - rewrite H2. lia.
  - split; [rewrite H3; exact H1|rewrite H4, H2; exact L1].
Qed.

Lemma aheapsort_perm (v : list pyfloat) (ts : list nat) (base n : Z) :
  (0 <= base)%Z -> (base + n - 1 < Z.of_nat (length ts))%Z ->
  Permutation (aheapsort v ts base n) ts /\ length (aheapsort v ts base n) = length ts.
Proof.
  intros Hb Hn. unfold aheapsort.
  destruct (heapify_perm (length v) v ts base n (Z.shiftr n 1) Hb Hn) as (H1 & H2).
  { rewrite Z.shiftr_div_pow2, Z.pow_1_r by lia. intros Hpos.
    assert (0 < n)%Z.
    { destruct (Z.le_gt_cases n 0) as [Hle|]; [|lia].
      assert (n / 2 <= 0)%Z by (apply Z.div_le_upper_bound; lia). lia. }
    apply Z.div_le_upper_bound; lia. }
  destruct (pop_max_perm (length v) v (heapify (length v) v ts base n (Z.shiftr n 1)) base n Hb
              ltac:(rewrite H2; exact Hn)) as (H3 & H4).
  split; [rewrite H3; exact H1|rewrite H4; exact H2].
Qed.

Lemma qs_loop_perm (fuel : nat) (v : list pyfloat) (ts : list nat) (pl pr cdepth : Z)
    (stack : list (Z * Z * Z)) :
  length ts = length v -> (0 <= pl)%Z -> (pr < Z.of_nat (length ts))%Z ->
  stack_ok (length ts) stack ->
  Permutation (qs_loop fuel v ts pl pr cdepth stack) ts /\
  length (qs_loop fuel v ts pl pr cdepth stack) = length ts.
Proof.
  revert ts pl pr cdepth stack.
  induction fuel as [|f IH]; intros ts pl pr cdepth stack Hlen Hpl Hpr Hst; simpl; [auto|].
  assert (Hstep : exists ts' stack',
             (if (cdepth <? 0)%Z then (aheapsort v ts pl (pr - pl + 1), stack)
              else let '(ts1, pl1, pr1, stack1) := partition_phase (length v) v ts pl pr cdepth stack in
                   (insertion_sort (length v) v ts1 pl1 (pl1 + 1) pr1, stack1)) = (ts', stack') /\
             Permutation ts' ts /\ length ts' = length ts /\ stack_ok (length ts) stack').
  { destruct (cdepth <? 0)%Z.
    - destruct (aheapsort_perm v ts pl (pr - pl + 1) Hpl ltac:(lia)) as (H1 & H2).
      eexists _, _. split; [reflexivity|]. auto.
    - pose proof (partition_phase_perm (length v) v ts pl pr cdepth stack Hlen Hpl Hpr Hst) as HP.
      destruct (partition_phase (length v) v ts pl pr cdepth stack) as [[[ts1 pl1] pr1] st1].
      destruct HP as (H1 & H2 & H3 & H4 & H5).
      destruct (insertion_sort_perm (length v) v ts1 pl1 (pl1 + 1) pr1 ltac:(lia) ltac:(lia))
        as (H6 & H7).
      eexists _, _. split; [reflexivity|].
      split; [rewrite H6; exact H1|]. split; [lia|exact H5]. }
  destruct Hstep as (ts' & stack' & Heq & H1 & H2 & H3). rewrite Heq.
  destruct stack' as [|[[a b] d] st]; [auto|].
  inversion H3 as [|? ? Hab Hrest]; subst.
  destruct (IH ts' a b d st ltac:(lia) ltac:(lia) ltac:(lia) ltac:(rewrite H2; exact Hrest))
    as (H4 & H5).
  split; [rewrite H4; exact H1|lia].
Qed.

(** numpy's [argsort(kind='quicksort')] returns every position exactly
    once. *)
Lemma aquicksort_perm (v : list pyfloat) : Permutation (aquicksort v) (seq 0 (length v)).
Proof.
  unfold aquicksort.
  apply (qs_loop_perm _ v (seq 0 (length v))); rewrite ?length_seq; try lia.
  constructor.
Qed.
End NpySortPerm.

(* ------------------------------------------------------------------ *)
(** *** Sorting with numpy's quicksort keeps every row *)

Lemma Permutation_filter_bool {A : Type} (f : A -> bool) (l l' : list A) :
  Permutation l l' -> Permutation (List.filter f l) (List.filter f l').
Proof.
  induction 1 as [|x l l' _ IH|x y l|l l' l'' _ IH1 _ IH2]; simpl.
  - constructor.
  - destruct (f x); [constructor|]; exact IH.
  - destruct (f x), (f y); try constructor; reflexivity.
  - etransitivity; [exact IH1|exact IH2].
Qed.

Lemma filter_ext_bool {A : Type} (f g : A -> bool) (l : list A) :
  (forall x, In x l -> f x = g x) -> List.filter f l = List.filter g l.
Proof.
  induction l as [|a l IH]; intros H; simpl; [reflexivity|].
  rewrite (H a (or_introl eq_refl)), IH by (intros x Hx; apply H; right; exact Hx).
  reflexivity.
Qed.

Lemma omap_lookup_perm {A : Type} `{!Inhabited A} (rows : list A) (idx : list nat) :
  Permutation idx (seq 0 (length rows)) -> Permutation (omap (fun i => rows !! i) idx) rows.
Proof.
  intros HP. rewrite omap_lookup_in_range by (apply Permutation_seq_bound; exact HP).
  transitivity (map (fun i => rows !!! i) (seq 0 (length rows))).
  - apply Permutation_map. exact HP.
  - rewrite map_lookup_total_seq. reflexivity.
Qed.

Lemma nargsort_desc_aq_perm (items : list pyfloat) :
  Permutation (nargsort_desc NpySort.aquicksort items) (seq 0 (length items)).
Proof.
  unfold nargsort_desc. cbv zeta.
  set (NNI := List.filter (fun i => negb (py_isna (items !!! i))) (seq 0 (length items))).
  etransitivity; [|apply (filter_complement_perm (fun i => py_isna (items !!! i)))].
  apply Permutation_app_tail. fold NNI.
  rewrite <- Permutation_rev.
  pose proof (NpySortPerm.aquicksort_perm (rev (map (fun i => items !!! i) NNI))) as HP.
  rewrite length_rev, length_map in HP.
  rewrite <- map_rev in HP |- *.
  transitivity (map (fun j => rev NNI !!! j) (seq 0 (length (rev NNI)))).
  - apply Permutation_map. rewrite length_rev. exact HP.
  - rewrite map_lookup_total_seq. symmetry. apply Permutation_rev.
Qed.

Lemma nargsort_asc_aq_perm (items : list pyfloat) :
  Permutation (nargsort_asc NpySort.aquicksort items) (seq 0 (length items)).
Proof.
  unfold nargsort_asc. cbv zeta.
  set (NNI := List.filter (fun i => negb (py_isna (items !!! i))) (seq 0 (length items))).
  etransitivity; [|apply (filter_complement_perm (fun i => py_isna (items !!! i)))].
  apply Permutation_app_tail. fold NNI.
  pose proof (NpySortPerm.aquicksort_perm (map (fun i => items !!! i) NNI)) as HP.
  rewrite length_map in HP.
  transitivity (map (fun j => NNI !!! j) (seq 0 (length NNI))).
  - apply Permutation_map. exact HP.
  - rewrite map_lookup_total_seq. reflexivity.
Qed.

Lemma sort_values_desc_aq_perm {A : Type} `{!Inhabited A} (col : A -> pyfloat) (rows : list A) :
  Permutation (sort_values_desc NpySort.aquicksort col rows) rows.
Proof.
  unfold sort_values_desc. apply omap_lookup_perm.
  rewrite <- (length_map col rows). apply nargsort_desc_aq_perm.
Qed.

Lemma sort_values_asc_aq_perm {A : Type} `{!Inhabited A} (col : A -> pyfloat) (rows : list A) :
  Permutation (sort_values_asc NpySort.aquicksort col rows) rows.
Proof.
  unfold sort_values_asc. apply omap_lookup_perm.
  rewrite <- (length_map col rows). apply nargsort_asc_aq_perm.
Qed.

Lemma map_fst_omap {A B : Type} (f : A -> option (A * B)) (l : list A) :
  (forall x y, f x = Some y -> fst y = x) ->
  map fst (omap f l) = List.filter (fun x => match f x with Some _ => true | None => false end) l.
Proof.
  intros Hf. induction l as [|a l IH]; [reflexivity|].
  change (omap f (a :: l)) with (match f a with Some y => y :: omap f l | None => omap f l end).
  simpl. destruct (f a) as [y|] eqn:E; simpl; [|exact IH].
  rewrite (Hf _ _ E), IH. reflexivity.
Qed.

(** create_industry_table as the app runs it (numpy's quicksort): the
    industries that get a section are, in some order, exactly those with
    [min(max_stocks_per_industry, count) > 0] matching stocks, and the
    section of an industry shows the first [max_stocks_per_industry]
    stocks of an ordering of all its matching stocks, so
    [min(max_stocks_per_industry, count)] of them. *)
Theorem create_industry_table_sections (stocks : list screening_row)
    (inds : list industry_num_row) (c : sort_by_column) (maxn : nat) :
  let matching ind := List.filter (fun r => cell_eq (sr_industry r) (in_industry ind)) stocks in
  Permutation (map fst (create_industry_table stocks inds c maxn))
              (List.filter (fun ind => Nat.ltb 0 (Nat.min maxn (length (matching ind)))) inds) /\
  (forall ind grp, In (ind, grp) (create_industry_table stocks inds c maxn) ->
     length grp = Nat.min maxn (length (matching ind)) /\
     exists order, Permutation order (matching ind) /\ grp = take maxn order).
Proof.
  intros matching. split.
  - unfold create_industry_table, create_industry_table_with. cbv zeta.
    rewrite map_fst_omap.
    + etransitivity; [|apply Permutation_filter_bool, (sort_values_desc_aq_perm in_rs_rating inds)].
      apply Permutation_refl'. apply filter_ext_bool. intros ind _.
      rewrite length_take, (Permutation_length (sort_values_desc_aq_perm _ _)).
      fold (matching ind).
      destruct (Nat.min maxn (length (matching ind))) eqn:E; reflexivity.
    + intros x y. destruct (Nat.eqb _ 0); [discriminate|]. intros H; inversion H; reflexivity.
  - intros ind grp Hin.
    destruct (create_industry_table_with_groups _ _ _ _ _ _ _ Hin) as [_ [_ [Hg _]]].
    rewrite Hg. split.
    + rewrite length_take, (Permutation_length (sort_values_desc_aq_perm _ _)). reflexivity.
    + eexists. split; [apply sort_values_desc_aq_perm|reflexivity].
Qed.

(* ------------------------------------------------------------------ *)
(** *** The symbol cells *)

Lemma py_join_nonempty (sep : string) (l : list string) :
  Forall (fun x => x <> EmptyString) l -> l <> [] -> py_join sep l <> EmptyString.
Proof.
  intros Hf Hl. destruct l as [|x [|y l]]; [congruence| |].
  - inversion Hf; assumption.
  - inversion Hf as [|? ? Hx _]; subst. simpl.
    destruct x as [|c x]; [congruence|]. simpl. discriminate.
Qed.

Lemma colored_symbols_sorted (l : list display_row) :
  (l = [] -> colored_symbols (sort_values_desc NpySort.aquicksort dr_buy_pressure l)
             = (EmptyString, EmptyString)) /\
  (l <> [] -> exists order, Permutation order l /\
     colored_symbols (sort_values_desc NpySort.aquicksort dr_buy_pressure l)
       = (py_join ", " (map colored_span order),
          py_join ", " (map (fun stock => html_escape (dr_symbol stock)) order)) /\
     py_join ", " (map colored_span order) <> EmptyString).
Proof.
  pose proof (sort_values_desc_aq_perm dr_buy_pressure l) as HP.
  split.
  - intros ->. reflexivity.
  - intros Hl. exists (sort_values_desc NpySort.aquicksort dr_buy_pressure l).
    split; [exact HP|].
    assert (Hn : sort_values_desc NpySort.aquicksort dr_buy_pressure l <> []).
    { intros E. rewrite E in HP. apply Permutation_nil in HP. congruence. }
    unfold colored_symbols.
    destruct (Nat.eqb (length (sort_values_desc NpySort.aquicksort dr_buy_pressure l)) 0) eqn:E.
    + apply Nat.eqb_eq, length_zero_iff_nil in E. congruence.
    + split; [reflexivity|].
      apply py_join_nonempty.
      * apply List.Forall_forall. intros x Hx. apply in_map_iff in Hx.
        destruct Hx as [s [<- _]]. unfold colored_span. discriminate.
      * destruct (sort_values_desc NpySort.aquicksort dr_buy_pressure l); simpl; congruence.
Qed.

(** get_colored_symbols_html: with no stock of the industry at the score
    both strings are empty; otherwise the display HTML is not empty, and
    it and the copy text list, in one same order, every matching stock
    exactly once (a span each, and its escaped symbol). *)
Theorem get_colored_symbols_html_cell (industry : cell) (score : Z) (df : list display_row) :
  let matching := List.filter (fun r => cell_eq (dr_industry r) industry
                                        && flt_eq (dr_technical_score r) (flt_of_Z score)) df in
  (matching = [] -> get_colored_symbols_html industry score df = (EmptyString, EmptyString)) /\
  (matching <> [] -> exists order, Permutation order matching /\
     get_colored_symbols_html industry score df
       = (py_join ", " (map colored_span order),
          py_join ", " (map (fun stock => html_escape (dr_symbol stock)) order)) /\
     fst (get_colored_symbols_html industry score df) <> EmptyString).
Proof.
  intros matching.
  destruct (colored_symbols_sorted matching) as [H0 H1].
  split; [exact H0|].
  intros Hm. destruct (H1 Hm) as [order [HP [Heq Hne]]].
  exists order. unfold get_colored_symbols_html, get_colored_symbols_html_with.
  fold matching. rewrite Heq. auto.
Qed.

(** get_colored_symbols_html_with_fs: the same for the stocks of the
    industry whose name is the given text, at the technical score [ts]
    and the fundamental score [fs]. *)
Theorem get_colored_symbols_html_with_fs_cell (industry : string) (ts : pyfloat) (fs : Z)
    (df : list display_row) :
  let matching := List.filter (fun r => cell_eq (dr_industry r) (CStr industry)
                                        && flt_eq (dr_technical_score r) ts
                                        && flt_eq (dr_fundamental_score r) (flt_of_Z fs)) df in
  (matching = [] -> get_colored_symbols_html_with_fs industry ts fs df = (EmptyString, EmptyString)) /\
  (matching <> [] -> exists order, Permutation order matching /\
     get_colored_symbols_html_with_fs industry ts fs df
       = (py_join ", " (map colored_span order),
          py_join ", " (map (fun stock => html_escape (dr_symbol stock)) order)) /\
     fst (get_colored_symbols_html_with_fs industry ts fs df) <> EmptyString).
Proof.
  intros matching.
  destruct (colored_symbols_sorted matching) as [H0 H1].
  split; [exact H0|].
  intros Hm. destruct (H1 Hm) as [order [HP [Heq Hne]]].
  exists order. unfold get_colored_symbols_html_with_fs, get_colored_symbols_html_with_fs_with.
  fold matching. rewrite Heq. auto.
Qed.

(* ------------------------------------------------------------------ *)
(** *** The TS x FS sub-columns *)

Lemma flt_same_refl (x : pyfloat) : flt_same x x = true.
Proof. destruct x; unfold flt_same; simpl; try reflexivity. rewrite Qeq_bool_refl. reflexivity. Qed.

Lemma unique_floats_acc_sub (seen l : list pyfloat) (y : pyfloat) :
  In y (unique_floats_acc seen l) -> In y l.
Proof.
  revert seen. induction l as [|a l IH]; intros seen; simpl; [tauto|].
  destruct (existsb (flt_same a) seen); simpl.
  - intros H. right. exact (IH _ H).
  - intros [H|H]; [left; exact H|right; exact (IH _ H)].
Qed.

Lemma unique_floats_acc_rep (seen l : list pyfloat) (x : pyfloat) :
  In x l ->
  (exists s, In s seen /\ flt_same x s = true) \/
  (exists y, In y (unique_floats_acc seen l) /\ flt_same x y = true).
Proof.
  revert seen. induction l as [|a l IH]; intros seen Hx; simpl in *; [tauto|].
  destruct (existsb (flt_same a) seen) eqn:E.
  - destruct Hx as [<-|Hx].
    + left. apply existsb_exists in E. exact E.
    + exact (IH _ Hx).
  - destruct Hx as [<-|Hx].
    + right. exists a. split; [left; reflexivity|apply flt_same_refl].
    + destruct (IH (a :: seen) Hx) as [[s [[<-|Hs] Hxs]]|[y [Hy Hxy]]].
      * right. exists a. split; [left; reflexivity|exact Hxs].
      * left. exists s. split; assumption.
      * right. exists y. split; [right; exact Hy|exact Hxy].
Qed.

Lemma unique_floats_rep (l : list pyfloat) (x : pyfloat) :
  In x l -> exists y, In y (unique_floats l) /\ flt_same x y = true.
Proof.
  intros Hx. destruct (unique_floats_acc_rep [] l x Hx) as [[s [[] _]]|H]; exact H.
Qed.

Lemma flt_same_notnan (x y : pyfloat) :
  py_isna x = false -> flt_same x y = true -> flt_eq x y = true.
Proof.
  unfold flt_same. intros Hx H. rewrite Hx in H. simpl in H.
  destruct (flt_eq x y); [reflexivity|exact H].
Qed.

Lemma flt_same_nan (y : pyfloat) : flt_same NaN y = true -> y = NaN.
Proof. destruct y; unfold flt_same; simpl; congruence. Qed.

Lemma py_int_inject_Z (q : Q) (z : Z) : (q == inject_Z z)%Q -> py_int q = z.
Proof.
  intros Hq. unfold py_int.
  destruct (Qle_bool 0 q) eqn:E.
  - rewrite Hq. apply Qfloor_Z.
  - assert (H : (- q == inject_Z (- z))%Q) by (rewrite Hq; unfold Qeq; simpl; lia).
    rewrite H, Qfloor_Z. lia.
Qed.

Lemma map_int_fin (l : list pyfloat) :
  Forall (fun x => exists q, x = Fin q) l ->
  map_int l = POk (map (fun x => match x with Fin q => py_int q | _ => 0 end) l).
Proof.
  induction 1 as [|x l [q ->] _ IH]; simpl; [reflexivity|].
  rewrite IH. reflexivity.
Qed.

Lemma map_int_err (l : list pyfloat) (e : py_exc) :
  map_int l = PErr e -> exists x, In x l /\ py_int_float x = PErr e.
Proof.
  induction l as [|x l IH]; simpl; [discriminate|].
  destruct (py_int_float x) as [z|e'] eqn:E.
  - destruct (map_int l) as [zs|e'']; [discriminate|].
    intros H. inversion H; subst. destruct IH as [y [Hy Hye]]; [reflexivity|].
    exists y. split; [right; exact Hy|exact Hye].
  - intros H. inversion H; subst. exists x. split; [left; reflexivity|exact E].
Qed.

Lemma map_int_nan (l : list pyfloat) : In NaN l -> exists e, map_int l = PErr e.
Proof.
  induction l as [|x l IH]; simpl; [tauto|].
  intros [->|H]; simpl; [eauto|].
  destruct (py_int_float x); [|eauto].
  destruct IH as [e He]; [exact H|]. rewrite He. eauto.
Qed.

Lemma Qeq_bool_sym (x y : Q) : Qeq_bool x y = Qeq_bool y x.
Proof.
  destruct (Qeq_bool x y) eqn:E1, (Qeq_bool y x) eqn:E2; try reflexivity.
  - apply Qeq_bool_iff in E1. rewrite <- E2. symmetry. apply Qeq_bool_iff. symmetry. exact E1.
  - apply Qeq_bool_iff in E2. rewrite <- E1. apply Qeq_bool_iff. symmetry. exact E2.
Qed.

Lemma flt_eq_sym (x y : pyfloat) : flt_eq x y = flt_eq y x.
Proof. destruct x, y; simpl; try reflexivity. apply Qeq_bool_sym. Qed.

Lemma flt_same_sym (x y : pyfloat) : flt_same x y = flt_same y x.
Proof.
  destruct x, y; unfold flt_same; simpl; try reflexivity. rewrite Qeq_bool_sym. reflexivity.
Qed.

Lemma flt_same_trans (x y z : pyfloat) :
  flt_same x y = true -> flt_same y z = true -> flt_same x z = true.
Proof.
  destruct x, y, z; unfold flt_same; simpl; rewrite ?orb_false_r; intros H1 H2;
    try discriminate; try reflexivity.
  apply Qeq_bool_iff in H1. apply Qeq_bool_iff in H2. apply Qeq_bool_iff.
  rewrite H1. exact H2.
Qed.

Lemma flt_eq_same (x y : pyfloat) : flt_eq x y = true -> flt_same x y = true.
Proof. unfold flt_same. intros ->. reflexivity. Qed.

Lemma flt_eq_notnan (x y : pyfloat) : flt_eq x y = true -> py_isna x = false.
Proof. destruct x, y; simpl; congruence. Qed.

Lemma unique_floats_acc_fresh (seen l : list pyfloat) (y : pyfloat) :
  In y (unique_floats_acc seen l) -> existsb (flt_same y) seen = false.
Proof.
  revert seen. induction l as [|a l IH]; intros seen; simpl; [tauto|].
  destruct (existsb (flt_same a) seen) eqn:E; [apply IH|].
  intros [<-|Hy]; [exact E|].
  apply IH in Hy. simpl in Hy. apply orb_false_iff in Hy. exact (proj2 Hy).
Qed.

Lemma unique_floats_acc_canon (seen l : list pyfloat) (x y : pyfloat) :
  In x (unique_floats_acc seen l) -> In y (unique_floats_acc seen l) ->
  flt_same x y = true -> x = y.
Proof.
  revert seen. induction l as [|a l IH]; intros seen; simpl; [tauto|].
  destruct (existsb (flt_same a) seen) eqn:E; [apply IH|].
  intros [<-|Hx] [<-|Hy] Hs; try reflexivity.
  - apply unique_floats_acc_fresh in Hy. simpl in Hy. apply orb_false_iff in Hy.
    rewrite flt_same_sym, (proj1 Hy) in Hs. discriminate.
  - apply unique_floats_acc_fresh in Hx. simpl in Hx. apply orb_false_iff in Hx.
    rewrite (proj1 Hx) in Hs. discriminate.
  - exact (IH _ Hx Hy Hs).
Qed.

Lemma unique_floats_acc_NoDup (seen l : list pyfloat) : NoDup (unique_floats_acc seen l).
Proof.
  revert seen. induction l as [|a l IH]; intros seen; simpl; [constructor|].
  destruct (existsb (flt_same a) seen); [apply IH|].
  constructor; [|apply IH].
  intros Hin. apply list_elem_of_In, unique_floats_acc_fresh in Hin.
  simpl in Hin. rewrite flt_same_refl in Hin. discriminate.
Qed.

Lemma py_int_comp (q q' : Q) : (q == q')%Q -> py_int q = py_int q'.
Proof.
  intros H. unfold py_int.
  assert (E : Qle_bool 0 q = Qle_bool 0 q').
  { destruct (Qle_bool 0 q) eqn:E1, (Qle_bool 0 q') eqn:E2; try reflexivity.
    - apply Qle_bool_iff in E1. rewrite H in E1. apply Qle_bool_iff in E1. congruence.
    - apply Qle_bool_iff in E2. rewrite <- H in E2. apply Qle_bool_iff in E2. congruence. }
  rewrite E. destruct (Qle_bool 0 q').
  - apply Qfloor_comp. exact H.
  - f_equal. apply Qfloor_comp. rewrite H. reflexivity.
Qed.

Lemma NoDup_map_eq {A B : Type} (f : A -> B) (l : list A) (x y : A) :
  NoDup (map f l) -> In x l -> In y l -> f x = f y -> x = y.
Proof.
  induction l as [|a l IH]; simpl; [tauto|].
  intros Hnd. apply NoDup_cons in Hnd as [Ha Hnd].
  intros [<-|Hx] [<-|Hy] Hf; try reflexivity.
  - exfalso. apply Ha. apply list_elem_of_In. rewrite Hf. apply in_map. exact Hy.
  - exfalso. apply Ha. apply list_elem_of_In. rewrite <- Hf. apply in_map. exact Hx.
  - exact (IH Hnd Hx Hy Hf).
Qed.

Lemma NoDup_map_on {A B : Type} (f : A -> B) (l : list A) :
  NoDup l -> (forall x y, In x l -> In y l -> f x = f y -> x = y) -> NoDup (map f l).
Proof.
  induction l as [|a l IH]; intros Hnd Hinj; simpl; [constructor|].
  apply NoDup_cons in Hnd as [Ha Hnd].
  constructor.
  - intros Hin. apply list_elem_of_In, in_map_iff in Hin. destruct Hin as [y [Hy Hyl]].
    assert (a = y) by (apply Hinj; [left; reflexivity|right; exact Hyl|symmetry; exact Hy]).
    subst y. apply Ha, list_elem_of_In. exact Hyl.
  - apply IH; [exact Hnd|]. intros x y Hx Hy. apply Hinj; right; assumption.
Qed.

Lemma NoDup_map_NoDup {A B : Type} (f : A -> B) (l : list A) : NoDup (map f l) -> NoDup l.
Proof.
  induction l as [|a l IH]; simpl; intros Hnd; [constructor|].
  apply NoDup_cons in Hnd as [Ha Hnd]. constructor; [|exact (IH Hnd)].
  intros Hin. apply Ha, list_elem_of_In, in_map, list_elem_of_In. exact Hin.
Qed.

Lemma NoDup_concat_part {A : Type} (L : list (list A)) (a : list A) :
  In a L -> NoDup (concat L) -> NoDup a.
Proof.
  induction L as [|b L IH]; simpl; [tauto|].
  intros Ha Hnd. apply NoDup_app in Hnd as [Hb [_ Hrest]].
  destruct Ha as [<-|Ha]; [exact Hb|exact (IH Ha Hrest)].
Qed.

Lemma NoDup_concat_pairs {B : Type} (tss : list pyfloat) (g : pyfloat -> list B) :
  NoDup tss -> (forall ts, In ts tss -> NoDup (g ts)) ->
  NoDup (concat (map (fun ts => map (pair ts) (g ts)) tss)).
Proof.
  induction tss as [|ts tss IH]; intros Hnd Hg; simpl; [constructor|].
  apply NoDup_cons in Hnd as [Hts Hnd].
  apply NoDup_app. split; [|split].
  - apply NoDup_map_on; [apply Hg; left; reflexivity|].
    intros x y _ _ H. inversion H. reflexivity.
  - intros [t z] H1 H2. apply list_elem_of_In, in_map_iff in H1. destruct H1 as [z' [E _]].
    inversion E; subst t z'.
    apply list_elem_of_In, in_concat in H2. destruct H2 as [l [Hl Hin]].
    apply in_map_iff in Hl. destruct Hl as [t [<- Ht]].
    apply in_map_iff in Hin. destruct Hin as [z' [E' _]]. inversion E'; subst t.
    apply Hts, list_elem_of_In. exact Ht.
  - apply IH; [exact Hnd|]. intros t Ht. apply Hg. right. exact Ht.
Qed.

Section FsSubColumns.
Context (py_sorted_desc : list pyfloat -> list pyfloat).
Hypothesis sorted_perm : forall l, Permutation (py_sorted_desc l) l.

Lemma fs_ints_elems (df : list display_row) (ts f : pyfloat) :
  In f (py_sorted_desc (unique_floats (map dr_fundamental_score
          (List.filter (fun r => flt_eq (dr_technical_score r) ts) df)))) ->
  exists r, In r df /\ dr_fundamental_score r = f.
Proof.
  intros Hf. apply (Permutation_in _ (sorted_perm _)), unique_floats_acc_sub in Hf.
  apply in_map_iff in Hf. destruct Hf as [r [<- Hr]].
  apply List.filter_In in Hr. exists r. split; [exact (proj1 Hr)|reflexivity].
Qed.

Lemma ts_fs_map_ok (df : list display_row) (tss : list pyfloat) (f : pyfloat -> list Z) :
  (forall ts, In ts tss -> fs_ints py_sorted_desc df ts = POk (f ts)) ->
  ts_fs_map py_sorted_desc df tss = POk (map (fun ts => (ts, f ts)) tss).
Proof.
  induction tss as [|ts tss IH]; intros H; simpl; [reflexivity|].
  rewrite (H ts (or_introl eq_refl)), IH by (intros t Ht; apply H; right; exact Ht).
  reflexivity.
Qed.

Lemma ts_fs_map_err (df : list display_row) (tss : list pyfloat) (ts : pyfloat) (e : py_exc) :
  In ts tss -> fs_ints py_sorted_desc df ts = PErr e ->
  exists ts' e', In ts' tss /\ fs_ints py_sorted_desc df ts' = PErr e' /\
                 ts_fs_map py_sorted_desc df tss = PErr e'.
Proof.
  induction tss as [|t tss IH]; simpl; [tauto|].
  intros Hin He.
  destruct (fs_ints py_sorted_desc df t) as [fss|e1] eqn:Et.
  - destruct Hin as [<-|Hin]; [congruence|].
    destruct (IH Hin He) as [ts' [e' [H1 [H2 H3]]]].
    exists ts', e'. rewrite H3. auto.
  - exists t, e1. auto.
Qed.

Lemma ts_values_rep (df : list display_row) (r : display_row) :
  In r df -> py_isna (dr_technical_score r) = false ->
  exists ts, In ts (ts_values py_sorted_desc df) /\ flt_eq (dr_technical_score r) ts = true.
Proof.
  intros Hr Hn.
  destruct (unique_floats_rep (map dr_technical_score df) (dr_technical_score r))
    as [ts [Hts Hs]]; [apply in_map; exact Hr|].
  exists ts. split.
  - unfold ts_values. apply (Permutation_in _ (Permutation_sym (sorted_perm _))). exact Hts.
  - apply flt_same_notnan; assumption.
Qed.

Lemma fs_rep (df : list display_row) (r : display_row) (ts : pyfloat) :
  In r df -> flt_eq (dr_technical_score r) ts = true ->
  exists f, In f (py_sorted_desc (unique_floats (map dr_fundamental_score
                 (List.filter (fun r => flt_eq (dr_technical_score r) ts) df)))) /\
            flt_same (dr_fundamental_score r) f = true.
Proof.
  intros Hr Ht.
  destruct (unique_floats_rep (map dr_fundamental_score
                 (List.filter (fun r => flt_eq (dr_technical_score r) ts) df))
              (dr_fundamental_score r)) as [f [Hf Hs]].
  { apply in_map, List.filter_In. split; assumption. }
  exists f. split; [|exact Hs].
  apply (Permutation_in _ (Permutation_sym (sorted_perm _))). exact Hf.
Qed.

(** render_check_tab_with_fs: when every displayed stock has a technical
    score and a finite fundamental score, building the sub-columns
    raises nothing, and a stock whose fundamental score equals an integer
    [z] has a sub-column [(ts, z)] whose [ts] equals its technical score,
    so the cell of its industry there selects it. *)
Theorem fs_sub_columns_cover (df : list display_row) :
  Forall (fun r => py_isna (dr_technical_score r) = false
                   /\ exists q, dr_fundamental_score r = Fin q) df ->
  exists cols, all_sub_cols py_sorted_desc df = POk cols /\
    forall r z, In r df -> flt_eq (dr_fundamental_score r) (flt_of_Z z) = true ->
      exists ts, In (ts, z) cols /\ flt_eq (dr_technical_score r) ts = true.
Proof.
  intros Hdf. rewrite List.Forall_forall in Hdf.
  set (fl ts := py_sorted_desc (unique_floats (map dr_fundamental_score
                  (List.filter (fun r => flt_eq (dr_technical_score r) ts) df)))).
  set (conv := fun x => match x with Fin q => py_int q | _ => 0 end).
  assert (Hok : forall ts, fs_ints py_sorted_desc df ts = POk (map conv (fl ts))).
  { intros ts. unfold fs_ints. apply map_int_fin. apply List.Forall_forall.
    intros f Hf. destruct (fs_ints_elems df ts f Hf) as [r [Hr <-]].
    exact (proj2 (Hdf r Hr)). }
  unfold all_sub_cols.
  rewrite (ts_fs_map_ok df _ (fun ts => map conv (fl ts))) by (intros ts _; apply Hok).
  eexists. split; [reflexivity|].
  intros r z Hr Hz.
  destruct (ts_values_rep df r Hr (proj1 (Hdf r Hr))) as [ts [Hts Hteq]].
  exists ts. split; [|exact Hteq].
  apply in_concat. exists (map (pair ts) (map conv (fl ts))). split.
  - apply in_map_iff. exists (ts, map conv (fl ts)). split; [reflexivity|].
    apply (in_map (fun ts => (ts, map conv (fl ts)))). exact Hts.
  - apply in_map. destruct (fs_rep df r ts Hr Hteq) as [f [Hf Hs]].
    apply in_map_iff. exists f. split; [|exact Hf].
    destruct (proj2 (Hdf r Hr)) as [q Hq]. rewrite Hq in Hz, Hs.
    destruct f as [q'| | |]; unfold flt_same in Hs; simpl in Hs; try discriminate.
    rewrite orb_false_r in Hs. apply Qeq_bool_iff in Hs. simpl in Hz. apply Qeq_bool_iff in Hz.
    simpl. apply py_int_inject_Z. rewrite <- Hs. exact Hz.
Qed.

(** render_check_tab_with_fs: a displayed stock with a technical score
    but no fundamental score (NaN) makes [int(f)] raise ValueError, when
    no fundamental score is infinite; the tab is not rendered. *)
Theorem fs_sub_columns_nan (df : list display_row) (r : display_row) :
  In r df -> py_isna (dr_technical_score r) = false -> dr_fundamental_score r = NaN ->
  Forall (fun r => dr_fundamental_score r <> PInf /\ dr_fundamental_score r <> NInf) df ->
  all_sub_cols py_sorted_desc df = PErr ValueError.
Proof.
  intros Hr Htn Hnan Hinf. rewrite List.Forall_forall in Hinf.
  destruct (ts_values_rep df r Hr Htn) as [ts [Hts Hteq]].
  destruct (fs_rep df r ts Hr Hteq) as [f [Hf Hs]].
  rewrite Hnan in Hs. apply flt_same_nan in Hs. subst f.
  destruct (map_int_nan _ Hf) as [e He].
  destruct (ts_fs_map_err df _ ts e Hts He) as [ts' [e' [_ [He' Hmap]]]].
  unfold all_sub_cols. rewrite Hmap.
  unfold fs_ints in He'. apply map_int_err in He'. destruct He' as [x [Hx Hxe]].
  destruct (fs_ints_elems df ts' x Hx) as [r' [Hr' Hx']].
  destruct (Hinf r' Hr') as [Hp Hn].
  destruct x; simpl in Hxe; congruence.
Qed.
Lemma sub_cols_shape (df : list display_row) :
  Forall (fun r => exists q, dr_fundamental_score r = Fin q) df ->
  let fl ts := py_sorted_desc (unique_floats (map dr_fundamental_score
                  (List.filter (fun r => flt_eq (dr_technical_score r) ts) df))) in
  let conv x := match x with Fin q => py_int q | _ => 0 end in
  all_sub_cols py_sorted_desc df
  = POk (concat (map (fun ts => map (pair ts) (map conv (fl ts))) (ts_values py_sorted_desc df))).
Proof.
  intros Hdf fl conv. rewrite List.Forall_forall in Hdf.
  assert (Hok : forall ts, fs_ints py_sorted_desc df ts = POk (map conv (fl ts))).
  { intros ts. unfold fs_ints. apply map_int_fin. apply List.Forall_forall.
    intros f Hf. destruct (fs_ints_elems df ts f Hf) as [r [Hr <-]]. exact (Hdf r Hr). }
  unfold all_sub_cols.
  rewrite (ts_fs_map_ok df _ (fun ts => map conv (fl ts))) by (intros ts _; apply Hok).
  rewrite map_map. reflexivity.
Qed.

Lemma sorted_unique_canon (l : list pyfloat) (x y : pyfloat) :
  In x (py_sorted_desc (unique_floats l)) -> In y (py_sorted_desc (unique_floats l)) ->
  flt_same x y = true -> x = y.
Proof.
  intros Hx Hy. apply (Permutation_in _ (sorted_perm _)) in Hx, Hy.
  exact (unique_floats_acc_canon [] l x y Hx Hy).
Qed.

Lemma sorted_unique_NoDup (l : list pyfloat) : NoDup (py_sorted_desc (unique_floats l)).
Proof. rewrite (sorted_perm _). apply unique_floats_acc_NoDup. Qed.

(** render_check_tab_with_fs: when every displayed stock has a technical
    score and an integral fundamental score, no sub-column [(ts, fs)]
    appears twice, and every stock is selected by exactly one of them,
    so it shows in exactly one cell of its industry's row. *)
Theorem fs_sub_columns_exactly_one (df : list display_row) :
  Forall (fun r => py_isna (dr_technical_score r) = false
                   /\ exists z, dr_fundamental_score r = flt_of_Z z) df ->
  exists cols, all_sub_cols py_sorted_desc df = POk cols /\ NoDup cols /\
    forall r, In r df ->
      exists ts z, In (ts, z) cols /\ flt_eq (dr_technical_score r) ts = true /\
        flt_eq (dr_fundamental_score r) (flt_of_Z z) = true /\
        forall ts' z', In (ts', z') cols -> flt_eq (dr_technical_score r) ts' = true ->
          flt_eq (dr_fundamental_score r) (flt_of_Z z') = true -> ts' = ts /\ z' = z.
Proof.
  intros Hdf.
  assert (Hfin : Forall (fun r => exists q, dr_fundamental_score r = Fin q) df).
  { eapply List.Forall_impl; [|exact Hdf]. intros r [_ [z ->]]. eexists. reflexivity. }
  rewrite List.Forall_forall in Hdf.
  rewrite (sub_cols_shape df Hfin). cbv zeta.
  set (fl ts := py_sorted_desc (unique_floats (map dr_fundamental_score
                  (List.filter (fun r => flt_eq (dr_technical_score r) ts) df)))).
  set (conv := fun x => match x with Fin q => py_int q | _ => 0 end).
  assert (Hfl : forall ts f, In f (fl ts) -> exists z, f = flt_of_Z z).
  { intros ts f Hf. destruct (fs_ints_elems df ts f Hf) as [r [Hr <-]].
    exact (proj2 (Hdf r Hr)). }
  assert (Hconv : forall z, conv (flt_of_Z z) = z).
  { intros z. apply py_int_inject_Z. reflexivity. }
  eexists. split; [reflexivity|]. split.
  - apply NoDup_concat_pairs; [apply sorted_unique_NoDup|].
    intros ts _. apply NoDup_map_on; [apply sorted_unique_NoDup|].
    intros x y Hx Hy E.
    destruct (Hfl ts x Hx) as [a ->]. destruct (Hfl ts y Hy) as [b ->].
    rewrite !Hconv in E. subst b. reflexivity.
  - intros r Hr.
    destruct (Hdf r Hr) as [Htn [z Hz]].
    destruct (ts_values_rep df r Hr Htn) as [ts [Hts Hteq]].
    destruct (fs_rep df r ts Hr Hteq) as [f [Hf Hs]].
    destruct (Hfl ts f Hf) as [b ->].
    rewrite Hz in Hs. unfold flt_same, flt_of_Z in Hs. simpl in Hs. rewrite orb_false_r in Hs.
    apply Qeq_bool_iff in Hs. unfold Qeq in Hs. simpl in Hs.
    assert (b = z) by lia. subst b.
    exists ts, z. split; [|split; [exact Hteq|split]].
    + apply in_concat. exists (map (pair ts) (map conv (fl ts))). split.
      * apply (in_map (fun ts => map (pair ts) (map conv (fl ts)))). exact Hts.
      * apply in_map. rewrite <- (Hconv z). apply in_map. exact Hf.
    + rewrite Hz. simpl. apply Qeq_bool_refl.
    + intros ts' z' Hin Ht' Hz'. split.
      * apply in_concat in Hin. destruct Hin as [l [Hl Hin]].
        apply in_map_iff in Hl. destruct Hl as [t [<- Ht]].
        apply in_map_iff in Hin. destruct Hin as [w [E _]]. inversion E; subst t.
        apply (sorted_unique_canon _ ts' ts Ht Hts).
        apply (flt_same_trans _ (dr_technical_score r)).
        -- rewrite flt_same_sym. apply flt_eq_same. exact Ht'.
        -- apply flt_eq_same. exact Hteq.
      * rewrite Hz in Hz'. unfold flt_of_Z in Hz'. simpl in Hz'.
        apply Qeq_bool_iff in Hz'. unfold Qeq in Hz'. simpl in Hz'. lia.
Qed.

(** render_check_tab_with_fs: two displayed stocks with the same
    technical score whose fundamental scores differ but have the same
    [int()] (2.5 and 2.0, say) give the same sub-column [(ts, fs)] twice,
    when every fundamental score is finite. *)
Theorem fs_sub_columns_duplicate (df : list display_row) (r1 r2 : display_row) (q1 q2 : Q) :
  In r1 df -> In r2 df -> flt_eq (dr_technical_score r1) (dr_technical_score r2) = true ->
  dr_fundamental_score r1 = Fin q1 -> dr_fundamental_score r2 = Fin q2 ->
  ~ (q1 == q2)%Q -> py_int q1 = py_int q2 ->
  Forall (fun r => exists q, dr_fundamental_score r = Fin q) df ->
  exists cols, all_sub_cols py_sorted_desc df = POk cols /\ ~ NoDup cols.
Proof.
  intros Hr1 Hr2 Ht H1 H2 Hne Hint Hfin.
  rewrite (sub_cols_shape df Hfin). cbv zeta.
  set (fl ts := py_sorted_desc (unique_floats (map dr_fundamental_score
                  (List.filter (fun r => flt_eq (dr_technical_score r) ts) df)))).
  set (conv := fun x => match x with Fin q => py_int q | _ => 0 end).
  eexists. split; [reflexivity|]. intros Hnd.
  destruct (ts_values_rep df r1 Hr1 (flt_eq_notnan _ _ Ht)) as [ts [Hts Ht1]].
  assert (Ht2 : flt_eq (dr_technical_score r2) ts = true).
  { apply flt_same_notnan.
    - rewrite flt_eq_sym in Ht. exact (flt_eq_notnan _ _ Ht).
    - apply (flt_same_trans _ (dr_technical_score r1)).
      + rewrite flt_same_sym. apply flt_eq_same. exact Ht.
      + apply flt_eq_same. exact Ht1. }
  destruct (fs_rep df r1 ts Hr1 Ht1) as [f1 [Hf1 Hs1]].
  destruct (fs_rep df r2 ts Hr2 Ht2) as [f2 [Hf2 Hs2]].
  rewrite H1 in Hs1. rewrite H2 in Hs2.
  destruct f1 as [p1| | |]; unfold flt_same in Hs1; simpl in Hs1; try discriminate.
  destruct f2 as [p2| | |]; unfold flt_same in Hs2; simpl in Hs2; try discriminate.
  rewrite orb_false_r in Hs1, Hs2. apply Qeq_bool_iff in Hs1, Hs2.
  assert (Hpart : NoDup (map (pair ts) (map conv (fl ts)))).
  { apply (NoDup_concat_part _ _ (in_map (fun ts => map (pair ts) (map conv (fl ts))) _ _ Hts) Hnd). }
  apply NoDup_map_NoDup in Hpart.
  assert (E : Fin p1 = Fin p2).
  { apply (NoDup_map_eq conv (fl ts)); [exact Hpart|exact Hf1|exact Hf2|].
    simpl. rewrite <- (py_int_comp _ _ Hs1), <- (py_int_comp _ _ Hs2). exact Hint. }
  inversion E; subst p2. apply Hne. rewrite Hs1, Hs2. reflexivity.
Qed.

End FsSubColumns.

(* ------------------------------------------------------------------ *)
(** *** create_summary_data *)

Lemma cell_eq_refl (c : cell) : cell_isna c = false -> cell_eq c c = true.
Proof.
  destruct c; simpl; try discriminate; intros _.
  - apply Qeq_bool_refl.
  - apply String.eqb_refl.
Qed.

Lemma industry_display_notna (parse : string -> option pyfloat) (raw : list industry_row)
    (selected : list cell) :
  Forall (fun r => cell_isna (in_industry r) = false)
         (industry_display selected (normalize_industry parse raw)).
Proof.
  apply List.Forall_forall. intros r Hr.
  assert (Hn : In r (normalize_industry parse raw)).
  { destruct selected; [exact Hr|]. apply List.filter_In in Hr. exact (proj1 Hr). }
  unfold normalize_industry in Hn. apply List.filter_In in Hn as [_ Hn].
  unfold industry_row_notna in Hn.
  destruct (cell_isna (in_industry r)); [discriminate|reflexivity].
Qed.

Section SummaryFacts.
Context (mean : list pyfloat -> pyfloat) (df_s : list display_row) (df_i : list industry_num_row).

Let stocks_of (x : cell) := List.filter (fun r => cell_eq (dr_industry r) x) df_s.

Lemma summary_of_spec (x : cell) (s : summary_row) :
  summary_of mean df_s df_i x = POk s ->
  su_industry s = x /\
  su_count s = length (stocks_of x) /\
  (su_count s = 0%nat -> su_avg_technical s = Fin 0 /\ su_avg_screening s = Fin 0) /\
  ((0 < su_count s)%nat ->
     su_avg_technical s = mean (map dr_technical_score (stocks_of x)) /\
     su_avg_screening s = mean (map dr_screening_score (stocks_of x))) /\
  exists d, head (List.filter (fun r => cell_eq (in_industry r) x) df_i) = Some d /\
    su_rs_rating s = in_rs_rating d /\ su_buy_pressure s = in_buy_pressure d /\
    su_status s = get_buy_pressure_status_text (in_buy_pressure d).
Proof.
  unfold summary_of. cbv zeta. fold (stocks_of x).
  destruct (List.filter (fun r => cell_eq (in_industry r) x) df_i) as [|d rest]; [discriminate|].
  intros H. inversion H; subst s; clear H; simpl.
  split; [reflexivity|]. split; [reflexivity|]. split; [|split].
  - intros E. rewrite E. split; reflexivity.
  - intros E. apply Nat.ltb_lt in E. rewrite E. split; reflexivity.
  - exists d. repeat split.
Qed.

Lemma summary_loop_spec (inds : list cell) :
  (forall x, In x inds -> exists s, summary_of mean df_s df_i x = POk s) ->
  exists out, summary_loop mean df_s df_i inds = POk out /\
    map su_industry out = inds /\
    forall s, In s out -> summary_of mean df_s df_i (su_industry s) = POk s.
Proof.
  induction inds as [|x inds IH]; intros H; simpl.
  - exists []. repeat split. intros s [].
  - destruct (H x (or_introl eq_refl)) as [s Hs]. rewrite Hs.
    destruct IH as [out [Hout [Hmap Hall]]]; [intros y Hy; apply H; right; exact Hy|].
    rewrite Hout. exists (s :: out). repeat split.
    + simpl. rewrite Hmap. f_equal. apply (summary_of_spec _ _ Hs).
    + intros t [<-|Ht]; [|exact (Hall t Ht)].
      rewrite (proj1 (summary_of_spec _ _ Hs)). exact Hs.
Qed.
End SummaryFacts.

(** create_summary_data on the industry table the app passes it (the
    normalized qualifying industries, narrowed to the selection): it
    raises KeyError exactly when that table is empty; otherwise it raises
    nothing ([.iloc[0]] always finds a row) and gives one summary row per
    industry row, whose count is the number of stocks of that industry,
    whose averages are 0 without stocks and the means otherwise, and
    whose RS Rating, Buy Pressure and status come from the first row of
    that industry. *)
Theorem create_summary_data_rows (parse : string -> option pyfloat) (raw : list industry_row)
    (selected : list cell) (mean : list pyfloat -> pyfloat) (df_s : list display_row) :
  let df_i := industry_display selected (normalize_industry parse raw) in
  let stocks_of x := List.filter (fun r => cell_eq (dr_industry r) x) df_s in
  (df_i = [] -> create_summary_data mean df_s df_i = PErr KeyError) /\
  (df_i <> [] -> exists out, create_summary_data mean df_s df_i = POk out /\
     Permutation (map su_industry out) (map in_industry df_i) /\
     forall s, In s out ->
       su_count s = length (stocks_of (su_industry s)) /\
       (su_count s = 0%nat -> su_avg_technical s = Fin 0 /\ su_avg_screening s = Fin 0) /\
       ((0 < su_count s)%nat ->
          su_avg_technical s = mean (map dr_technical_score (stocks_of (su_industry s))) /\
          su_avg_screening s = mean (map dr_screening_score (stocks_of (su_industry s)))) /\
       exists d, head (List.filter (fun r => cell_eq (in_industry r) (su_industry s)) df_i) = Some d /\
         su_rs_rating s = in_rs_rating d /\ su_buy_pressure s = in_buy_pressure d /\
         su_status s = get_buy_pressure_status_text (in_buy_pressure d)).
Proof.
  intros df_i stocks_of.
  pose proof (industry_display_notna parse raw selected) as Hna. fold df_i in Hna.
  split.
  - intros E. rewrite E. reflexivity.
  - intros Hne.
    destruct (summary_loop_spec mean df_s df_i (map in_industry df_i)) as [out [Hout [Hmap Hall]]].
    { intros x Hx. apply in_map_iff in Hx. destruct Hx as [r [<- Hr]].
      unfold summary_of.
      assert (Hin : In r (List.filter (fun r' => cell_eq (in_industry r') (in_industry r)) df_i)).
      { apply List.filter_In. split; [exact Hr|]. apply cell_eq_refl.
        rewrite List.Forall_forall in Hna. exact (Hna r Hr). }
      destruct (List.filter (fun r' => cell_eq (in_industry r') (in_industry r)) df_i);
        [destruct Hin|]. eexists. reflexivity. }
    unfold create_summary_data, create_summary_data_with. rewrite Hout.
    destruct out as [|s0 out'] eqn:Eo.
    { destruct df_i; simpl in Hmap; congruence. }
    rewrite <- Eo in *.
    eexists. split; [reflexivity|]. split.
    + rewrite <- Hmap. apply Permutation_map. apply sort_values_desc_aq_perm.
    + intros s Hs. apply (Permutation_in _ (sort_values_desc_aq_perm _ _)) in Hs.
      destruct (summary_of_spec mean df_s df_i _ _ (Hall s Hs)) as [_ [H1 [H2 [H3 H4]]]].
      auto.
Qed.

(* ------------------------------------------------------------------ *)
(** *** The sector BP ranking *)

Lemma insert_asc_perm (x : string) (l : list string) : Permutation (insert_asc x l) (x :: l).
Proof.
  induction l as [|y l IH]; simpl; [reflexivity|].
  destruct (String.leb x y); [reflexivity|].
  etransitivity; [apply perm_skip; exact IH|apply perm_swap].
Qed.

Lemma sort_asc_perm (l : list string) : Permutation (sort_asc l) l.
Proof.
  induction l as [|x l IH]; simpl; [reflexivity|].
  etransitivity; [apply insert_asc_perm|apply perm_skip; exact IH].
Qed.

Lemma drop_duplicates_acc_elem {A} `{EqDecision A} (seen l : list A) (x : A) :
  x ∈ drop_duplicates_acc seen l <-> x ∈ l /\ x ∉ seen.
Proof.
  revert seen. induction l as [|a l IH]; intros seen; cbn [drop_duplicates_acc].
  - split; [intros H; inversion H|intros [H _]; inversion H].
  - destruct (decide (a ∈ seen)) as [Ha|Ha].
    + rewrite bool_decide_true by exact Ha. rewrite IH, elem_of_cons.
      split; [intros [H1 H2]; split; [right; exact H1|exact H2]|].
      intros [[->|H1] H2]; [contradiction|split; assumption].
    + rewrite bool_decide_false by exact Ha.
      rewrite !elem_of_cons, IH, not_elem_of_cons. split.
      * intros [->|[H1 [H2 H3]]]; [split; [left; reflexivity|exact Ha]|split; [right; exact H1|exact H3]].
      * intros [[->|H1] H2]; [left; reflexivity|].
        destruct (decide (x = a)) as [->|Hxa]; [left; reflexivity|right; auto].
Qed.

Lemma drop_duplicates_acc_NoDup {A} `{EqDecision A} (seen l : list A) :
  NoDup (drop_duplicates_acc seen l).
Proof.
  revert seen. induction l as [|a l IH]; intros seen; cbn [drop_duplicates_acc]; [constructor|].
  destruct (decide (a ∈ seen)) as [Ha|Ha].
  { rewrite bool_decide_true by exact Ha. apply IH. }
  rewrite bool_decide_false by exact Ha.
  constructor; [|apply IH].
  intros Hin. apply drop_duplicates_acc_elem in Hin.
  apply (proj2 Hin). apply elem_of_cons. left. reflexivity.
Qed.

Lemma unique_In {A} `{EqDecision A} (l : list A) (x : A) : In x (unique l) <-> In x l.
Proof.
  unfold unique, drop_duplicates. rewrite <- !list_elem_of_In, drop_duplicates_acc_elem.
  split; [intros [H _]; exact H|intros H; split; [exact H|intros H'; inversion H']].
Qed.

Lemma filter_key_other {A} (key : A -> string) (k k' : string) (rows : list A) :
  k' <> k ->
  List.filter (fun r => String.eqb (key r) k') rows
  = List.filter (fun r => String.eqb (key r) k')
      (List.filter (fun r => negb (String.eqb (key r) k)) rows).
Proof.
  intros Hne. induction rows as [|a rows IH]; simpl; [reflexivity|].
  destruct (String.eqb_spec (key a) k') as [E|E]; destruct (String.eqb_spec (key a) k) as [F|F];
    simpl; try congruence.
  - rewrite E. simpl. rewrite String.eqb_refl, IH. reflexivity.
  - destruct (String.eqb_spec (key a) k'); [congruence|]. exact IH.
Qed.

(** Filtering by each key of a duplicate-free list that holds every
    row's key splits the rows. *)
Lemma concat_filter_partition {A} (key : A -> string) (K : list string) (rows : list A) :
  NoDup K -> (forall r, In r rows -> In (key r) K) ->
  Permutation (concat (map (fun k => List.filter (fun r => String.eqb (key r) k) rows) K)) rows.
Proof.
  revert rows. induction K as [|k K IH]; intros rows HK Hin; simpl.
  - destruct rows as [|r rows]; [constructor|]. exfalso. exact (Hin r (or_introl eq_refl)).
  - inversion HK as [|? ? Hk HK']; subst.
    transitivity (List.filter (fun r => String.eqb (key r) k) rows
                  ++ List.filter (fun r => negb (String.eqb (key r) k)) rows).
    + apply Permutation_app_head.
      rewrite (map_ext_in _ (fun k' => List.filter (fun r => String.eqb (key r) k')
                                 (List.filter (fun r => negb (String.eqb (key r) k)) rows))).
      * apply IH; [exact HK'|]. intros r Hr. apply List.filter_In in Hr as [Hr Hne].
        destruct (Hin r Hr) as [E|E]; [|exact E].
        rewrite E, String.eqb_refl in Hne. discriminate.
      * intros k' Hk'. apply filter_key_other. intros ->. apply Hk, list_elem_of_In. exact Hk'.
    + rewrite Permutation_app_comm.
      exact (filter_complement_perm (fun r => String.eqb (key r) k) rows).
Qed.

Lemma Permutation_concat_map_pointwise {A B} (f g : A -> list B) (l : list A) :
  (forall x, In x l -> Permutation (f x) (g x)) ->
  Permutation (concat (map f l)) (concat (map g l)).
Proof.
  induction l as [|x l IH]; intros H; simpl; [constructor|].
  apply Permutation_app; [apply H; left; reflexivity|apply IH; intros y Hy; apply H; right; exact Hy].
Qed.

Lemma Permutation_concat_map {A B} (g : A -> list B) (l l' : list A) :
  Permutation l l' -> Permutation (concat (map g l)) (concat (map g l')).
Proof.
  induction 1 as [|x l l' _ IH|x y l|l l' l'' _ IH1 _ IH2]; simpl.
  - constructor.
  - apply Permutation_app_head. exact IH.
  - rewrite !app_assoc. apply Permutation_app_tail, Permutation_app_comm.
  - etransitivity; [exact IH1|exact IH2].
Qed.

Section RankingFacts.
Context (mean : list pyfloat -> pyfloat) (m : gmap string string) (rows : list all_industry_row).

Lemma sorted_sectors_perm :
  Permutation (sorted_sectors mean m rows) (unique (map (row_sector m) rows)).
Proof.
  unfold sorted_sectors.
  etransitivity; [apply Permutation_map, sort_values_desc_aq_perm|].
  rewrite map_map. simpl. rewrite map_id. apply sort_asc_perm.
Qed.

Lemma sector_rows_nonempty (s : string) :
  In s (sorted_sectors mean m rows) -> sector_rows m rows s <> [].
Proof.
  intros Hs. apply (Permutation_in _ sorted_sectors_perm), unique_In, in_map_iff in Hs.
  destruct Hs as [r [<- Hr]].
  assert (Hin : In r (sector_rows m rows (row_sector m r))).
  { apply List.filter_In. split; [exact Hr|apply String.eqb_refl]. }
  intros E. rewrite E in Hin. exact Hin.
Qed.

Lemma sector_loop_true (ss : list string) :
  (forall s, In s ss -> sector_rows m rows s <> []) ->
  exists blocks, sector_loop mean m true rows ss = POk blocks /\
    map sb_sector blocks = ss /\
    Forall (fun b => sb_rows b = sort_values_asc NpySort.aquicksort row_rs (sector_rows m rows (sb_sector b)) /\
                     sb_total b = length (sb_rows b) /\
                     sb_rs80 b = length (List.filter (fun r => flt_le (Fin 80) (row_rs r)) (sb_rows b))) blocks.
Proof.
  induction ss as [|s ss IH]; intros H; simpl.
  - exists []. repeat split. constructor.
  - destruct IH as [blocks [H1 [H2 H4]]]; [intros t Ht; apply H; right; exact Ht|].
    unfold sector_step. simpl.
    destruct (Nat.eqb (length (sort_values_asc NpySort.aquicksort row_rs (sector_rows m rows s))) 0) eqn:E.
    + exfalso. apply Nat.eqb_eq in E.
      rewrite (Permutation_length (sort_values_asc_aq_perm _ _)) in E.
      apply length_zero_iff_nil in E. exact (H s (or_introl eq_refl) E).
    + rewrite H1. eexists. split; [reflexivity|].
      simpl. rewrite H2. split; [reflexivity|]. constructor; [repeat split|exact H4].
Qed.
End RankingFacts.

(** The sector BP ranking: when df_all_industry has an RS_Rating column
    it raises nothing, and its sections (one per sector, no sector twice)
    together hold every industry row exactly once, each section is not
    empty (the [continue] never runs), holds only rows of its sector, and
    counts [rs80_count <= total_count = len(df_sector)]; without the
    column, [sort_values('RS_Rating')] raises KeyError as soon as there
    is a row. *)
Theorem bp_ranking_sections (mean : list pyfloat -> pyfloat) (m : gmap string string)
    (rows : list all_industry_row) :
  (exists blocks, bp_ranking mean m true rows = POk blocks /\
     Permutation (concat (map sb_rows blocks)) rows /\
     NoDup (map sb_sector blocks) /\
     Forall (fun b => sb_rows b <> [] /\ sb_total b = length (sb_rows b) /\
                      (sb_rs80 b <= sb_total b)%nat /\
                      Forall (fun r => row_sector m r = sb_sector b) (sb_rows b)) blocks) /\
  (rows <> [] -> bp_ranking mean m false rows = PErr KeyError) /\
  (rows = [] -> bp_ranking mean m false rows = POk []).
Proof.
  split; [|split].
  - destruct (sector_loop_true mean m rows (sorted_sectors mean m rows)
                (sector_rows_nonempty mean m rows)) as [blocks [H1 [H2 H4]]].
    exists blocks. split; [exact H1|]. split; [|split].
    + rewrite (map_ext_in sb_rows (fun b => sort_values_asc NpySort.aquicksort row_rs
                                              (sector_rows m rows (sb_sector b))) blocks)
        by (intros b Hb; rewrite List.Forall_forall in H4; exact (proj1 (H4 b Hb))).
      rewrite <- (map_map sb_sector (fun s => sort_values_asc NpySort.aquicksort row_rs
                                                 (sector_rows m rows s))), H2.
      etransitivity; [apply Permutation_concat_map_pointwise; intros s _; apply sort_values_asc_aq_perm|].
      etransitivity; [apply Permutation_concat_map, sorted_sectors_perm|].
      apply (concat_filter_partition (row_sector m)).
      * unfold unique, drop_duplicates. apply drop_duplicates_acc_NoDup.
      * intros r Hr. apply unique_In, in_map. exact Hr.
    + rewrite H2, (sorted_sectors_perm mean m rows).
      unfold unique, drop_duplicates. apply drop_duplicates_acc_NoDup.
    + rewrite List.Forall_forall in H4 |- *. intros b Hb.
      destruct (H4 b Hb) as [Hrows [Ht Hr80]].
      assert (Hs : In (sb_sector b) (sorted_sectors mean m rows)).
      { rewrite <- H2. apply in_map. exact Hb. }
      split; [|split; [exact Ht|split]].
      * rewrite Hrows. intros E.
        apply (sector_rows_nonempty mean m rows _ Hs).
        apply Permutation_nil. rewrite <- E. apply sort_values_asc_aq_perm.
      * rewrite Hr80, Ht. apply List.filter_length_le.
      * apply List.Forall_forall. intros r Hr. rewrite Hrows in Hr.
        apply (Permutation_in _ (sort_values_asc_aq_perm _ _)), List.filter_In in Hr.
        apply String.eqb_eq. exact (proj2 Hr).
  - intros Hne. unfold bp_ranking.
    destruct (sorted_sectors mean m rows) as [|s ss] eqn:E.
    + exfalso. apply Hne. pose proof (sorted_sectors_perm mean m rows) as HP.
      rewrite E in HP. destruct rows as [|r rows]; [reflexivity|].
      exfalso.
      assert (Hu : In (row_sector m r) (unique (map (row_sector m) (r :: rows)))).
      { apply unique_In. left. reflexivity. }
      apply (Permutation_in _ (Permutation_sym HP)) in Hu. destruct Hu.
    + reflexivity.
  - intros ->. reflexivity.
Qed.

(* ================================================================== *)
(** ** Frame heights of render_check_tab *)

Lemma row_height_bounds (c : nat) : 40 <= row_height c <= 95.
Proof.
  unfold row_height.
  destruct (Nat.leb c 3), (Nat.leb c 6), (Nat.leb c 10); lia.
Qed.

Lemma row_height_mono (a b : nat) : (a <= b)%nat -> row_height a <= row_height b.
Proof.
  intros Hab. unfold row_height.
  destruct (Nat.leb_spec a 3), (Nat.leb_spec b 3), (Nat.leb_spec a 6),
    (Nat.leb_spec b 6), (Nat.leb_spec a 10), (Nat.leb_spec b 10); lia.
Qed.

Lemma total_height_bounds (base : Z) (l : list nat) :
  base + 40 * Z.of_nat (length l) <= total_height base l
  <= base + 95 * Z.of_nat (length l).
Proof.
  revert base. induction l as [|c l IH]; intros base; unfold total_height; simpl.
  - lia.
  - fold (total_height (base + row_height c) l).
    specialize (IH (base + row_height c)). pose proof (row_height_bounds c). lia.
Qed.

Lemma total_height_map_mono {A} (f g : A -> nat) (l : list A) (b b' : Z) :
  b <= b' -> (forall x, (f x <= g x)%nat) ->
  total_height b (map f l) <= total_height b' (map g l).
Proof.
  revert b b'. induction l as [|x l IH]; intros b b' Hb Hfg; unfold total_height; simpl.
  - exact Hb.
  - fold (total_height (b + row_height (f x)) (map f l)).
    fold (total_height (b' + row_height (g x)) (map g l)).
    apply IH; [|exact Hfg]. pose proof (row_height_mono _ _ (Hfg x)). lia.
Qed.

Lemma fold_nat_max_mono {A} (f g : A -> nat) (l : list A) (a b : nat) :
  (a <= b)%nat -> (forall x, (f x <= g x)%nat) ->
  (fold_left (fun m x => Nat.max m (f x)) l a
   <= fold_left (fun m x => Nat.max m (g x)) l b)%nat.
Proof.
  revert a b. induction l as [|x l IH]; intros a b Hab Hfg; simpl.
  - exact Hab.
  - apply IH; [|exact Hfg]. pose proof (Hfg x). lia.
Qed.

Lemma check_row_max_app (df extra : list display_row) (ind : cell) :
  (check_row_max df ind <= check_row_max (df ++ extra) ind)%nat.
Proof.
  unfold check_row_max. apply fold_nat_max_mono; [lia|].
  intros score. rewrite List.filter_app, length_app. lia.
Qed.

(** render_check_tab: the frame is 80 px plus 40 to 95 px per industry row
    of [df_check], and more displayed stocks never give a lower frame. *)
Theorem render_check_tab_height_range (df_check_industries : list cell)
    (df_screening_disp extra : list display_row) :
  80 + 40 * Z.of_nat (length df_check_industries)
    <= render_check_tab_height df_check_industries df_screening_disp
    <= 80 + 95 * Z.of_nat (length df_check_industries)
  /\ render_check_tab_height df_check_industries df_screening_disp
     <= render_check_tab_height df_check_industries (df_screening_disp ++ extra).
Proof.
  unfold render_check_tab_height. split.
  - pose proof (total_height_bounds 80 (map (check_row_max df_screening_disp)
                                            df_check_industries)) as H.
    rewrite length_map in H. exact H.
  - apply total_height_map_mono; [lia|]. intros ind. apply check_row_max_app.
Qed.

(* ================================================================== *)
(** ** The technical-score slider *)

Lemma Qltb_lt (x y : Q) : Qltb x y = true <-> (x < y)%Q.
Proof. unfold Qltb, Qlt. apply Z.ltb_lt. Qed.

Lemma fold_py_max_fin (l : list Q) (q : Q) :
  exists m, fold_left py_max (map Fin l) (Fin q) = Fin m
  /\ (m = q \/ In m l) /\ (q <= m)%Q /\ (forall q', In q' l -> (q' <= m)%Q).
Proof.
  revert q. induction l as [|a l IH]; intros q; simpl.
  - exists q. split; [reflexivity|]. split; [left; reflexivity|].
    split; [apply Qle_refl|]. intros q' [].
  - unfold py_max at 2. simpl. destruct (Qltb q a) eqn:Hqa.
    + apply Qltb_lt in Hqa. destruct (IH a) as (m & Hm & Hin & Ham & Hall).
      exists m. split; [exact Hm|]. split.
      { right. destruct Hin as [->|Hin]; [left; reflexivity|right; exact Hin]. }
      split; [apply Qle_trans with a; [apply Qlt_le_weak; exact Hqa|exact Ham]|].
      intros q' [<-|Hq']; [exact Ham|exact (Hall q' Hq')].
    + assert (Haq : (a <= q)%Q).
      { apply Qnot_lt_le. intros Hlt. apply Qltb_lt in Hlt. congruence. }
      destruct (IH q) as (m & Hm & Hin & Hqm & Hall).
      exists m. split; [exact Hm|]. split.
      { destruct Hin as [->|Hin]; [left; reflexivity|right; right; exact Hin]. }
      split; [exact Hqm|].
      intros q' [<-|Hq']; [apply Qle_trans with q; assumption|exact (Hall q' Hq')].
Qed.

Lemma fold_py_max_pinf (l : list pyfloat) (acc : pyfloat) :
  acc <> NaN -> (acc = PInf \/ In PInf l) -> fold_left py_max l acc = PInf.
Proof.
  revert acc. induction l as [|x l IH]; intros acc Hnan Hp; simpl.
  - destruct Hp as [->|[]]. reflexivity.
  - apply IH.
    + unfold py_max. destruct (flt_lt acc x) eqn:E; [|exact Hnan].
      destruct acc, x; simpl in E; congruence.
    + destruct Hp as [->|[->|Hin]].
      * left. reflexivity.
      * left. unfold py_max. destruct acc; simpl; congruence.
      * right. exact Hin.
Qed.

Lemma filter_keep_all {A} (f : A -> bool) (l : list A) :
  (forall x, In x l -> f x = true) -> List.filter f l = l.
Proof.
  induction l as [|x l IH]; intros H; simpl; [reflexivity|].
  rewrite (H x (or_introl eq_refl)), IH; [reflexivity|].
  intros y Hy. apply H. right. exact Hy.
Qed.

Lemma screening_ts_filter_elem (raw : list pyfloat) (x : pyfloat) :
  In x (screening_ts_filter raw) -> x = PInf \/ exists q, x = Fin q /\ (10 <= q)%Q.
Proof.
  unfold screening_ts_filter. rewrite List.filter_In. intros [_ Hx].
  destruct x; simpl in Hx; try discriminate.
  - right. exists q. split; [reflexivity|]. apply Qle_bool_iff. exact Hx.
  - left. reflexivity.
Qed.

Lemma py_int_ge_10 (q : Q) : (10 <= q)%Q -> 10 <= py_int q.
Proof.
  intros Hq. unfold py_int.
  assert (H0 : Qle_bool 0 q = true).
  { apply Qle_bool_iff. apply Qle_trans with (10 # 1); [discriminate|exact Hq]. }
  rewrite H0. pose proof (Qfloor_resp_le _ _ Hq) as H.
  change (Qfloor (inject_Z 10) <= Qfloor q) in H. rewrite Qfloor_Z in H. exact H.
Qed.

(** The first sidebar slider, on the stocks that passed load_data's
    [Technical_Score >= 10] filter: with no stock, [int(NaN)] raises
    ValueError; with an infinite score, OverflowError; otherwise the
    maximum is the truncated largest score, never below the slider's
    minimum 10. *)
Theorem min_tech_slider_max_cases (technical_scores : list pyfloat) :
  let ts := screening_ts_filter technical_scores in
  (ts = [] -> min_tech_slider_max ts = PErr ValueError)
  /\ (In PInf ts -> min_tech_slider_max ts = PErr OverflowError)
  /\ (ts <> [] -> ~ In PInf ts ->
      exists q, In (Fin q) ts /\ (forall q', In (Fin q') ts -> (q' <= q)%Q)
      /\ min_tech_slider_max ts = POk (py_int q) /\ 10 <= py_int q).
Proof.
  cbv zeta.
  set (ts := screening_ts_filter technical_scores).
  assert (Hel : forall x, In x ts -> x = PInf \/ exists q, x = Fin q /\ (10 <= q)%Q)
    by apply screening_ts_filter_elem.
  assert (Hkeep : List.filter (fun x => negb (py_isna x)) ts = ts).
  { apply filter_keep_all. intros x Hx.
    destruct (Hel x Hx) as [->|(q & -> & _)]; reflexivity. }
  unfold min_tech_slider_max, series_max. rewrite Hkeep.
  split; [|split].
  - intros ->. reflexivity.
  - intros Hin. destruct ts as [|x l] eqn:Hts; [destruct Hin|].
    rewrite fold_py_max_pinf; [reflexivity| |].
    + destruct (Hel x (or_introl eq_refl)) as [->|(q & -> & _)]; discriminate.
    + destruct Hin as [->|Hin]; [left; reflexivity|right; exact Hin].
  - intros Hne Hnp. destruct ts as [|x l] eqn:Hts; [congruence|].
    assert (Hfin : forall y, In y (x :: l) -> exists q, y = Fin q /\ (10 <= q)%Q).
    { intros y Hy. destruct (Hel y Hy) as [->|H]; [contradiction|exact H]. }
    destruct (Hfin x (or_introl eq_refl)) as (q0 & -> & Hq0).
    assert (Hl : exists ql, l = map Fin ql /\ Forall (fun q => (10 <= q)%Q) ql).
    { clear Hts Hel Hkeep Hnp Hne.
      induction l as [|y l IHl].
      - exists []. split; [reflexivity|constructor].
      - destruct (Hfin y (or_intror (or_introl eq_refl))) as (qy & -> & Hqy).
        destruct IHl as (ql & -> & Hall).
        + intros z [Hz|Hz]; apply Hfin; [left; exact Hz|right; right; exact Hz].
        + exists (qy :: ql). split; [reflexivity|constructor; assumption]. }
    destruct Hl as (ql & -> & Hall).
    destruct (fold_py_max_fin ql q0) as (m & Hm & Hin & Hq0m & Hmax).
    rewrite Hm. exists m. split; [|split; [|split]].
    + destruct Hin as [->|Hin]; [left; reflexivity|].
      right. apply in_map. exact Hin.
    + intros q' [Hq'|Hq'].
      * injection Hq' as <-. exact Hq0m.
      * apply in_map_iff in Hq'. destruct Hq' as (q'' & Heq & Hin'').
        injection Heq as <-. apply Hmax. exact Hin''.
    + reflexivity.
    + apply py_int_ge_10. apply Qle_trans with q0; assumption.
Qed.

(* ================================================================== *)
(** ** A concrete descending sort, and the sub-column theorems on sample frames *)

Lemma insert_flt_desc_perm (x : pyfloat) (l : list pyfloat) :
  Permutation (insert_flt_desc x l) (x :: l).
Proof.
  induction l as [|y l IH]; simpl; [reflexivity|].
  destruct (flt_lt y x); [reflexivity|].
  rewrite IH. apply perm_swap.
Qed.

Lemma insertion_sort_desc_perm (l : list pyfloat) : Permutation (insertion_sort_desc l) l.
Proof.
  induction l as [|x l IH]; simpl; [reflexivity|].
  unfold insertion_sort_desc in *. simpl.
  rewrite insert_flt_desc_perm, IH. reflexivity.
Qed.

Lemma fs_sub_columns_cover_witness :
  (forall l, Permutation (insertion_sort_desc l) l)
  /\ Forall (fun r => py_isna (dr_technical_score r) = false
                      /\ exists q, dr_fundamental_score r = Fin q) disp_sample_half
  /\ exists cols, all_sub_cols insertion_sort_desc disp_sample_half = POk cols /\
       forall r z, In r disp_sample_half ->
         flt_eq (dr_fundamental_score r) (flt_of_Z z) = true ->
         exists ts, In (ts, z) cols /\ flt_eq (dr_technical_score r) ts = true.
Proof.
  assert (Hdf : Forall (fun r => py_isna (dr_technical_score r) = false
                      /\ exists q, dr_fundamental_score r = Fin q) disp_sample_half)
    by (repeat (apply List.Forall_cons; [split; [reflexivity|eexists; reflexivity]|]);
        apply List.Forall_nil).
  split; [exact insertion_sort_desc_perm|]. split; [exact Hdf|].
  apply (fs_sub_columns_cover insertion_sort_desc insertion_sort_desc_perm
           disp_sample_half Hdf).
Defined.

Lemma fs_sub_columns_nan_witness :
  (forall l, Permutation (insertion_sort_desc l) l)
  /\ In (disp_row "EEE" "Banks" (Fin 12) NaN) disp_sample_nan
  /\ py_isna (dr_technical_score (disp_row "EEE" "Banks" (Fin 12) NaN)) = false
  /\ dr_fundamental_score (disp_row "EEE" "Banks" (Fin 12) NaN) = NaN
  /\ Forall (fun r => dr_fundamental_score r <> PInf /\ dr_fundamental_score r <> NInf)
       disp_sample_nan
  /\ all_sub_cols insertion_sort_desc disp_sample_nan = PErr ValueError.
Proof.
  assert (Hin : In (disp_row "EEE" "Banks" (Fin 12) NaN) disp_sample_nan)
    by (right; left; reflexivity).
  assert (Hinf : Forall (fun r => dr_fundamental_score r <> PInf
                                  /\ dr_fundamental_score r <> NInf) disp_sample_nan)
    by (repeat (apply List.Forall_cons; [split; discriminate|]); apply List.Forall_nil).
  split; [exact insertion_sort_desc_perm|]. split; [exact Hin|].
  split; [reflexivity|]. split; [reflexivity|]. split; [exact Hinf|].
  apply (fs_sub_columns_nan insertion_sort_desc insertion_sort_desc_perm
           disp_sample_nan _ Hin); [reflexivity|reflexivity|exact Hinf].
Defined.

Lemma fs_sub_columns_exactly_one_witness :
  (forall l, Permutation (insertion_sort_desc l) l)
  /\ Forall (fun r => py_isna (dr_technical_score r) = false
                      /\ exists z, dr_fundamental_score r = flt_of_Z z) disp_sample_int
  /\ exists cols, all_sub_cols insertion_sort_desc disp_sample_int = POk cols /\ NoDup cols /\
       forall r, In r disp_sample_int ->
         exists ts z, In (ts, z) cols /\ flt_eq (dr_technical_score r) ts = true /\
           flt_eq (dr_fundamental_score r) (flt_of_Z z) = true /\
           forall ts' z', In (ts', z') cols -> flt_eq (dr_technical_score r) ts' = true ->
             flt_eq (dr_fundamental_score r) (flt_of_Z z') = true -> ts' = ts /\ z' = z.
Proof.
  assert (Hdf : Forall (fun r => py_isna (dr_technical_score r) = false
                      /\ exists z, dr_fundamental_score r = flt_of_Z z) disp_sample_int).
  { apply List.Forall_cons; [split; [reflexivity|exists 3%Z; reflexivity]|].
    apply List.Forall_cons; [split; [reflexivity|exists 2%Z; reflexivity]|].
    apply List.Forall_cons; [split; [reflexivity|exists 2%Z; reflexivity]|].
    apply List.Forall_nil. }
  split; [exact insertion_sort_desc_perm|]. split; [exact Hdf|].
  apply (fs_sub_columns_exactly_one insertion_sort_desc insertion_sort_desc_perm
           disp_sample_int Hdf).
Defined.

Lemma fs_sub_columns_duplicate_witness :
  (forall l, Permutation (insertion_sort_desc l) l)
  /\ In (disp_row "CCC" "Banks" (Fin 14) (Fin 2)) disp_sample_half
  /\ In (disp_row "BBB" "Semiconductors" (Fin 14) (Fin (5 # 2))) disp_sample_half
  /\ flt_eq (Fin 14) (Fin 14) = true
  /\ ~ (2 == 5 # 2)%Q /\ py_int 2 = py_int (5 # 2)
  /\ Forall (fun r => exists q, dr_fundamental_score r = Fin q) disp_sample_half
  /\ exists cols, all_sub_cols insertion_sort_desc disp_sample_half = POk cols
       /\ ~ NoDup cols.
Proof.
  assert (Hin1 : In (disp_row "CCC" "Banks" (Fin 14) (Fin 2)) disp_sample_half)
    by (right; left; reflexivity).
  assert (Hin2 : In (disp_row "BBB" "Semiconductors" (Fin 14) (Fin (5 # 2)))
                    disp_sample_half)
    by (right; right; right; left; reflexivity).
  assert (Hne : ~ (2 == 5 # 2)%Q) by (vm_compute; intros H; discriminate H).
  assert (Hint : py_int 2 = py_int (5 # 2)) by (vm_compute; reflexivity).
  assert (Hfin : Forall (fun r => exists q, dr_fundamental_score r = Fin q)
                   disp_sample_half)
    by (repeat (apply List.Forall_cons; [eexists; reflexivity|]); apply List.Forall_nil).
  split; [exact insertion_sort_desc_perm|]. split; [exact Hin1|]. split; [exact Hin2|].
  split; [reflexivity|]. split; [exact Hne|]. split; [exact Hint|]. split; [exact Hfin|].
  apply (fs_sub_columns_duplicate insertion_sort_desc insertion_sort_desc_perm
           disp_sample_half _ _ 2 (5 # 2) Hin1 Hin2); try reflexivity; assumption.
Defined.

Lemma html_escape_injective_witness :
  html_escape "A<B&C" = html_escape "A<B&C" /\ "A<B&C"%string = "A<B&C"%string.
Proof.
  split; [reflexivity|].
  apply html_escape_injective. vm_compute. reflexivity.
Defined.
